(** * delay.c: delay and sleep on the EFM32 real-time counter and SysTick

    A shallow embedding of [delay.c] (version 3.4): the two public waits
    [delay] and [sleep], the lazy initialisation [initRTC], the accessors
    [RTC_checkWakeup], [RTC_clearWakeup], [RTC_getPassedSleeptime] and the
    two interrupt service routines [SysTick_Handler] and [RTC_IRQHandler].

    - [uint32_t] values are integers in [Z] with the reduction modulo [2^32]
      written out ([uint32]);
    - the [double] constants [ULFRCOFREQ_MS] and [LFXOFREQ_MS] and the
      arithmetic done on them are IEEE 754 binary64 ([spec_float]);
    - the file-scope variables and the peripheral registers the program reads
      or writes form one [state] record that every function threads;
    - every call into the vendor libraries and every interrupt is appended to
      a [trace], newest event first;
    - what happens while the processor waits (which interrupt ends a
      low-power wait, how many tick interrupts arrive between two polls of
      the busy loop) is an explicit [environment] argument;
    - a function that may never return (a wait nobody ends, the [while (1)]
      after a failed [SysTick_Config]) returns [option]. *)

From Stdlib Require Import ZArith List Bool Lia Ascii String.
From Stdlib Require Import Floats.SpecFloat.
Import ListNotations.
Local Open Scope Z_scope.

Set Implicit Arguments.

(** ** Machine arithmetic *)

(** Reduction of an integer to [uint32_t]. *)
Definition uint32 (x : Z) : Z := x mod 2 ^ 32.

(** Bitwise complement of a 32-bit word (the C operator [~] on [uint32_t]). *)
Definition not32 (x : Z) : Z := Z.lxor x 0xFFFFFFFF.

(** IEEE 754 binary64, the [double] of the target. *)
Module Double.

Definition prec : Z := 53.
Definition emax : Z := 1024.

(** Conversion of an integer constant or of a [uint32_t] to [double]
    (exact below [2^53]). *)
Definition of_Z (z : Z) : spec_float := binary_normalize prec emax z 0 false.

Definition mul (x y : spec_float) : spec_float := SFmul prec emax x y.

Definition leb (x y : spec_float) : bool := SFleb x y.

(** Conversion of a [double] to an unsigned integer: the fractional part is
    discarded. Only used on finite non-negative values that fit. *)
Definition to_uint32 (x : spec_float) : Z :=
  match x with
  | S754_finite false m e =>
      if 0 <=? e then Z.shiftl (Z.pos m) e else Z.shiftr (Z.pos m) (- e)
  | _ => 0
  end.

End Double.

(** ** Local definitions of delay.c *)

Definition ULFRCOFREQ : Z := 1000.
Definition LFXOFREQ : Z := 32768.

(** [#define ULFRCOFREQ_MS 1.000] *)
Definition ULFRCOFREQ_MS : spec_float := Double.of_Z 1.

(** [#define LFXOFREQ_MS 32.768]: the binary64 number nearest to 32.768,
    [0x1.0624dd2f1a9fcp+5]. *)
Definition LFXOFREQ_MS : spec_float := S754_finite false 4611686018427388 (-47).

(** The line end [\n\r] of the diagnostics, and the text [" s\n\r\n\r"]
    that follows the duration in the announcement of [sleep]. *)
Definition LF_CR : string := String "010"%char (String "013"%char EmptyString).

Definition seconds_suffix : string := (" s" ++ LF_CR ++ LF_CR)%string.

(** The widest value of a compare register, [0x00ffffff]. *)
Definition RTC_COMP_MAX : Z := 0x00ffffff.

(** ** Build configuration *)

(** The preprocessor symbols that select the code compiled. *)
Record config : Set := mkConfig {
  SYSTICKDELAY : bool;       (* [SYSTICKDELAY == 1]: delay on SysTick *)
  ULFRCO : bool;             (* [ULFRCO == 1]: ULFRCO, else LFXO *)
  DEBUG_DBPRINT : bool;      (* [DEBUG_DBPRINT == 1] *)
  ANNOUNCE_SLEEPING : bool   (* [ANNOUNCE_SLEEPING == 1] *)
}.

(** Facts of the board the vendor libraries answer with. *)
Record board : Set := mkBoard {
  (* the value of [CMU_ClockFreqGet(cmuClock_CORE)] *)
  core_clock : Z;
  (* whether a stopped real-time counter reads zero ([true]) or keeps the
     count it stopped at ([false]) *)
  cnt_cleared_when_stopped : bool
}.

(** ** Events *)

Inductive clock : Set := cmuClock_CORE | cmuClock_HFLE | cmuClock_RTC.

Inductive select : Set := cmuSelect_ULFRCO | cmuSelect_LFXO.

Inductive level : Set := Info | Crit.

Inductive event : Set :=
| Ev_CMU_OscillatorEnable_LFXO
| Ev_CMU_ClockEnable (c : clock) (on : bool)
| Ev_CMU_ClockFreqGet (c : clock)
| Ev_CMU_ClockSelectSet_LFA (s : select)
| Ev_RTC_IntEnable
| Ev_RTC_IntClear
| Ev_NVIC_ClearPendingIRQ
| Ev_NVIC_EnableIRQ
| Ev_RTC_Init
| Ev_RTC_CompareSet (v : Z)
| Ev_RTC_Enable (on : bool)
| Ev_RTC_CounterGet
| Ev_EMU_EnterEM2
| Ev_EMU_EnterEM3
| Ev_SysTick_Config (ticks : Z)
| Ev_SysTick_CTRL (v : Z)
| Ev_dbprint (l : level) (msg : string)
| Ev_dbinfoInt (before : string) (v : Z) (after : string)
| Ev_IRQ_RTC
| Ev_IRQ_SysTick.

(** ** State *)

Record state : Set := mkState {
  (* variables of delay.c *)
  RTC_sleep_wakeup : bool;
  msTicks : Z;
  sleeping : bool;
  RTC_initialized : bool;
  SysTick_initialized : bool;
  (* clock management unit: the gate of the RTC clock *)
  clk_RTC : bool;
  (* real-time counter: enable bit, compare register 0, counter, interrupt
     enable and interrupt flag of compare channel 0 *)
  RTC_EN : bool;
  RTC_COMP0 : Z;
  RTC_CNT : Z;
  RTC_IEN_COMP0 : bool;
  RTC_IF_COMP0 : bool;
  (* interrupt controller: the RTC line *)
  NVIC_RTC : bool;
  (* SysTick control and status register *)
  SysTick_CTRL : Z;
  (* library calls and interrupts so far, newest first *)
  trace : list event
}.

(** The state after reset, with the initialisers of delay.c. *)
Definition init_state : state :=
  {| RTC_sleep_wakeup := false; msTicks := 0; sleeping := false;
     RTC_initialized := false; SysTick_initialized := false;
     clk_RTC := false; RTC_EN := false; RTC_COMP0 := 0; RTC_CNT := 0;
     RTC_IEN_COMP0 := false; RTC_IF_COMP0 := false; NVIC_RTC := false;
     SysTick_CTRL := 0; trace := [] |}.

(** ** Assignments

    One function per variable or register: the state with that component
    replaced. *)

Definition set_RTC_sleep_wakeup (v : bool) (st : state) : state :=
  {| RTC_sleep_wakeup := v; msTicks := msTicks st; sleeping := sleeping st;
     RTC_initialized := RTC_initialized st; SysTick_initialized :=
     SysTick_initialized st; clk_RTC := clk_RTC st; RTC_EN := RTC_EN st;
     RTC_COMP0 := RTC_COMP0 st; RTC_CNT := RTC_CNT st; RTC_IEN_COMP0 :=
     RTC_IEN_COMP0 st; RTC_IF_COMP0 := RTC_IF_COMP0 st; NVIC_RTC := NVIC_RTC
     st; SysTick_CTRL := SysTick_CTRL st; trace := trace st |}.

Definition set_msTicks (v : Z) (st : state) : state :=
  {| RTC_sleep_wakeup := RTC_sleep_wakeup st; msTicks := v; sleeping :=
     sleeping st; RTC_initialized := RTC_initialized st; SysTick_initialized :=
     SysTick_initialized st; clk_RTC := clk_RTC st; RTC_EN := RTC_EN st;
     RTC_COMP0 := RTC_COMP0 st; RTC_CNT := RTC_CNT st; RTC_IEN_COMP0 :=
     RTC_IEN_COMP0 st; RTC_IF_COMP0 := RTC_IF_COMP0 st; NVIC_RTC := NVIC_RTC
     st; SysTick_CTRL := SysTick_CTRL st; trace := trace st |}.

Definition set_sleeping (v : bool) (st : state) : state :=
  {| RTC_sleep_wakeup := RTC_sleep_wakeup st; msTicks := msTicks st; sleeping
     := v; RTC_initialized := RTC_initialized st; SysTick_initialized :=
     SysTick_initialized st; clk_RTC := clk_RTC st; RTC_EN := RTC_EN st;
     RTC_COMP0 := RTC_COMP0 st; RTC_CNT := RTC_CNT st; RTC_IEN_COMP0 :=
     RTC_IEN_COMP0 st; RTC_IF_COMP0 := RTC_IF_COMP0 st; NVIC_RTC := NVIC_RTC
     st; SysTick_CTRL := SysTick_CTRL st; trace := trace st |}.

Definition set_RTC_initialized (v : bool) (st : state) : state :=
  {| RTC_sleep_wakeup := RTC_sleep_wakeup st; msTicks := msTicks st; sleeping
     := sleeping st; RTC_initialized := v; SysTick_initialized :=
     SysTick_initialized st; clk_RTC := clk_RTC st; RTC_EN := RTC_EN st;
     RTC_COMP0 := RTC_COMP0 st; RTC_CNT := RTC_CNT st; RTC_IEN_COMP0 :=
     RTC_IEN_COMP0 st; RTC_IF_COMP0 := RTC_IF_COMP0 st; NVIC_RTC := NVIC_RTC
     st; SysTick_CTRL := SysTick_CTRL st; trace := trace st |}.

Definition set_SysTick_initialized (v : bool) (st : state) : state :=
  {| RTC_sleep_wakeup := RTC_sleep_wakeup st; msTicks := msTicks st; sleeping
     := sleeping st; RTC_initialized := RTC_initialized st; SysTick_initialized
     := v; clk_RTC := clk_RTC st; RTC_EN := RTC_EN st; RTC_COMP0 := RTC_COMP0
     st; RTC_CNT := RTC_CNT st; RTC_IEN_COMP0 := RTC_IEN_COMP0 st; RTC_IF_COMP0
     := RTC_IF_COMP0 st; NVIC_RTC := NVIC_RTC st; SysTick_CTRL := SysTick_CTRL
     st; trace := trace st |}.

Definition set_clk_RTC (v : bool) (st : state) : state :=
  {| RTC_sleep_wakeup := RTC_sleep_wakeup st; msTicks := msTicks st; sleeping
     := sleeping st; RTC_initialized := RTC_initialized st; SysTick_initialized
     := SysTick_initialized st; clk_RTC := v; RTC_EN := RTC_EN st; RTC_COMP0 :=
     RTC_COMP0 st; RTC_CNT := RTC_CNT st; RTC_IEN_COMP0 := RTC_IEN_COMP0 st;
     RTC_IF_COMP0 := RTC_IF_COMP0 st; NVIC_RTC := NVIC_RTC st; SysTick_CTRL :=
     SysTick_CTRL st; trace := trace st |}.

Definition set_RTC_EN (v : bool) (st : state) : state :=
  {| RTC_sleep_wakeup := RTC_sleep_wakeup st; msTicks := msTicks st; sleeping
     := sleeping st; RTC_initialized := RTC_initialized st; SysTick_initialized
     := SysTick_initialized st; clk_RTC := clk_RTC st; RTC_EN := v; RTC_COMP0
     := RTC_COMP0 st; RTC_CNT := RTC_CNT st; RTC_IEN_COMP0 := RTC_IEN_COMP0 st;
     RTC_IF_COMP0 := RTC_IF_COMP0 st; NVIC_RTC := NVIC_RTC st; SysTick_CTRL :=
     SysTick_CTRL st; trace := trace st |}.

Definition set_RTC_COMP0 (v : Z) (st : state) : state :=
  {| RTC_sleep_wakeup := RTC_sleep_wakeup st; msTicks := msTicks st; sleeping
     := sleeping st; RTC_initialized := RTC_initialized st; SysTick_initialized
     := SysTick_initialized st; clk_RTC := clk_RTC st; RTC_EN := RTC_EN st;
     RTC_COMP0 := v; RTC_CNT := RTC_CNT st; RTC_IEN_COMP0 := RTC_IEN_COMP0 st;
     RTC_IF_COMP0 := RTC_IF_COMP0 st; NVIC_RTC := NVIC_RTC st; SysTick_CTRL :=
     SysTick_CTRL st; trace := trace st |}.

Definition set_RTC_CNT (v : Z) (st : state) : state :=
  {| RTC_sleep_wakeup := RTC_sleep_wakeup st; msTicks := msTicks st; sleeping
     := sleeping st; RTC_initialized := RTC_initialized st; SysTick_initialized
     := SysTick_initialized st; clk_RTC := clk_RTC st; RTC_EN := RTC_EN st;
     RTC_COMP0 := RTC_COMP0 st; RTC_CNT := v; RTC_IEN_COMP0 := RTC_IEN_COMP0
     st; RTC_IF_COMP0 := RTC_IF_COMP0 st; NVIC_RTC := NVIC_RTC st; SysTick_CTRL
     := SysTick_CTRL st; trace := trace st |}.

Definition set_RTC_IEN_COMP0 (v : bool) (st : state) : state :=
  {| RTC_sleep_wakeup := RTC_sleep_wakeup st; msTicks := msTicks st; sleeping
     := sleeping st; RTC_initialized := RTC_initialized st; SysTick_initialized
     := SysTick_initialized st; clk_RTC := clk_RTC st; RTC_EN := RTC_EN st;
     RTC_COMP0 := RTC_COMP0 st; RTC_CNT := RTC_CNT st; RTC_IEN_COMP0 := v;
     RTC_IF_COMP0 := RTC_IF_COMP0 st; NVIC_RTC := NVIC_RTC st; SysTick_CTRL :=
     SysTick_CTRL st; trace := trace st |}.

Definition set_RTC_IF_COMP0 (v : bool) (st : state) : state :=
  {| RTC_sleep_wakeup := RTC_sleep_wakeup st; msTicks := msTicks st; sleeping
     := sleeping st; RTC_initialized := RTC_initialized st; SysTick_initialized
     := SysTick_initialized st; clk_RTC := clk_RTC st; RTC_EN := RTC_EN st;
     RTC_COMP0 := RTC_COMP0 st; RTC_CNT := RTC_CNT st; RTC_IEN_COMP0 :=
     RTC_IEN_COMP0 st; RTC_IF_COMP0 := v; NVIC_RTC := NVIC_RTC st; SysTick_CTRL
     := SysTick_CTRL st; trace := trace st |}.

Definition set_NVIC_RTC (v : bool) (st : state) : state :=
  {| RTC_sleep_wakeup := RTC_sleep_wakeup st; msTicks := msTicks st; sleeping
     := sleeping st; RTC_initialized := RTC_initialized st; SysTick_initialized
     := SysTick_initialized st; clk_RTC := clk_RTC st; RTC_EN := RTC_EN st;
     RTC_COMP0 := RTC_COMP0 st; RTC_CNT := RTC_CNT st; RTC_IEN_COMP0 :=
     RTC_IEN_COMP0 st; RTC_IF_COMP0 := RTC_IF_COMP0 st; NVIC_RTC := v;
     SysTick_CTRL := SysTick_CTRL st; trace := trace st |}.

Definition set_SysTick_CTRL (v : Z) (st : state) : state :=
  {| RTC_sleep_wakeup := RTC_sleep_wakeup st; msTicks := msTicks st; sleeping
     := sleeping st; RTC_initialized := RTC_initialized st; SysTick_initialized
     := SysTick_initialized st; clk_RTC := clk_RTC st; RTC_EN := RTC_EN st;
     RTC_COMP0 := RTC_COMP0 st; RTC_CNT := RTC_CNT st; RTC_IEN_COMP0 :=
     RTC_IEN_COMP0 st; RTC_IF_COMP0 := RTC_IF_COMP0 st; NVIC_RTC := NVIC_RTC
     st; SysTick_CTRL := v; trace := trace st |}.

Definition set_trace (v : list event) (st : state) : state :=
  {| RTC_sleep_wakeup := RTC_sleep_wakeup st; msTicks := msTicks st; sleeping
     := sleeping st; RTC_initialized := RTC_initialized st; SysTick_initialized
     := SysTick_initialized st; clk_RTC := clk_RTC st; RTC_EN := RTC_EN st;
     RTC_COMP0 := RTC_COMP0 st; RTC_CNT := RTC_CNT st; RTC_IEN_COMP0 :=
     RTC_IEN_COMP0 st; RTC_IF_COMP0 := RTC_IF_COMP0 st; NVIC_RTC := NVIC_RTC
     st; SysTick_CTRL := SysTick_CTRL st; trace := v |}.

(** [log e st]: the event [e] happened in [st]. *)
Definition log (e : event) (st : state) : state :=
  set_trace (e :: trace st) st.

(** Statements in sequence, written in program order. *)
Notation "st |> f" := (f st) (at level 45, left associativity, only parsing).

Definition bind {A B : Type} (m : option A) (k : A -> option B) : option B :=
  match m with
  | Some a => k a
  | None => None
  end.

Notation "'do' x <- m ; k" := (bind m (fun x => k))
  (at level 10, x name, m at level 100, k at level 200, only parsing).

(** ** Environment *)

(** What ends a low-power wait. *)
Inductive wake : Set :=
| CompareMatch            (* the counter reached compare value 0 *)
| ExternalWake (cnt : Z)  (* another interrupt, the counter reading [cnt] *).

(** What the surroundings do during one call: the cause that ends the
    low-power wait, and for the busy loop the number of tick interrupts that
    arrive before each further poll of [msTicks]. *)
Record environment : Set := mkEnv {
  wake_cause : wake;
  tick_bursts : list nat
}.

(** Bits of the SysTick control and status register. *)
Definition SysTick_CTRL_ENABLE_Msk : Z := 1.
Definition SysTick_CTRL_TICKINT_Msk : Z := 2.
Definition SysTick_CTRL_CLKSOURCE_Msk : Z := 4.
Definition SysTick_LOAD_RELOAD_Msk : Z := 0xFFFFFF.

Section Program.

Variable cfg : config.
Variable hw : board.

(** ** Vendor libraries and peripherals *)

(** Modelled from the spec: emlib's [CMU_ClockEnable], whose source is not
    part of the sources. It opens or closes a clock gate; the gate of the
    real-time counter is the one the program depends on. *)
Definition CMU_ClockEnable (c : clock) (on : bool) (st : state) : state :=
  log (Ev_CMU_ClockEnable c on)
    (match c with
     | cmuClock_RTC => set_clk_RTC on st
     | cmuClock_HFLE | cmuClock_CORE => st
     end).

(** Modelled from the spec: emlib's [CMU_ClockFreqGet], source missing: the
    frequency of a clock in Hz, a [uint32_t]. The program asks for the core
    clock only, whose frequency the board gives. *)
Definition CMU_ClockFreqGet (c : clock) (st : state) : Z * state :=
  (uint32 (core_clock hw), log (Ev_CMU_ClockFreqGet c) st).

(** Modelled from the spec: emlib's [CMU_OscillatorEnable] for the crystal
    oscillator and [CMU_ClockSelectSet] for the LFA branch, sources missing;
    they only matter as steps of the initialisation. *)
Definition CMU_OscillatorEnable_LFXO (st : state) : state :=
  log Ev_CMU_OscillatorEnable_LFXO st.

Definition CMU_ClockSelectSet_LFA (s : select) (st : state) : state :=
  log (Ev_CMU_ClockSelectSet_LFA s) st.

(** Modelled from the spec: the enable bit of the real-time counter, source
    of emlib missing. Setting it starts the counter, clearing it stops the
    counter; the board says whether a stopped counter reads zero. *)
Definition rtc_enable_bit (on : bool) (st : state) : state :=
  st |> set_RTC_EN on
     |> set_RTC_CNT (if on then RTC_CNT st
                     else if cnt_cleared_when_stopped hw then 0
                     else RTC_CNT st).

(** Modelled from the spec: emlib's [RTC_Enable], source missing. *)
Definition RTC_Enable (on : bool) (st : state) : state :=
  st |> rtc_enable_bit on |> log (Ev_RTC_Enable on).

(** Modelled from the spec: emlib's [RTC_Init], source missing; of the
    settings only [enable] is changed by the program. *)
Definition RTC_Init (enable : bool) (st : state) : state :=
  st |> rtc_enable_bit enable |> log Ev_RTC_Init.

(** Modelled from the spec: emlib's [RTC_CompareSet], source missing: writes
    the compare target of a channel; channel 0 is the one in use. *)
Definition RTC_CompareSet (comp : Z) (v : Z) (st : state) : state :=
  (if comp =? 0 then set_RTC_COMP0 v st else st) |> log (Ev_RTC_CompareSet v).

(** Modelled from the spec: emlib's [RTC_CounterGet], source missing: reads
    the current tick count of the counter. *)
Definition RTC_CounterGet (st : state) : Z * state :=
  (RTC_CNT st, log Ev_RTC_CounterGet st).

(** Modelled from the spec: emlib's [RTC_IntEnable] and [RTC_IntClear]
    on [RTC_IEN_COMP0] and [RTC_IFC_COMP0], sources missing. *)
Definition RTC_IntEnable (st : state) : state :=
  st |> set_RTC_IEN_COMP0 true |> log Ev_RTC_IntEnable.

Definition RTC_IntClear (st : state) : state :=
  st |> set_RTC_IF_COMP0 false |> log Ev_RTC_IntClear.

(** Modelled from the spec: CMSIS [NVIC_ClearPendingIRQ] and
    [NVIC_EnableIRQ] on [RTC_IRQn], sources missing. *)
Definition NVIC_ClearPendingIRQ (st : state) : state :=
  log Ev_NVIC_ClearPendingIRQ st.

Definition NVIC_EnableIRQ (st : state) : state :=
  st |> set_NVIC_RTC true |> log Ev_NVIC_EnableIRQ.

(** Modelled from the spec: CMSIS [SysTick_Config], source missing
    (the program says of it: initialize and start SysTick). It answers 1 and
    does nothing when the reload value [ticks - 1] does not fit the reload
    register, else it selects the core clock, enables the tick interrupt and
    the counter, and answers 0. *)
Definition SysTick_Config (ticks : Z) (st : state) : Z * state :=
  let st := log (Ev_SysTick_Config ticks) st in
  if SysTick_LOAD_RELOAD_Msk <? uint32 (ticks - 1) then (1, st)
  else (0, set_SysTick_CTRL
             (Z.lor SysTick_CTRL_CLKSOURCE_Msk
                (Z.lor SysTick_CTRL_TICKINT_Msk SysTick_CTRL_ENABLE_Msk)) st).

(** A store to [SysTick->CTRL]. *)
Definition write_SysTick_CTRL (v : Z) (st : state) : state :=
  st |> set_SysTick_CTRL v |> log (Ev_SysTick_CTRL v).

(** Modelled from the spec: the diagnostic sink of dbprint ([dbinfo],
    [dbcrit], [dbinfoInt]), whose source is not part of the sources: it takes
    a levelled text, with an integer for [dbinfoInt], and touches nothing
    else. The calls are compiled in with [DEBUG_DBPRINT]. *)
Definition dbprint (l : level) (msg : string) (st : state) : state :=
  if DEBUG_DBPRINT cfg then log (Ev_dbprint l msg) st else st.

Definition dbinfo := dbprint Info.
Definition dbcrit := dbprint Crit.

(** ** Interrupt service routines *)

(** [void SysTick_Handler (void)] *)
Definition SysTick_Handler (st : state) : state :=
  set_msTicks (uint32 (msTicks st + 1)) st.

(** [void RTC_IRQHandler (void)] *)
Definition RTC_IRQHandler (st : state) : state :=
  let st := RTC_Enable false st in
  let st := RTC_IntClear st in
  if sleeping st then set_RTC_sleep_wakeup true st else st.

(** ** Interrupts and waiting *)

(** The tick interrupt is taken when SysTick counts and its interrupt is
    enabled. *)
Definition SysTick_running (st : state) : bool :=
  Z.testbit (SysTick_CTRL st) 0 && Z.testbit (SysTick_CTRL st) 1.

Definition SysTick_irq (st : state) : state :=
  if SysTick_running st then SysTick_Handler (log Ev_IRQ_SysTick st) else st.

(** The compare interrupt can be taken when the counter is clocked and
    counting and the interrupt is enabled in the counter and in the
    interrupt controller. *)
Definition compare_irq_armed (st : state) : bool :=
  clk_RTC st && RTC_EN st && RTC_IEN_COMP0 st && NVIC_RTC st.

Definition RTC_irq (st : state) : state :=
  if compare_irq_armed st then
    st |> set_RTC_CNT (RTC_COMP0 st) |> set_RTC_IF_COMP0 true
       |> log Ev_IRQ_RTC |> RTC_IRQHandler
  else st.

(** Modelled from the spec: the low-power wait of emlib's [EMU_EnterEM2] and
    [EMU_EnterEM3], sources missing. The processor resumes on an interrupt:
    on the compare match, whose handler runs to completion before the caller
    goes on, or on an external signal. A compare match that cannot be
    signalled never ends the wait. *)
Definition low_power_wait (w : wake) (st : state) : option state :=
  match w with
  | CompareMatch => if compare_irq_armed st then Some (RTC_irq st) else None
  | ExternalWake cnt =>
      Some (if clk_RTC st && RTC_EN st
            then set_RTC_CNT (Z.land cnt RTC_COMP_MAX) st else st)
  end.

Definition EMU_EnterEM2 (w : wake) (st : state) : option state :=
  low_power_wait w (log Ev_EMU_EnterEM2 st).

Definition EMU_EnterEM3 (w : wake) (st : state) : option state :=
  low_power_wait w (log Ev_EMU_EnterEM3 st).

(** The loop [while ((msTicks - curTicks) < msDelay);]: each further poll
    comes after the next burst of tick interrupts; the loop does not end
    when the bursts run out first. *)
Fixpoint busy_wait (bursts : list nat) (curTicks msDelay : Z) (st : state)
  : option state :=
  if uint32 (msTicks st - curTicks) <? msDelay then
    match bursts with
    | [] => None
    | k :: rest => busy_wait rest curTicks msDelay (Nat.iter k SysTick_irq st)
    end
  else Some st.

(** ** The program *)

(** [static void initRTC (void)] *)
Definition initRTC (st : state) : state :=
  let st :=
    if ULFRCO cfg then
      st |> CMU_ClockEnable cmuClock_HFLE true
         |> CMU_ClockSelectSet_LFA cmuSelect_ULFRCO
    else
      st |> CMU_OscillatorEnable_LFXO
         |> CMU_ClockEnable cmuClock_HFLE true
         |> CMU_ClockSelectSet_LFA cmuSelect_LFXO in
  let st := CMU_ClockEnable cmuClock_RTC true st in
  let st := RTC_IntEnable st in
  let st := RTC_IntClear st in
  let st := NVIC_ClearPendingIRQ st in
  let st := NVIC_EnableIRQ st in
  let st := RTC_Init false st in
  let st := dbinfo (if ULFRCO cfg then "RTC initialized with ULFRCO"
                    else "RTC initialized with LFXO") st in
  set_RTC_initialized true st.

(** The first statement of [delay] (RTC build) and of [sleep]: initialise on
    first use, else switch the RTC clock on when a wait is asked for. *)
Definition ensure_RTC (duration : Z) (st : state) : state :=
  if negb (RTC_initialized st) then initRTC st
  else if 0 <? duration then CMU_ClockEnable cmuClock_RTC true st
  else st.

(** The product [ULFRCOFREQ_MS * msDelay] or [LFXOFREQ_MS * msDelay], computed
    in [double]. *)
Definition delay_ticks (msDelay : Z) : spec_float :=
  Double.mul (if ULFRCO cfg then ULFRCOFREQ_MS else LFXOFREQ_MS)
             (Double.of_Z msDelay).

(** The product [ULFRCOFREQ * sSleep] or [LFXOFREQ * sSleep], computed in
    [uint32_t]. *)
Definition sleep_ticks (sSleep : Z) : Z :=
  uint32 ((if ULFRCO cfg then ULFRCOFREQ else LFXOFREQ) * sSleep).

(** The low-power state of the build: EM3 on the ULFRCO, EM2 on the LFXO. *)
Definition EMU_Enter (w : wake) (st : state) : option state :=
  if ULFRCO cfg then EMU_EnterEM3 w st else EMU_EnterEM2 w st.

(** The first statement of [delay] (SysTick build): initialise and start
    SysTick on first use and stay in [while (1);] when that fails, else
    enable the tick interrupt and the counter when a wait is asked for. *)
Definition ensure_SysTick (msDelay : Z) (st : state) : option state :=
  if negb (SysTick_initialized st) then
    let (freq, st) := CMU_ClockFreqGet cmuClock_CORE st in
    let (failed, st) := SysTick_Config (freq / 1000) st in
    if failed =? 0 then
      let st := dbinfo "SysTick initialized" st in
      Some (set_SysTick_initialized true st)
    else None
  else if 0 <? msDelay then
    Some (write_SysTick_CTRL
            (Z.lor (SysTick_CTRL st)
               (Z.lor SysTick_CTRL_TICKINT_Msk SysTick_CTRL_ENABLE_Msk)) st)
  else Some st.

(** The last statement of the wait: the tick interrupt and the counter are
    disabled again. *)
Definition disable_SysTick (st : state) : state :=
  write_SysTick_CTRL
    (Z.land (SysTick_CTRL st)
       (Z.land (not32 SysTick_CTRL_TICKINT_Msk)
               (not32 SysTick_CTRL_ENABLE_Msk))) st.

(** [void delay (uint32_t msDelay)], the branch [SYSTICKDELAY == 1]. *)
Definition delay_SysTick (msDelay : Z) (env : environment) (st : state)
  : option state :=
  do st <- ensure_SysTick msDelay st;
  if 0 <? msDelay then
    let curTicks := msTicks st in
    do st <- busy_wait (tick_bursts env) curTicks msDelay st;
    Some (disable_SysTick st)
  else Some st.

(** [void delay (uint32_t msDelay)], the branch of the real-time counter. *)
Definition delay_RTC (msDelay : Z) (env : environment) (st : state)
  : option state :=
  let st := ensure_RTC msDelay st in
  if 0 <? msDelay then
    if Double.leb (delay_ticks msDelay) (Double.of_Z RTC_COMP_MAX) then
      let st := RTC_CompareSet 0 (Double.to_uint32 (delay_ticks msDelay)) st in
      let st := RTC_Enable true st in
      do st <- EMU_Enter (wake_cause env) st;
      Some (CMU_ClockEnable cmuClock_RTC false st)
    else
      let st := dbcrit "Delay too long, can't fit in the field!" st in
      let st := CMU_ClockEnable cmuClock_RTC false st in
      Some st (* [return;] *)
  else Some st.

(** [void delay (uint32_t msDelay)] *)
Definition delay (msDelay : Z) (env : environment) (st : state)
  : option state :=
  if SYSTICKDELAY cfg then delay_SysTick msDelay env st
  else delay_RTC msDelay env st.

(** The announcement at the head of [sleep]. *)
Definition announce_sleep (sSleep : Z) (st : state) : state :=
  if DEBUG_DBPRINT cfg && ANNOUNCE_SLEEPING cfg then
    log (Ev_dbinfoInt (if ULFRCO cfg then "Sleeping in EM3 for "
                       else "Sleeping in EM2 for ") sSleep seconds_suffix) st
  else st.

(** [void sleep (uint32_t sSleep)] *)
Definition sleep (sSleep : Z) (env : environment) (st : state)
  : option state :=
  let st := ensure_RTC sSleep st in
  if 0 <? sSleep then
    let st := announce_sleep sSleep st in
    if sleep_ticks sSleep <=? RTC_COMP_MAX then
      let st := RTC_CompareSet 0 (sleep_ticks sSleep) st in
      let st := set_sleeping true st in
      let st := RTC_Enable true st in
      do st <- EMU_Enter (wake_cause env) st;
      let st := set_sleeping false st in
      Some (CMU_ClockEnable cmuClock_RTC false st)
    else
      let st := dbcrit "Delay too long, can't fit in the field!" st in
      let st := CMU_ClockEnable cmuClock_RTC false st in
      Some st (* [return;] *)
  else Some st.

(** [bool RTC_checkWakeup (void)] *)
Definition RTC_checkWakeup (st : state) : bool * state :=
  (RTC_sleep_wakeup st, st).

(** [void RTC_clearWakeup (void)] *)
Definition RTC_clearWakeup (st : state) : state :=
  set_RTC_sleep_wakeup false st.

(** [uint32_t RTC_getPassedSleeptime (void)] *)
Definition RTC_getPassedSleeptime (st : state) : Z * state :=
  let (sSleep, st) := RTC_CounterGet st in
  let st := RTC_Enable false st in
  let sSleep := uint32 sSleep / (if ULFRCO cfg then ULFRCOFREQ else LFXOFREQ) in
  (sSleep, st).

(** ** Runs *)

(** What can happen to the state, one step at a time: a call of a public
    function, or an interrupt between two calls. *)
Inductive call : Set :=
| Call_delay (msDelay : Z) (env : environment)
| Call_sleep (sSleep : Z) (env : environment)
| Call_RTC_checkWakeup
| Call_RTC_clearWakeup
| Call_RTC_getPassedSleeptime
| Irq_SysTick
| Irq_RTC.

Definition run_call (c : call) (st : state) : option state :=
  match c with
  | Call_delay msDelay env => delay msDelay env st
  | Call_sleep sSleep env => sleep sSleep env st
  | Call_RTC_checkWakeup => Some (snd (RTC_checkWakeup st))
  | Call_RTC_clearWakeup => Some (RTC_clearWakeup st)
  | Call_RTC_getPassedSleeptime => Some (snd (RTC_getPassedSleeptime st))
  | Irq_SysTick => Some (SysTick_irq st)
  | Irq_RTC => Some (RTC_irq st)
  end.

Fixpoint run (cs : list call) (st : state) : option state :=
  match cs with
  | [] => Some st
  | c :: rest => do st <- run_call c st; run rest st
  end.

(** The states the program can be in between two steps. *)
Inductive reachable : state -> Prop :=
| reachable_init : reachable init_state
| reachable_step c st st' :
    reachable st -> run_call c st = Some st' -> reachable st'.

End Program.

(** ** Vocabulary of the properties *)

(** The events by which a wait is programmed or started: a write of the
    compare register, the start of the counter, the entry into a low-power
    state. *)
Definition starts_wait (e : event) : bool :=
  match e with
  | Ev_RTC_CompareSet _ => true
  | Ev_RTC_Enable on => on
  | Ev_EMU_EnterEM2 => true
  | Ev_EMU_EnterEM3 => true
  | _ => false
  end.

Definition no_wait (e : event) : bool := negb (starts_wait e).

(** [grown_by P old new]: the trace [new] is [old] with further events in
    front, all of which satisfy [P]. *)
Inductive grown_by (P : event -> bool) (old : list event)
  : list event -> Prop :=
| grown_none : grown_by P old old
| grown_cons e new : P e = true -> grown_by P old new -> grown_by P old (e :: new).

(** The number of tick interrupts taken in a stretch of the trace. *)
Fixpoint tick_count (evs : list event) : Z :=
  match evs with
  | [] => 0
  | Ev_IRQ_SysTick :: rest => 1 + tick_count rest
  | _ :: rest => tick_count rest
  end.

(** Once initialised, the counter's compare interrupt is enabled in the
    counter and in the interrupt controller. *)
Definition irq_ready (st : state) : bool :=
  implb (RTC_initialized st) (RTC_IEN_COMP0 st && NVIC_RTC st).

(** What holds between two steps of a run: nobody is inside [sleep], and the
    compare interrupt is ready once the counter is initialised. *)
Definition idle (st : state) : bool := negb (sleeping st) && irq_ready st.

(** The counter advances when it is enabled and its clock gate is open. *)
Definition counter_counts (st : state) : bool := clk_RTC st && RTC_EN st.

(** The range check of [delay], as the code evaluates it. *)
Definition delay_fits (cfg : config) (msDelay : Z) : bool :=
  Double.leb (delay_ticks cfg msDelay) (Double.of_Z RTC_COMP_MAX).

(** The range check of [sleep], as the code evaluates it. *)
Definition sleep_fits (cfg : config) (sSleep : Z) : bool :=
  sleep_ticks cfg sSleep <=? RTC_COMP_MAX.

(** [SysTick_Config] succeeds on the board: the reload value fits. *)
Definition SysTick_reload_fits (hw : board) : bool :=
  uint32 (uint32 (core_clock hw) / 1000 - 1) <=? SysTick_LOAD_RELOAD_Msk.

(** Builds and boards used in examples. *)
Definition build_ULFRCO : config :=
  {| SYSTICKDELAY := false; ULFRCO := true;
     DEBUG_DBPRINT := false; ANNOUNCE_SLEEPING := false |}.

Definition build_LFXO : config :=
  {| SYSTICKDELAY := false; ULFRCO := false;
     DEBUG_DBPRINT := false; ANNOUNCE_SLEEPING := false |}.

Definition build_SysTick : config :=
  {| SYSTICKDELAY := true; ULFRCO := true;
     DEBUG_DBPRINT := true; ANNOUNCE_SLEEPING := true |}.

(** A 14 MHz core; the stopped counter keeps, or loses, its count. *)
Definition board_keep : board :=
  {| core_clock := 14000000; cnt_cleared_when_stopped := false |}.

Definition board_clear : board :=
  {| core_clock := 14000000; cnt_cleared_when_stopped := true |}.

(** A wait ended by the compare match; a wait ended by an external signal
    when the counter reads 1234; a busy loop polled once per tick. *)
Definition to_completion : environment :=
  {| wake_cause := CompareMatch; tick_bursts := [] |}.

Definition woken_early : environment :=
  {| wake_cause := ExternalWake 1234; tick_bursts := [] |}.

Definition one_tick_per_poll (n : nat) : environment :=
  {| wake_cause := CompareMatch; tick_bursts := repeat 1%nat n |}.

(** The state in which [delay] (RTC build) enters the low-power wait: compare
    value written, counter started. *)
Definition delay_before_wait (cfg : config) (hw : board) (msDelay : Z)
  (st : state) : state :=
  st |> ensure_RTC cfg hw msDelay
     |> RTC_CompareSet 0 (Double.to_uint32 (delay_ticks cfg msDelay))
     |> RTC_Enable hw true.

(** The state in which [sleep] enters the low-power wait: compare value
    written, [sleeping] set, counter started. *)
Definition sleep_before_wait (cfg : config) (hw : board) (sSleep : Z)
  (st : state) : state :=
  st |> ensure_RTC cfg hw sSleep
     |> announce_sleep cfg sSleep
     |> RTC_CompareSet 0 (sleep_ticks cfg sSleep)
     |> set_sleeping true
     |> RTC_Enable hw true.

(** The state in which a rejected [delay] or [sleep] returns. *)
Definition too_long (cfg : config) (st : state) : state :=
  st |> dbcrit cfg "Delay too long, can't fit in the field!"
     |> CMU_ClockEnable cmuClock_RTC false.

(** The variables and registers on the side of the real-time counter. *)
Definition rtc_side (st : state) :=
  (RTC_sleep_wakeup st, sleeping st, RTC_initialized st, clk_RTC st,
   RTC_EN st, RTC_COMP0 st, RTC_CNT st, RTC_IEN_COMP0 st, RTC_IF_COMP0 st,
   NVIC_RTC st).

(** A call of [delay] or [sleep] with the duration zero. *)
Definition zero_call (c : call) : bool :=
  match c with
  | Call_delay msDelay _ => msDelay =? 0
  | Call_sleep sSleep _ => sSleep =? 0
  | _ => false
  end.

(** An event is a tick interrupt. *)
Definition is_tick (e : event) : bool :=
  match e with
  | Ev_IRQ_SysTick => true
  | _ => false
  end.

Arguments initRTC : simpl never.
Arguments ensure_RTC : simpl never.
Arguments RTC_IRQHandler : simpl never.
Arguments RTC_irq : simpl never.
Arguments EMU_Enter : simpl never.
Arguments uint32 : simpl never.
Arguments delay_ticks : simpl never.
Arguments sleep_ticks : simpl never.
Arguments Double.leb : simpl never.
Arguments Double.to_uint32 : simpl never.
Arguments Double.of_Z : simpl never.
Arguments Double.mul : simpl never.

(** ** Vocabulary of the further properties *)

(** The number of events of a kind in a stretch of the trace. *)
Definition count_events (p : event -> bool) (evs : list event) : nat :=
  List.length (filter p evs).

Definition is_RTC_Init (e : event) : bool :=
  match e with
  | Ev_RTC_Init => true
  | _ => false
  end.

Definition is_IRQ_RTC (e : event) : bool :=
  match e with
  | Ev_IRQ_RTC => true
  | _ => false
  end.

Definition is_SysTick_Config (e : event) : bool :=
  match e with
  | Ev_SysTick_Config _ => true
  | _ => false
  end.

(** The events that are none of SysTick's, nor the query of the core clock
    frequency made for it. *)
Definition rtc_event (e : event) : bool :=
  match e with
  | Ev_CMU_ClockFreqGet _ => false
  | Ev_SysTick_Config _ => false
  | Ev_SysTick_CTRL _ => false
  | Ev_IRQ_SysTick => false
  | _ => true
  end.

(** [msTicks] is the number of tick interrupts in the trace, modulo
    [2^32]. *)
Definition ticks_accounted (st : state) : Prop :=
  msTicks st = uint32 (tick_count (trace st)).

(** The variables and registers on the side of SysTick. *)
Definition tick_side (st : state) :=
  (msTicks st, SysTick_initialized st, SysTick_CTRL st).

(** The events of the SysTick branch of [delay]: the query of the core
    clock frequency, SysTick and the diagnostics. No clock gate, clock
    selection or oscillator of the clock management unit, nothing of the
    real-time counter or of the energy management unit. *)
Definition systick_event (e : event) : bool :=
  match e with
  | Ev_CMU_ClockFreqGet cmuClock_CORE => true
  | Ev_SysTick_Config _ => true
  | Ev_SysTick_CTRL _ => true
  | Ev_IRQ_SysTick => true
  | Ev_dbprint _ _ => true
  | _ => false
  end.

(** The library calls of [initRTC], newest first. *)
Definition initRTC_events (cfg : config) : list event :=
  (if DEBUG_DBPRINT cfg
   then [Ev_dbprint Info (if ULFRCO cfg then "RTC initialized with ULFRCO"
                          else "RTC initialized with LFXO")]
   else [])
  ++ [Ev_RTC_Init; Ev_NVIC_EnableIRQ; Ev_NVIC_ClearPendingIRQ;
      Ev_RTC_IntClear; Ev_RTC_IntEnable; Ev_CMU_ClockEnable cmuClock_RTC true]
  ++ (if ULFRCO cfg
      then [Ev_CMU_ClockSelectSet_LFA cmuSelect_ULFRCO;
            Ev_CMU_ClockEnable cmuClock_HFLE true]
      else [Ev_CMU_ClockSelectSet_LFA cmuSelect_LFXO;
            Ev_CMU_ClockEnable cmuClock_HFLE true;
            Ev_CMU_OscillatorEnable_LFXO]).

(** The library calls of the first statement of [delay] and [sleep]. *)
Definition ensure_RTC_events (cfg : config) (duration : Z) (st : state)
  : list event :=
  if RTC_initialized st then
    if 0 <? duration then [Ev_CMU_ClockEnable cmuClock_RTC true] else []
  else initRTC_events cfg.

Definition announce_events (cfg : config) (sSleep : Z) : list event :=
  if DEBUG_DBPRINT cfg && ANNOUNCE_SLEEPING cfg
  then [Ev_dbinfoInt (if ULFRCO cfg then "Sleeping in EM3 for "
                      else "Sleeping in EM2 for ") sSleep seconds_suffix]
  else [].

(** The library calls of a rejected call. *)
Definition too_long_events (cfg : config) : list event :=
  Ev_CMU_ClockEnable cmuClock_RTC false
  :: (if DEBUG_DBPRINT cfg
      then [Ev_dbprint Crit "Delay too long, can't fit in the field!"]
      else []).

(** The entry into the low-power state of the build. *)
Definition enter_event (cfg : config) : event :=
  if ULFRCO cfg then Ev_EMU_EnterEM3 else Ev_EMU_EnterEM2.

(** What the compare interrupt logs when it ends a wait. *)
Definition wake_events (w : wake) : list event :=
  match w with
  | CompareMatch => [Ev_RTC_IntClear; Ev_RTC_Enable false; Ev_IRQ_RTC]
  | ExternalWake _ => []
  end.

(** The library calls of a wait on the real-time counter, newest first:
    compare write, counter start, low-power entry, what the interrupt logs,
    clock gate closed. *)
Definition wait_events (cfg : config) (v : Z) (w : wake) : list event :=
  Ev_CMU_ClockEnable cmuClock_RTC false
  :: wake_events w
  ++ [enter_event cfg; Ev_RTC_Enable true; Ev_RTC_CompareSet v].

(** The library calls of one [sleep], newest first. *)
Definition sleep_events (cfg : config) (sSleep : Z) (env : environment)
  (st : state) : list event :=
  (if 0 <? sSleep then
     (if sleep_fits cfg sSleep
      then wait_events cfg (sleep_ticks cfg sSleep) (wake_cause env)
      else too_long_events cfg)
     ++ announce_events cfg sSleep
   else [])
  ++ ensure_RTC_events cfg sSleep st.

(** The library calls of one [delay] on the real-time counter, newest
    first. *)
Definition delay_RTC_events (cfg : config) (msDelay : Z) (env : environment)
  (st : state) : list event :=
  (if 0 <? msDelay then
     if delay_fits cfg msDelay
     then wait_events cfg (Double.to_uint32 (delay_ticks cfg msDelay))
            (wake_cause env)
     else too_long_events cfg
   else [])
  ++ ensure_RTC_events cfg msDelay st.

(** The variables and registers of a state, without the trace. *)
Definition untraced (st : state) : state := set_trace [] st.

(** Two states with the same variables and registers. *)
Definition same_core (st st2 : state) : Prop := untraced st = untraced st2.

(** Two outcomes of a step: both hang, or both return with the same
    variables and registers. *)
Definition same_outcome (r r2 : option state) : Prop :=
  match r, r2 with
  | Some st, Some st2 => same_core st st2
  | None, None => True
  | _, _ => False
  end.

(** A build with the diagnostics compiled out. *)
Definition silent (cfg : config) : config :=
  {| SYSTICKDELAY := SYSTICKDELAY cfg; ULFRCO := ULFRCO cfg;
     DEBUG_DBPRINT := false; ANNOUNCE_SLEEPING := false |}.


(** A board whose core clock is below 1 kHz. *)
Definition board_slow : board :=
  {| core_clock := 999; cnt_cleared_when_stopped := false |}.

Unset Implicit Arguments.

(** * Properties *)

(** ** Arithmetic of [uint32_t] *)


Lemma uint32_small x : 0 <= x < 2 ^ 32 -> uint32 x = x.
Proof. intros H. unfold uint32. apply Z.mod_small. exact H. Qed.

(** One more tick moves the distance to [curTicks], taken modulo [2^32], by
    at most one. *)
Lemma uint32_distance_step m curTicks :
  uint32 (uint32 (m + 1) - curTicks) <= uint32 (m - curTicks) + 1.
Proof.
  unfold uint32.
  rewrite Zminus_mod_idemp_l.
  replace (m + 1 - curTicks) with ((m - curTicks) + 1) by ring.
  rewrite <- Zplus_mod_idemp_l.
  pose proof (Z.mod_pos_bound (m - curTicks) (2 ^ 32) eq_refl) as Hb.
  destruct (Z.eq_dec ((m - curTicks) mod 2 ^ 32 + 1) (2 ^ 32)) as [E | E].
  - rewrite E, Z.mod_same by discriminate. discriminate.
  - rewrite Z.mod_small by lia. lia.
Qed.

(** Below the wrap the distance grows by exactly one. *)
Lemma uint32_distance_next m curTicks :
  uint32 (m - curTicks) + 1 < 2 ^ 32 ->
  uint32 (uint32 (m + 1) - curTicks) = uint32 (m - curTicks) + 1.
Proof.
  unfold uint32. intros H.
  rewrite Zminus_mod_idemp_l.
  replace (m + 1 - curTicks) with ((m - curTicks) + 1) by ring.
  rewrite <- Zplus_mod_idemp_l.
  pose proof (Z.mod_pos_bound (m - curTicks) (2 ^ 32) eq_refl) as Hb.
  apply Z.mod_small. lia.
Qed.

(** ** Traces *)

Lemma grown_by_app P old evs :
  forallb P evs = true -> grown_by P old (evs ++ old).
Proof.
  induction evs as [| e evs IH]; simpl; intros H.
  - constructor.
  - apply andb_true_iff in H. destruct H as [He Hr].
    constructor; [exact He | apply IH; exact Hr].
Qed.

Lemma grown_by_inv P old new :
  grown_by P old new -> exists evs, new = evs ++ old /\ forallb P evs = true.
Proof.
  induction 1 as [| e new He _ [evs [-> Hevs]]].
  - exists []. split; reflexivity.
  - exists (e :: evs). split; [reflexivity |]. simpl. rewrite He. exact Hevs.
Qed.

Lemma grown_by_trans P a b c :
  grown_by P a b -> grown_by P b c -> grown_by P a c.
Proof.
  intros Hab Hbc. induction Hbc as [| e new He _ IH].
  - exact Hab.
  - constructor; assumption.
Qed.

Lemma tick_count_app evs evs' :
  tick_count (evs ++ evs') = tick_count evs + tick_count evs'.
Proof.
  induction evs as [| e evs IH]; cbn [tick_count app]; [reflexivity |].
  destruct e; rewrite ?IH; lia.
Qed.

Lemma tick_count_nonneg evs : 0 <= tick_count evs.
Proof.
  induction evs as [| e evs IH]; cbn [tick_count]; [lia | destruct e; lia].
Qed.

Section Properties.

Variable cfg : config.
Variable hw : board.

(** Closes a goal on the growth of a trace once the new events are known. *)
Ltac grown := repeat first [apply grown_none | apply grown_cons; [reflexivity |]].

(** Case analysis on the preprocessor symbols. *)
Ltac builds :=
  destruct (ULFRCO cfg); destruct (DEBUG_DBPRINT cfg);
  destruct (ANNOUNCE_SLEEPING cfg).

(** ** Initialisation *)

Lemma initRTC_vars st :
  sleeping (initRTC cfg hw st) = sleeping st /\
  RTC_sleep_wakeup (initRTC cfg hw st) = RTC_sleep_wakeup st /\
  msTicks (initRTC cfg hw st) = msTicks st /\
  SysTick_initialized (initRTC cfg hw st) = SysTick_initialized st /\
  SysTick_CTRL (initRTC cfg hw st) = SysTick_CTRL st /\
  RTC_COMP0 (initRTC cfg hw st) = RTC_COMP0 st.
Proof. unfold initRTC, dbinfo, dbprint. builds; repeat split. Qed.

(** [initRTC] leaves the counter initialised, stopped, with its interrupt
    enabled, and the RTC clock switched on. *)
Lemma initRTC_regs st :
  RTC_initialized (initRTC cfg hw st) = true /\
  RTC_EN (initRTC cfg hw st) = false /\
  RTC_IEN_COMP0 (initRTC cfg hw st) = true /\
  NVIC_RTC (initRTC cfg hw st) = true /\
  clk_RTC (initRTC cfg hw st) = true.
Proof. unfold initRTC, dbinfo, dbprint. builds; repeat split. Qed.

Lemma initRTC_trace st :
  grown_by no_wait (trace st) (trace (initRTC cfg hw st)).
Proof. unfold initRTC, dbinfo, dbprint. builds; simpl; grown. Qed.

(** ** The first statement of [delay] and [sleep] *)

Lemma ensure_RTC_vars duration st :
  sleeping (ensure_RTC cfg hw duration st) = sleeping st /\
  RTC_sleep_wakeup (ensure_RTC cfg hw duration st) = RTC_sleep_wakeup st /\
  msTicks (ensure_RTC cfg hw duration st) = msTicks st /\
  SysTick_initialized (ensure_RTC cfg hw duration st) = SysTick_initialized st /\
  SysTick_CTRL (ensure_RTC cfg hw duration st) = SysTick_CTRL st /\
  RTC_COMP0 (ensure_RTC cfg hw duration st) = RTC_COMP0 st.
Proof.
  unfold ensure_RTC.
  destruct (RTC_initialized st); simpl negb; cbv iota.
  - destruct (0 <? duration); repeat split.
  - apply initRTC_vars.
Qed.

(** After it the counter is initialised and its interrupt ready; when a wait
    is asked for, the RTC clock is on. *)
Lemma ensure_RTC_regs duration st :
  irq_ready st = true ->
  RTC_initialized (ensure_RTC cfg hw duration st) = true /\
  RTC_IEN_COMP0 (ensure_RTC cfg hw duration st) = true /\
  NVIC_RTC (ensure_RTC cfg hw duration st) = true /\
  (0 < duration -> clk_RTC (ensure_RTC cfg hw duration st) = true).
Proof.
  unfold ensure_RTC, irq_ready. intros Hready.
  destruct (RTC_initialized st) eqn:Hinit; simpl negb; cbv iota.
  - simpl in Hready. apply andb_true_iff in Hready. destruct Hready as [Hi Hn].
    destruct (0 <? duration) eqn:Hd.
    + repeat split; assumption.
    + repeat split; try assumption. intros H. apply Z.ltb_lt in H. congruence.
  - destruct (initRTC_regs st) as (H1 & _ & H3 & H4 & H5). repeat split; auto.
Qed.

Lemma ensure_RTC_trace duration st :
  grown_by no_wait (trace st) (trace (ensure_RTC cfg hw duration st)).
Proof.
  unfold ensure_RTC.
  destruct (RTC_initialized st); simpl negb; cbv iota.
  - destruct (0 <? duration); simpl; grown.
  - apply initRTC_trace.
Qed.

(** A call that asks for no wait on an initialised counter changes nothing. *)
Lemma ensure_RTC_again duration st :
  duration <= 0 -> RTC_initialized st = true ->
  ensure_RTC cfg hw duration st = st.
Proof.
  intros Hd Hinit. unfold ensure_RTC. rewrite Hinit. simpl.
  destruct (0 <? duration) eqn:E; [apply Z.ltb_lt in E; lia | reflexivity].
Qed.

Lemma ensure_RTC_first duration st :
  RTC_initialized st = false -> ensure_RTC cfg hw duration st = initRTC cfg hw st.
Proof. intros Hinit. unfold ensure_RTC. rewrite Hinit. reflexivity. Qed.

(** ** The compare interrupt and the low-power wait *)

Lemma RTC_IRQHandler_vars st :
  sleeping (RTC_IRQHandler hw st) = sleeping st /\
  RTC_sleep_wakeup (RTC_IRQHandler hw st) = (sleeping st || RTC_sleep_wakeup st) /\
  RTC_EN (RTC_IRQHandler hw st) = false /\
  RTC_IF_COMP0 (RTC_IRQHandler hw st) = false /\
  RTC_COMP0 (RTC_IRQHandler hw st) = RTC_COMP0 st /\
  clk_RTC (RTC_IRQHandler hw st) = clk_RTC st /\
  RTC_initialized (RTC_IRQHandler hw st) = RTC_initialized st /\
  RTC_IEN_COMP0 (RTC_IRQHandler hw st) = RTC_IEN_COMP0 st /\
  NVIC_RTC (RTC_IRQHandler hw st) = NVIC_RTC st.
Proof.
  unfold RTC_IRQHandler. simpl.
  destruct (sleeping st) eqn:Hs; simpl; rewrite ?Hs; repeat split.
Qed.

Lemma RTC_irq_vars st :
  sleeping (RTC_irq hw st) = sleeping st /\
  RTC_sleep_wakeup (RTC_irq hw st)
    = (compare_irq_armed st && sleeping st || RTC_sleep_wakeup st) /\
  RTC_COMP0 (RTC_irq hw st) = RTC_COMP0 st /\
  clk_RTC (RTC_irq hw st) = clk_RTC st /\
  RTC_initialized (RTC_irq hw st) = RTC_initialized st /\
  RTC_IEN_COMP0 (RTC_irq hw st) = RTC_IEN_COMP0 st /\
  NVIC_RTC (RTC_irq hw st) = NVIC_RTC st.
Proof.
  unfold RTC_irq. destruct (compare_irq_armed st).
  - match goal with
    | |- context [RTC_IRQHandler hw ?s] =>
        destruct (RTC_IRQHandler_vars s) as (H1 & H2 & _ & _ & H5 & H6 & H7 & H8 & H9)
    end.
    rewrite H1, H2, H5, H6, H7, H8, H9. repeat split.
  - repeat split.
Qed.

Lemma RTC_irq_stops st :
  compare_irq_armed st = true ->
  RTC_EN (RTC_irq hw st) = false /\ RTC_IF_COMP0 (RTC_irq hw st) = false.
Proof.
  intros Harmed. unfold RTC_irq. rewrite Harmed.
  match goal with
  | |- context [RTC_IRQHandler hw ?s] =>
      destruct (RTC_IRQHandler_vars s) as (_ & _ & H3 & H4 & _)
  end.
  split; assumption.
Qed.

Lemma low_power_wait_vars w st st' :
  low_power_wait hw w st = Some st' ->
  sleeping st' = sleeping st /\
  RTC_sleep_wakeup st'
    = (match w with
       | CompareMatch => sleeping st || RTC_sleep_wakeup st
       | ExternalWake _ => RTC_sleep_wakeup st
       end) /\
  RTC_COMP0 st' = RTC_COMP0 st /\
  clk_RTC st' = clk_RTC st /\
  RTC_initialized st' = RTC_initialized st /\
  RTC_IEN_COMP0 st' = RTC_IEN_COMP0 st /\
  NVIC_RTC st' = NVIC_RTC st.
Proof.
  unfold low_power_wait. destruct w as [| cnt].
  - destruct (compare_irq_armed st) eqn:Harmed; [| discriminate].
    intros H. injection H as <-.
    destruct (RTC_irq_vars st) as (H1 & H2 & H3 & H4 & H5 & H6 & H7).
    rewrite Harmed in H2. simpl in H2. repeat split; assumption.
  - intros H. injection H as <-.
    destruct (clk_RTC st && RTC_EN st); repeat split.
Qed.

(** The wait ended by the compare match returns when the interrupt is
    armed. *)
Lemma low_power_wait_returns st :
  compare_irq_armed st = true ->
  low_power_wait hw CompareMatch st = Some (RTC_irq hw st).
Proof. intros H. unfold low_power_wait. rewrite H. reflexivity. Qed.

Lemma EMU_Enter_vars w st st' :
  EMU_Enter cfg hw w st = Some st' ->
  sleeping st' = sleeping st /\
  RTC_sleep_wakeup st'
    = (match w with
       | CompareMatch => sleeping st || RTC_sleep_wakeup st
       | ExternalWake _ => RTC_sleep_wakeup st
       end) /\
  RTC_COMP0 st' = RTC_COMP0 st /\
  clk_RTC st' = clk_RTC st /\
  RTC_initialized st' = RTC_initialized st /\
  RTC_IEN_COMP0 st' = RTC_IEN_COMP0 st /\
  NVIC_RTC st' = NVIC_RTC st.
Proof.
  unfold EMU_Enter, EMU_EnterEM3, EMU_EnterEM2.
  destruct (ULFRCO cfg); intros H; apply low_power_wait_vars in H; exact H.
Qed.

Lemma EMU_Enter_returns st :
  compare_irq_armed st = true ->
  exists st', EMU_Enter cfg hw CompareMatch st = Some st'.
Proof.
  intros H. unfold EMU_Enter, EMU_EnterEM3, EMU_EnterEM2.
  destruct (ULFRCO cfg); rewrite low_power_wait_returns by exact H; eauto.
Qed.

Lemma EMU_Enter_external cnt st :
  exists st', EMU_Enter cfg hw (ExternalWake cnt) st = Some st'.
Proof.
  unfold EMU_Enter, EMU_EnterEM3, EMU_EnterEM2, low_power_wait.
  destruct (ULFRCO cfg); eauto.
Qed.

(** ** The paths through [delay] on the real-time counter *)

Lemma delay_RTC_zero msDelay env st :
  msDelay <= 0 ->
  delay_RTC cfg hw msDelay env st = Some (ensure_RTC cfg hw msDelay st).
Proof.
  intros Hd. unfold delay_RTC.
  destruct (0 <? msDelay) eqn:E; [apply Z.ltb_lt in E; lia | reflexivity].
Qed.

Lemma delay_RTC_rejected msDelay env st :
  0 < msDelay -> delay_fits cfg msDelay = false ->
  delay_RTC cfg hw msDelay env st
  = Some (too_long cfg (ensure_RTC cfg hw msDelay st)).
Proof.
  intros Hd Hfit. apply Z.ltb_lt in Hd. unfold delay_fits in Hfit.
  unfold delay_RTC. rewrite Hd, Hfit. reflexivity.
Qed.

Lemma delay_RTC_accepted msDelay env st :
  0 < msDelay -> delay_fits cfg msDelay = true ->
  delay_RTC cfg hw msDelay env st
  = (do st' <- EMU_Enter cfg hw (wake_cause env)
                 (delay_before_wait cfg hw msDelay st);
     Some (CMU_ClockEnable cmuClock_RTC false st')).
Proof.
  intros Hd Hfit. apply Z.ltb_lt in Hd. unfold delay_fits in Hfit.
  unfold delay_RTC. rewrite Hd, Hfit. reflexivity.
Qed.

Lemma delay_before_wait_vars msDelay st :
  sleeping (delay_before_wait cfg hw msDelay st) = sleeping st /\
  RTC_sleep_wakeup (delay_before_wait cfg hw msDelay st) = RTC_sleep_wakeup st /\
  RTC_COMP0 (delay_before_wait cfg hw msDelay st)
    = Double.to_uint32 (delay_ticks cfg msDelay).
Proof.
  destruct (ensure_RTC_vars msDelay st) as (H1 & H2 & _).
  unfold delay_before_wait. simpl. auto.
Qed.

Lemma delay_before_wait_armed msDelay st :
  irq_ready st = true -> 0 < msDelay ->
  compare_irq_armed (delay_before_wait cfg hw msDelay st) = true /\
  RTC_initialized (delay_before_wait cfg hw msDelay st) = true.
Proof.
  intros Hready Hd.
  destruct (ensure_RTC_regs msDelay st Hready) as (H1 & H2 & H3 & H4).
  specialize (H4 Hd).
  unfold delay_before_wait, compare_irq_armed. simpl.
  rewrite H1, H2, H3, H4. split; reflexivity.
Qed.

(** ** The paths through [sleep] *)

Lemma sleep_zero sSleep env st :
  sSleep <= 0 ->
  sleep cfg hw sSleep env st = Some (ensure_RTC cfg hw sSleep st).
Proof.
  intros Hd. unfold sleep.
  destruct (0 <? sSleep) eqn:E; [apply Z.ltb_lt in E; lia | reflexivity].
Qed.

Lemma sleep_rejected sSleep env st :
  0 < sSleep -> sleep_fits cfg sSleep = false ->
  sleep cfg hw sSleep env st
  = Some (too_long cfg (announce_sleep cfg sSleep (ensure_RTC cfg hw sSleep st))).
Proof.
  intros Hd Hfit. apply Z.ltb_lt in Hd. unfold sleep_fits in Hfit.
  unfold sleep. rewrite Hd, Hfit. reflexivity.
Qed.

Lemma sleep_accepted sSleep env st :
  0 < sSleep -> sleep_fits cfg sSleep = true ->
  sleep cfg hw sSleep env st
  = (do st' <- EMU_Enter cfg hw (wake_cause env)
                 (sleep_before_wait cfg hw sSleep st);
     Some (CMU_ClockEnable cmuClock_RTC false (set_sleeping false st'))).
Proof.
  intros Hd Hfit. apply Z.ltb_lt in Hd. unfold sleep_fits in Hfit.
  unfold sleep. rewrite Hd, Hfit. reflexivity.
Qed.

Lemma announce_sleep_vars sSleep st :
  sleeping (announce_sleep cfg sSleep st) = sleeping st /\
  RTC_sleep_wakeup (announce_sleep cfg sSleep st) = RTC_sleep_wakeup st /\
  RTC_COMP0 (announce_sleep cfg sSleep st) = RTC_COMP0 st /\
  clk_RTC (announce_sleep cfg sSleep st) = clk_RTC st /\
  RTC_initialized (announce_sleep cfg sSleep st) = RTC_initialized st /\
  RTC_IEN_COMP0 (announce_sleep cfg sSleep st) = RTC_IEN_COMP0 st /\
  NVIC_RTC (announce_sleep cfg sSleep st) = NVIC_RTC st /\
  grown_by no_wait (trace st) (trace (announce_sleep cfg sSleep st)).
Proof.
  unfold announce_sleep.
  destruct (DEBUG_DBPRINT cfg && ANNOUNCE_SLEEPING cfg);
    repeat split; simpl; grown.
Qed.

(** On entering the wait [sleep] has set [sleeping]. *)
Lemma sleep_before_wait_vars sSleep st :
  sleeping (sleep_before_wait cfg hw sSleep st) = true /\
  RTC_sleep_wakeup (sleep_before_wait cfg hw sSleep st) = RTC_sleep_wakeup st /\
  RTC_COMP0 (sleep_before_wait cfg hw sSleep st) = sleep_ticks cfg sSleep.
Proof.
  destruct (ensure_RTC_vars sSleep st) as (_ & H2 & _).
  destruct (announce_sleep_vars sSleep (ensure_RTC cfg hw sSleep st))
    as (_ & A2 & _).
  unfold sleep_before_wait. simpl. rewrite A2, H2. auto.
Qed.

Lemma sleep_before_wait_armed sSleep st :
  irq_ready st = true -> 0 < sSleep ->
  compare_irq_armed (sleep_before_wait cfg hw sSleep st) = true /\
  RTC_initialized (sleep_before_wait cfg hw sSleep st) = true.
Proof.
  intros Hready Hd.
  destruct (ensure_RTC_regs sSleep st Hready) as (H1 & H2 & H3 & H4).
  specialize (H4 Hd).
  destruct (announce_sleep_vars sSleep (ensure_RTC cfg hw sSleep st))
    as (_ & _ & _ & A4 & A5 & A6 & A7 & _).
  unfold sleep_before_wait, compare_irq_armed. simpl.
  rewrite A4, A5, A6, A7, H1, H2, H3, H4. split; reflexivity.
Qed.

(** ** The rejected call *)

Lemma too_long_vars st :
  sleeping (too_long cfg st) = sleeping st /\
  RTC_sleep_wakeup (too_long cfg st) = RTC_sleep_wakeup st /\
  RTC_COMP0 (too_long cfg st) = RTC_COMP0 st /\
  RTC_EN (too_long cfg st) = RTC_EN st /\
  RTC_initialized (too_long cfg st) = RTC_initialized st /\
  RTC_IEN_COMP0 (too_long cfg st) = RTC_IEN_COMP0 st /\
  NVIC_RTC (too_long cfg st) = NVIC_RTC st /\
  clk_RTC (too_long cfg st) = false /\
  grown_by no_wait (trace st) (trace (too_long cfg st)).
Proof.
  unfold too_long, dbcrit, dbprint.
  destruct (DEBUG_DBPRINT cfg); repeat split; simpl; grown.
Qed.

(** ** The tick interrupt and the busy loop *)

Lemma rtc_side_eq st st' :
  rtc_side st' = rtc_side st ->
  RTC_sleep_wakeup st' = RTC_sleep_wakeup st /\
  sleeping st' = sleeping st /\
  RTC_initialized st' = RTC_initialized st /\
  clk_RTC st' = clk_RTC st /\
  RTC_EN st' = RTC_EN st /\
  RTC_COMP0 st' = RTC_COMP0 st /\
  RTC_IEN_COMP0 st' = RTC_IEN_COMP0 st /\
  NVIC_RTC st' = NVIC_RTC st.
Proof. unfold rtc_side. intros H. injection H as -> -> -> -> -> -> _ -> _ ->. repeat split. Qed.

Lemma SysTick_irq_running st :
  SysTick_running st = true ->
  SysTick_irq st = SysTick_Handler (log Ev_IRQ_SysTick st).
Proof. intros H. unfold SysTick_irq. rewrite H. reflexivity. Qed.

Lemma SysTick_irq_frame st :
  rtc_side (SysTick_irq st) = rtc_side st /\
  SysTick_CTRL (SysTick_irq st) = SysTick_CTRL st /\
  SysTick_initialized (SysTick_irq st) = SysTick_initialized st.
Proof. unfold SysTick_irq. destruct (SysTick_running st); repeat split. Qed.

(** Every tick interrupt taken is in the trace, and moves the distance of
    [msTicks] to any [curTicks] by at most one. *)
Lemma SysTick_irq_ticks curTicks st :
  exists evs,
    trace (SysTick_irq st) = evs ++ trace st /\
    forallb is_tick evs = true /\
    uint32 (msTicks (SysTick_irq st) - curTicks)
      <= uint32 (msTicks st - curTicks) + tick_count evs.
Proof.
  unfold SysTick_irq. destruct (SysTick_running st).
  - exists [Ev_IRQ_SysTick]. repeat split.
    cbn [SysTick_Handler log set_msTicks set_trace msTicks tick_count].
    apply uint32_distance_step.
  - exists []. repeat split. cbn [tick_count]. lia.
Qed.

Lemma burst_frame k st :
  rtc_side (Nat.iter k SysTick_irq st) = rtc_side st /\
  SysTick_CTRL (Nat.iter k SysTick_irq st) = SysTick_CTRL st /\
  SysTick_initialized (Nat.iter k SysTick_irq st) = SysTick_initialized st.
Proof.
  induction k as [| k (IH1 & IH2 & IH3)]; [repeat split |].
  rewrite Nat.iter_succ.
  destruct (SysTick_irq_frame (Nat.iter k SysTick_irq st)) as (H1 & H2 & H3).
  rewrite H1, H2, H3. auto.
Qed.

Lemma burst_ticks curTicks k st :
  exists evs,
    trace (Nat.iter k SysTick_irq st) = evs ++ trace st /\
    forallb is_tick evs = true /\
    uint32 (msTicks (Nat.iter k SysTick_irq st) - curTicks)
      <= uint32 (msTicks st - curTicks) + tick_count evs.
Proof.
  induction k as [| k (evs & Ht & Hall & Hd)].
  - exists []. repeat split.
    change (Nat.iter 0 SysTick_irq st) with st. cbn [tick_count]. lia.
  - rewrite Nat.iter_succ.
    destruct (SysTick_irq_ticks curTicks (Nat.iter k SysTick_irq st))
      as (evs' & Ht' & Hall' & Hd').
    exists (evs' ++ evs). repeat split.
    + rewrite Ht', Ht, app_assoc. reflexivity.
    + rewrite forallb_app, Hall', Hall. reflexivity.
    + rewrite tick_count_app. lia.
Qed.

(** When the loop ends, [msTicks] is at least [msDelay] away from [curTicks]
    modulo [2^32], and at least that many tick interrupts were taken. *)
Lemma busy_wait_elapsed bursts curTicks msDelay st st' :
  busy_wait bursts curTicks msDelay st = Some st' ->
  msDelay <= uint32 (msTicks st' - curTicks) /\
  exists evs,
    trace st' = evs ++ trace st /\
    forallb is_tick evs = true /\
    uint32 (msTicks st' - curTicks)
      <= uint32 (msTicks st - curTicks) + tick_count evs.
Proof.
  revert st. induction bursts as [| k rest IH]; intros st; cbn [busy_wait].
  - destruct (uint32 (msTicks st - curTicks) <? msDelay) eqn:E; [discriminate |].
    intros H. injection H as <-. apply Z.ltb_ge in E. split; [exact E |].
    exists []. repeat split. cbn [tick_count]. lia.
  - destruct (uint32 (msTicks st - curTicks) <? msDelay) eqn:E.
    + intros H. apply IH in H. destruct H as (Hreach & evs & Ht & Hall & Hd).
      split; [exact Hreach |].
      destruct (burst_ticks curTicks k st) as (evs' & Ht' & Hall' & Hd').
      exists (evs ++ evs'). repeat split.
      * rewrite Ht, Ht', app_assoc. reflexivity.
      * rewrite forallb_app, Hall, Hall'. reflexivity.
      * rewrite tick_count_app. lia.
    + intros H. injection H as <-. apply Z.ltb_ge in E. split; [exact E |].
      exists []. repeat split. cbn [tick_count]. lia.
Qed.

Lemma busy_wait_frame bursts curTicks msDelay st st' :
  busy_wait bursts curTicks msDelay st = Some st' ->
  rtc_side st' = rtc_side st /\
  SysTick_CTRL st' = SysTick_CTRL st /\
  SysTick_initialized st' = SysTick_initialized st.
Proof.
  revert st. induction bursts as [| k rest IH]; intros st; cbn [busy_wait];
    destruct (uint32 (msTicks st - curTicks) <? msDelay);
    try discriminate;
    try (intros H; injection H as <-; repeat split).
  intros H. apply IH in H. destruct H as (H1 & H2 & H3).
  destruct (burst_frame k st) as (B1 & B2 & B3).
  rewrite H1, H2, H3, B1, B2, B3. repeat split.
Qed.

(** Polled once per tick with SysTick running, the loop ends after exactly
    the ticks still missing. *)
Lemma busy_wait_returns n curTicks msDelay st :
  SysTick_running st = true ->
  msDelay < 2 ^ 32 ->
  uint32 (msTicks st - curTicks) <= msDelay ->
  msDelay - uint32 (msTicks st - curTicks) <= Z.of_nat n ->
  exists st',
    busy_wait (repeat 1%nat n) curTicks msDelay st = Some st' /\
    uint32 (msTicks st' - curTicks) = msDelay.
Proof.
  revert st. induction n as [| n IH]; intros st Hrun Hd Hle Hn;
    cbn [busy_wait repeat].
  - assert (E : (uint32 (msTicks st - curTicks) <? msDelay) = false)
      by (apply Z.ltb_ge; lia).
    rewrite E. exists st. split; [reflexivity | lia].
  - destruct (uint32 (msTicks st - curTicks) <? msDelay) eqn:E.
    + apply Z.ltb_lt in E.
      change (Nat.iter 1 SysTick_irq st) with (SysTick_irq st).
      rewrite (SysTick_irq_running st Hrun).
      assert (Hnext :
        uint32 (msTicks (SysTick_Handler (log Ev_IRQ_SysTick st)) - curTicks)
        = uint32 (msTicks st - curTicks) + 1).
      { cbn [SysTick_Handler log set_msTicks set_trace msTicks].
        apply uint32_distance_next. lia. }
      apply IH.
      * exact Hrun.
      * exact Hd.
      * rewrite Hnext. lia.
      * rewrite Hnext. lia.
    + apply Z.ltb_ge in E. exists st. split; [reflexivity | lia].
Qed.

(** ** The first and the last statement of [delay] on SysTick *)

Lemma SysTick_Config_fits ticks st :
  (uint32 (ticks - 1) <=? SysTick_LOAD_RELOAD_Msk) = true ->
  SysTick_Config ticks st
  = (0, set_SysTick_CTRL
          (Z.lor SysTick_CTRL_CLKSOURCE_Msk
             (Z.lor SysTick_CTRL_TICKINT_Msk SysTick_CTRL_ENABLE_Msk))
          (log (Ev_SysTick_Config ticks) st)).
Proof.
  intros H. unfold SysTick_Config. rewrite Z.ltb_antisym, H. reflexivity.
Qed.

Lemma ensure_SysTick_first msDelay st :
  SysTick_initialized st = false -> SysTick_reload_fits hw = true ->
  exists st1,
    ensure_SysTick cfg hw msDelay st = Some st1 /\
    SysTick_initialized st1 = true /\
    SysTick_running st1 = true /\
    rtc_side st1 = rtc_side st /\
    msTicks st1 = msTicks st /\
    grown_by no_wait (trace st) (trace st1).
Proof.
  intros Hinit Hfit. unfold ensure_SysTick, CMU_ClockFreqGet.
  rewrite Hinit. simpl negb. cbv iota.
  rewrite (SysTick_Config_fits _ _ Hfit). simpl Z.eqb. cbv iota.
  eexists. split; [reflexivity |].
  unfold dbinfo, dbprint. destruct (DEBUG_DBPRINT cfg); repeat split; simpl; grown.
Qed.

Lemma ensure_SysTick_fails msDelay st :
  SysTick_initialized st = false -> SysTick_reload_fits hw = false ->
  ensure_SysTick cfg hw msDelay st = None.
Proof.
  intros Hinit Hfit. unfold ensure_SysTick, CMU_ClockFreqGet, SysTick_Config.
  rewrite Hinit. simpl negb. cbv iota.
  unfold SysTick_reload_fits in Hfit. rewrite Z.ltb_antisym, Hfit. reflexivity.
Qed.

Lemma ensure_SysTick_again msDelay st :
  SysTick_initialized st = true -> msDelay <= 0 ->
  ensure_SysTick cfg hw msDelay st = Some st.
Proof.
  intros Hinit Hd. unfold ensure_SysTick. rewrite Hinit. simpl.
  destruct (0 <? msDelay) eqn:E; [apply Z.ltb_lt in E; lia | reflexivity].
Qed.

Lemma ensure_SysTick_enable msDelay st :
  SysTick_initialized st = true -> 0 < msDelay ->
  exists st1,
    ensure_SysTick cfg hw msDelay st = Some st1 /\
    SysTick_initialized st1 = true /\
    SysTick_running st1 = true /\
    rtc_side st1 = rtc_side st /\
    msTicks st1 = msTicks st /\
    grown_by no_wait (trace st) (trace st1).
Proof.
  intros Hinit Hd. apply Z.ltb_lt in Hd.
  unfold ensure_SysTick. rewrite Hinit, Hd. simpl negb. cbv iota.
  eexists. split; [reflexivity |]. repeat split.
  - exact Hinit.
  - unfold SysTick_running, write_SysTick_CTRL.
    cbn [SysTick_CTRL log set_trace set_SysTick_CTRL].
    rewrite !Z.lor_spec. simpl. rewrite !orb_true_r. reflexivity.
  - simpl. grown.
Qed.

(** Whatever path the first statement takes, it leaves the counter side and
    [msTicks] alone, sets the flag, and starts no wait on the counter. *)
Lemma ensure_SysTick_frame msDelay st st1 :
  ensure_SysTick cfg hw msDelay st = Some st1 ->
  SysTick_initialized st1 = true /\
  rtc_side st1 = rtc_side st /\
  msTicks st1 = msTicks st /\
  grown_by no_wait (trace st) (trace st1) /\
  (0 < msDelay -> SysTick_running st1 = true).
Proof.
  intros H.
  destruct (SysTick_initialized st) eqn:Hinit.
  - destruct (Z_lt_le_dec 0 msDelay) as [Hd | Hd].
    + destruct (ensure_SysTick_enable msDelay st Hinit Hd)
        as (st2 & E & H1 & H2 & H3 & H4 & H5).
      rewrite E in H. injection H as <-. repeat split; auto.
    + rewrite (ensure_SysTick_again msDelay st Hinit Hd) in H.
      injection H as <-. repeat split; auto; [constructor | lia].
  - destruct (SysTick_reload_fits hw) eqn:Hfit.
    + destruct (ensure_SysTick_first msDelay st Hinit Hfit)
        as (st2 & E & H1 & H2 & H3 & H4 & H5).
      rewrite E in H. injection H as <-. repeat split; auto.
    + rewrite (ensure_SysTick_fails msDelay st Hinit Hfit) in H. discriminate.
Qed.

Lemma disable_SysTick_frame st :
  SysTick_running (disable_SysTick st) = false /\
  Z.testbit (SysTick_CTRL (disable_SysTick st)) 0 = false /\
  Z.testbit (SysTick_CTRL (disable_SysTick st)) 1 = false /\
  rtc_side (disable_SysTick st) = rtc_side st /\
  msTicks (disable_SysTick st) = msTicks st /\
  SysTick_initialized (disable_SysTick st) = SysTick_initialized st /\
  trace (disable_SysTick st)
    = Ev_SysTick_CTRL (SysTick_CTRL (disable_SysTick st)) :: trace st.
Proof.
  unfold SysTick_running, disable_SysTick, write_SysTick_CTRL.
  cbn [SysTick_CTRL log set_trace set_SysTick_CTRL].
  rewrite !Z.land_spec. simpl. rewrite !andb_false_r. repeat split.
Qed.

Lemma delay_SysTick_frame msDelay env st st' :
  delay_SysTick cfg hw msDelay env st = Some st' ->
  rtc_side st' = rtc_side st /\ SysTick_initialized st' = true.
Proof.
  unfold delay_SysTick, bind.
  destruct (ensure_SysTick cfg hw msDelay st) as [st1 |] eqn:E1; [| discriminate].
  destruct (ensure_SysTick_frame _ _ _ E1) as (H1 & H2 & _).
  destruct (0 <? msDelay).
  - destruct (busy_wait (tick_bursts env) (msTicks st1) msDelay st1)
      as [st2 |] eqn:E2; [| discriminate].
    intros H. injection H as <-.
    destruct (busy_wait_frame _ _ _ _ _ E2) as (B1 & _ & B3).
    destruct (disable_SysTick_frame st2) as (_ & _ & _ & D1 & _ & D3 & _).
    rewrite D1, D3, B1, B3, H2, H1. split; reflexivity.
  - intros H. injection H as <-. rewrite H2, H1. split; reflexivity.
Qed.

(** ** What [delay] and [sleep] do to the variables *)

Lemma irq_ready_intro st :
  RTC_IEN_COMP0 st = true -> NVIC_RTC st = true -> irq_ready st = true.
Proof.
  intros H1 H2. unfold irq_ready. rewrite H1, H2.
  destruct (RTC_initialized st); reflexivity.
Qed.

Lemma compare_irq_armed_parts st :
  compare_irq_armed st = true ->
  clk_RTC st = true /\ RTC_EN st = true /\
  RTC_IEN_COMP0 st = true /\ NVIC_RTC st = true.
Proof.
  unfold compare_irq_armed. intros H.
  repeat (apply andb_true_iff in H; destruct H as [H ?]). auto.
Qed.

Lemma idle_parts st :
  idle st = true <-> sleeping st = false /\ irq_ready st = true.
Proof.
  unfold idle. rewrite andb_true_iff, negb_true_iff. reflexivity.
Qed.

Lemma delay_RTC_vars msDelay env st st' :
  delay_RTC cfg hw msDelay env st = Some st' ->
  sleeping st' = sleeping st /\
  RTC_sleep_wakeup st'
    = (match wake_cause env with
       | CompareMatch =>
           (0 <? msDelay) && delay_fits cfg msDelay && sleeping st
           || RTC_sleep_wakeup st
       | ExternalWake _ => RTC_sleep_wakeup st
       end).
Proof.
  destruct (ensure_RTC_vars msDelay st) as (E1 & E2 & _).
  destruct (Z_lt_le_dec 0 msDelay) as [Hd | Hd].
  - assert (Hpos : (0 <? msDelay) = true) by (apply Z.ltb_lt; exact Hd).
    rewrite Hpos. destruct (delay_fits cfg msDelay) eqn:Hfit.
    + rewrite (delay_RTC_accepted msDelay env st Hd Hfit). unfold bind.
      destruct (EMU_Enter cfg hw (wake_cause env)
                  (delay_before_wait cfg hw msDelay st)) as [st1 |] eqn:Hwait;
        [| discriminate].
      intros H. injection H as <-.
      destruct (EMU_Enter_vars _ _ _ Hwait) as (W1 & W2 & _).
      destruct (delay_before_wait_vars msDelay st) as (B1 & B2 & _).
      simpl. rewrite W1, W2, B1, B2. split; [reflexivity |].
      destruct (wake_cause env); reflexivity.
    + rewrite (delay_RTC_rejected msDelay env st Hd Hfit).
      intros H. injection H as <-.
      destruct (too_long_vars (ensure_RTC cfg hw msDelay st)) as (T1 & T2 & _).
      rewrite T1, T2, E1, E2. split; [reflexivity |].
      destruct (wake_cause env); reflexivity.
  - assert (Hpos : (0 <? msDelay) = false) by (apply Z.ltb_ge; exact Hd).
    rewrite Hpos, (delay_RTC_zero msDelay env st Hd).
    intros H. injection H as <-. rewrite E1, E2. split; [reflexivity |].
    destruct (wake_cause env); reflexivity.
Qed.

Lemma delay_RTC_ready msDelay env st st' :
  irq_ready st = true ->
  delay_RTC cfg hw msDelay env st = Some st' ->
  RTC_initialized st' = true /\ irq_ready st' = true.
Proof.
  intros Hready.
  destruct (ensure_RTC_regs msDelay st Hready) as (R1 & R2 & R3 & _).
  destruct (Z_lt_le_dec 0 msDelay) as [Hd | Hd].
  - destruct (delay_fits cfg msDelay) eqn:Hfit.
    + rewrite (delay_RTC_accepted msDelay env st Hd Hfit). unfold bind.
      destruct (EMU_Enter cfg hw (wake_cause env)
                  (delay_before_wait cfg hw msDelay st)) as [st1 |] eqn:Hwait;
        [| discriminate].
      intros H. injection H as <-.
      destruct (EMU_Enter_vars _ _ _ Hwait) as (_ & _ & _ & _ & W5 & W6 & W7).
      destruct (delay_before_wait_armed msDelay st Hready Hd) as (A1 & A2).
      apply compare_irq_armed_parts in A1. destruct A1 as (_ & _ & A3 & A4).
      split; [| apply irq_ready_intro]; simpl; congruence.
    + rewrite (delay_RTC_rejected msDelay env st Hd Hfit).
      intros H. injection H as <-.
      destruct (too_long_vars (ensure_RTC cfg hw msDelay st))
        as (_ & _ & _ & _ & T5 & T6 & T7 & _).
      split; [| apply irq_ready_intro]; congruence.
  - rewrite (delay_RTC_zero msDelay env st Hd).
    intros H. injection H as <-.
    split; [| apply irq_ready_intro]; congruence.
Qed.

(** On the real-time counter [delay] returns: an armed compare interrupt or
    an external signal ends the wait. *)
Lemma delay_RTC_returns msDelay env st :
  irq_ready st = true -> exists st', delay_RTC cfg hw msDelay env st = Some st'.
Proof.
  intros Hready.
  destruct (Z_lt_le_dec 0 msDelay) as [Hd | Hd].
  - destruct (delay_fits cfg msDelay) eqn:Hfit.
    + rewrite (delay_RTC_accepted msDelay env st Hd Hfit).
      destruct (delay_before_wait_armed msDelay st Hready Hd) as (A1 & _).
      destruct (wake_cause env) as [| cnt].
      * destruct (EMU_Enter_returns _ A1) as (st1 & ->). simpl. eauto.
      * destruct (EMU_Enter_external cnt (delay_before_wait cfg hw msDelay st))
          as (st1 & ->). simpl. eauto.
    + rewrite (delay_RTC_rejected msDelay env st Hd Hfit). eauto.
  - rewrite (delay_RTC_zero msDelay env st Hd). eauto.
Qed.

Lemma sleep_vars sSleep env st st' :
  sleep cfg hw sSleep env st = Some st' ->
  sleeping st'
    = (if (0 <? sSleep) && sleep_fits cfg sSleep then false else sleeping st) /\
  RTC_sleep_wakeup st'
    = (match wake_cause env with
       | CompareMatch =>
           (0 <? sSleep) && sleep_fits cfg sSleep || RTC_sleep_wakeup st
       | ExternalWake _ => RTC_sleep_wakeup st
       end).
Proof.
  destruct (ensure_RTC_vars sSleep st) as (E1 & E2 & _).
  destruct (announce_sleep_vars sSleep (ensure_RTC cfg hw sSleep st))
    as (N1 & N2 & _).
  destruct (Z_lt_le_dec 0 sSleep) as [Hd | Hd].
  - assert (Hpos : (0 <? sSleep) = true) by (apply Z.ltb_lt; exact Hd).
    rewrite Hpos. destruct (sleep_fits cfg sSleep) eqn:Hfit.
    + rewrite (sleep_accepted sSleep env st Hd Hfit). unfold bind.
      destruct (EMU_Enter cfg hw (wake_cause env)
                  (sleep_before_wait cfg hw sSleep st)) as [st1 |] eqn:Hwait;
        [| discriminate].
      intros H. injection H as <-.
      destruct (EMU_Enter_vars _ _ _ Hwait) as (W1 & W2 & _).
      destruct (sleep_before_wait_vars sSleep st) as (B1 & B2 & _).
      simpl. rewrite W2, B1, B2. split; [reflexivity |].
      destruct (wake_cause env); reflexivity.
    + rewrite (sleep_rejected sSleep env st Hd Hfit).
      intros H. injection H as <-.
      destruct (too_long_vars
                  (announce_sleep cfg sSleep (ensure_RTC cfg hw sSleep st)))
        as (T1 & T2 & _).
      rewrite T1, T2, N1, N2, E1, E2. simpl. split; [reflexivity |].
      destruct (wake_cause env); reflexivity.
  - assert (Hpos : (0 <? sSleep) = false) by (apply Z.ltb_ge; exact Hd).
    rewrite Hpos, (sleep_zero sSleep env st Hd).
    intros H. injection H as <-. rewrite E1, E2. simpl. split; [reflexivity |].
    destruct (wake_cause env); reflexivity.
Qed.

Lemma sleep_ready sSleep env st st' :
  irq_ready st = true ->
  sleep cfg hw sSleep env st = Some st' ->
  RTC_initialized st' = true /\ irq_ready st' = true.
Proof.
  intros Hready.
  destruct (ensure_RTC_regs sSleep st Hready) as (R1 & R2 & R3 & _).
  destruct (announce_sleep_vars sSleep (ensure_RTC cfg hw sSleep st))
    as (_ & _ & _ & _ & N5 & N6 & N7 & _).
  destruct (Z_lt_le_dec 0 sSleep) as [Hd | Hd].
  - destruct (sleep_fits cfg sSleep) eqn:Hfit.
    + rewrite (sleep_accepted sSleep env st Hd Hfit). unfold bind.
      destruct (EMU_Enter cfg hw (wake_cause env)
                  (sleep_before_wait cfg hw sSleep st)) as [st1 |] eqn:Hwait;
        [| discriminate].
      intros H. injection H as <-.
      destruct (EMU_Enter_vars _ _ _ Hwait) as (_ & _ & _ & _ & W5 & W6 & W7).
      destruct (sleep_before_wait_armed sSleep st Hready Hd) as (A1 & A2).
      apply compare_irq_armed_parts in A1. destruct A1 as (_ & _ & A3 & A4).
      split; [| apply irq_ready_intro]; simpl; congruence.
    + rewrite (sleep_rejected sSleep env st Hd Hfit).
      intros H. injection H as <-.
      destruct (too_long_vars
                  (announce_sleep cfg sSleep (ensure_RTC cfg hw sSleep st)))
        as (_ & _ & _ & _ & T5 & T6 & T7 & _).
      split; [| apply irq_ready_intro]; congruence.
  - rewrite (sleep_zero sSleep env st Hd).
    intros H. injection H as <-.
    split; [| apply irq_ready_intro]; congruence.
Qed.

Lemma sleep_returns sSleep env st :
  irq_ready st = true -> exists st', sleep cfg hw sSleep env st = Some st'.
Proof.
  intros Hready.
  destruct (Z_lt_le_dec 0 sSleep) as [Hd | Hd].
  - destruct (sleep_fits cfg sSleep) eqn:Hfit.
    + rewrite (sleep_accepted sSleep env st Hd Hfit).
      destruct (sleep_before_wait_armed sSleep st Hready Hd) as (A1 & _).
      destruct (wake_cause env) as [| cnt].
      * destruct (EMU_Enter_returns _ A1) as (st1 & ->). simpl. eauto.
      * destruct (EMU_Enter_external cnt (sleep_before_wait cfg hw sSleep st))
          as (st1 & ->). simpl. eauto.
    + rewrite (sleep_rejected sSleep env st Hd Hfit). eauto.
  - rewrite (sleep_zero sSleep env st Hd). eauto.
Qed.

(** ** Between two steps nobody sleeps *)

Lemma idle_rtc_side st st' : rtc_side st' = rtc_side st -> idle st' = idle st.
Proof.
  intros H. apply rtc_side_eq in H.
  destruct H as (_ & H2 & H3 & _ & _ & _ & H7 & H8).
  unfold idle, irq_ready. rewrite H2, H3, H7, H8. reflexivity.
Qed.

Lemma RTC_getPassedSleeptime_vars st :
  sleeping (snd (RTC_getPassedSleeptime cfg hw st)) = sleeping st /\
  RTC_sleep_wakeup (snd (RTC_getPassedSleeptime cfg hw st)) = RTC_sleep_wakeup st /\
  RTC_initialized (snd (RTC_getPassedSleeptime cfg hw st)) = RTC_initialized st /\
  RTC_IEN_COMP0 (snd (RTC_getPassedSleeptime cfg hw st)) = RTC_IEN_COMP0 st /\
  NVIC_RTC (snd (RTC_getPassedSleeptime cfg hw st)) = NVIC_RTC st /\
  RTC_COMP0 (snd (RTC_getPassedSleeptime cfg hw st)) = RTC_COMP0 st /\
  clk_RTC (snd (RTC_getPassedSleeptime cfg hw st)) = clk_RTC st.
Proof. repeat split. Qed.

Lemma delay_vars msDelay env st st' :
  sleeping st = false ->
  delay cfg hw msDelay env st = Some st' ->
  sleeping st' = false /\ RTC_sleep_wakeup st' = RTC_sleep_wakeup st.
Proof.
  intros Hs. unfold delay. destruct (SYSTICKDELAY cfg).
  - intros H. apply delay_SysTick_frame in H. destruct H as (H & _).
    apply rtc_side_eq in H. destruct H as (H1 & H2 & _). split; congruence.
  - intros H. apply delay_RTC_vars in H. destruct H as (H1 & H2).
    rewrite H1, H2, Hs, andb_false_r. split; [reflexivity |].
    destruct (wake_cause env); reflexivity.
Qed.

Lemma run_call_idle c st st' :
  idle st = true -> run_call cfg hw c st = Some st' -> idle st' = true.
Proof.
  intros Hidle. pose proof Hidle as Hparts.
  apply idle_parts in Hparts. destruct Hparts as (Hs & Hready).
  destruct c as [msDelay env | sSleep env | | | | |]; cbn [run_call]; intros H.
  - apply idle_parts. split.
    + apply (delay_vars msDelay env st st' Hs H).
    + unfold delay in H. destruct (SYSTICKDELAY cfg).
      * apply delay_SysTick_frame in H. destruct H as (H & _).
        apply idle_rtc_side in H. rewrite Hidle in H.
        apply idle_parts in H. apply H.
      * apply (delay_RTC_ready msDelay env st st' Hready H).
  - apply idle_parts. split.
    + apply sleep_vars in H. destruct H as (H & _). rewrite H, Hs.
      destruct ((0 <? sSleep) && sleep_fits cfg sSleep); reflexivity.
    + apply (sleep_ready sSleep env st st' Hready H).
  - injection H as <-. exact Hidle.
  - injection H as <-. exact Hidle.
  - injection H as <-. exact Hidle.
  - injection H as <-.
    destruct (SysTick_irq_frame st) as (H & _).
    apply idle_rtc_side in H. congruence.
  - injection H as <-.
    destruct (RTC_irq_vars st) as (H1 & _ & _ & _ & H5 & H6 & H7).
    unfold idle, irq_ready. rewrite H1, H5, H6, H7. exact Hidle.
Qed.

Lemma reachable_idle st : reachable cfg hw st -> idle st = true.
Proof.
  induction 1 as [| c st st' _ IH Hstep].
  - reflexivity.
  - exact (run_call_idle c st st' IH Hstep).
Qed.

Lemma reachable_not_sleeping st : reachable cfg hw st -> sleeping st = false.
Proof. intros H. apply reachable_idle, idle_parts in H. apply H. Qed.

Lemma reachable_irq_ready st : reachable cfg hw st -> irq_ready st = true.
Proof. intros H. apply reachable_idle, idle_parts in H. apply H. Qed.

(** No step other than [RTC_clearWakeup] takes the wake flag back. *)
Lemma run_call_keeps_wake c st st' :
  c <> Call_RTC_clearWakeup ->
  run_call cfg hw c st = Some st' ->
  RTC_sleep_wakeup st = true -> RTC_sleep_wakeup st' = true.
Proof.
  intros Hc H Hw.
  destruct c as [msDelay env | sSleep env | | | | |]; cbn [run_call] in H.
  - unfold delay in H. destruct (SYSTICKDELAY cfg).
    + apply delay_SysTick_frame in H. destruct H as (H & _).
      apply rtc_side_eq in H. destruct H as (H1 & _). congruence.
    + apply delay_RTC_vars in H. destruct H as (_ & H). rewrite H, Hw.
      destruct (wake_cause env); [apply orb_true_r | reflexivity].
  - apply sleep_vars in H. destruct H as (_ & H). rewrite H, Hw.
    destruct (wake_cause env); [apply orb_true_r | reflexivity].
  - injection H as <-. exact Hw.
  - contradiction Hc. reflexivity.
  - injection H as <-. exact Hw.
  - injection H as <-.
    destruct (SysTick_irq_frame st) as (H & _).
    apply rtc_side_eq in H. destruct H as (H1 & _). congruence.
  - injection H as <-.
    destruct (RTC_irq_vars st) as (_ & H2 & _). rewrite H2, Hw.
    apply orb_true_r.
Qed.

(** ** The range check of [sleep] *)

Lemma sleep_fits_zero : sleep_fits cfg 0 = true.
Proof.
  unfold sleep_fits, sleep_ticks. rewrite Z.mul_0_r. reflexivity.
Qed.

Lemma sleep_rejected_positive sSleep :
  0 <= sSleep -> sleep_fits cfg sSleep = false -> 0 < sSleep.
Proof.
  intros Hn Hfit.
  destruct (Z.eq_dec sSleep 0) as [-> | Hne]; [| lia].
  rewrite sleep_fits_zero in Hfit. discriminate.
Qed.

(** The effects of a rejected [sleep]. *)
Lemma sleep_rejected_effects sSleep env st :
  0 < sSleep -> sleep_fits cfg sSleep = false ->
  exists st',
    sleep cfg hw sSleep env st = Some st' /\
    sleeping st' = sleeping st /\
    RTC_sleep_wakeup st' = RTC_sleep_wakeup st /\
    RTC_COMP0 st' = RTC_COMP0 st /\
    clk_RTC st' = false /\
    grown_by no_wait (trace st) (trace st').
Proof.
  intros Hd Hfit. rewrite (sleep_rejected sSleep env st Hd Hfit).
  eexists. split; [reflexivity |].
  destruct (ensure_RTC_vars sSleep st) as (E1 & E2 & _ & _ & _ & E6).
  destruct (announce_sleep_vars sSleep (ensure_RTC cfg hw sSleep st))
    as (N1 & N2 & N3 & _ & _ & _ & _ & N8).
  destruct (too_long_vars
              (announce_sleep cfg sSleep (ensure_RTC cfg hw sSleep st)))
    as (T1 & T2 & T3 & _ & _ & _ & _ & T8 & T9).
  repeat split; try congruence.
  eapply grown_by_trans; [| exact T9].
  eapply grown_by_trans; [| exact N8].
  apply ensure_RTC_trace.
Qed.

(** The effects of a rejected [delay] on the real-time counter. *)
Lemma delay_rejected_effects msDelay env st :
  SYSTICKDELAY cfg = false ->
  0 < msDelay -> delay_fits cfg msDelay = false ->
  exists st',
    delay cfg hw msDelay env st = Some st' /\
    sleeping st' = sleeping st /\
    RTC_sleep_wakeup st' = RTC_sleep_wakeup st /\
    RTC_COMP0 st' = RTC_COMP0 st /\
    clk_RTC st' = false /\
    grown_by no_wait (trace st) (trace st').
Proof.
  intros Hb Hd Hfit. unfold delay. rewrite Hb.
  rewrite (delay_RTC_rejected msDelay env st Hd Hfit).
  eexists. split; [reflexivity |].
  destruct (ensure_RTC_vars msDelay st) as (E1 & E2 & _ & _ & _ & E6).
  destruct (too_long_vars (ensure_RTC cfg hw msDelay st))
    as (T1 & T2 & T3 & _ & _ & _ & _ & T8 & T9).
  repeat split; try congruence.
  eapply grown_by_trans; [| exact T9].
  apply ensure_RTC_trace.
Qed.

(** ** The wake flag *)

(** C1. The compare-match handler stops the counter, clears the interrupt
    source, and sets the wake flag exactly when [sleeping] is true as it
    runs. A [sleep] of a positive accepted duration is its low-power wait,
    entered from the state in which the compare value is written,
    [sleeping] is set and the counter is started, followed by
    [sleeping = false] and the closing of the clock gate: [sleeping] is true
    from the entry of the wait to its end and false on return. So a [sleep]
    of a positive accepted duration that a compare match ends returns with
    the wake flag set, and any other [sleep] leaves the flag as it was. A
    [delay] on the real-time counter is its wait, entered with [sleeping] as
    it was and followed by the closing of the clock gate only; [sleeping] is
    false in every state the program can be in, so no [delay] changes the
    wake flag. *)
Theorem wake_flag_set_by_sleep_not_delay :
  (forall st,
     RTC_EN (RTC_IRQHandler hw st) = false /\
     RTC_IF_COMP0 (RTC_IRQHandler hw st) = false /\
     RTC_sleep_wakeup (RTC_IRQHandler hw st)
       = (if sleeping st then true else RTC_sleep_wakeup st)) /\
  (forall st sSleep env st',
     0 < sSleep -> sleep_fits cfg sSleep = true ->
     sleep cfg hw sSleep env st = Some st' ->
     exists st2,
       sleeping (sleep_before_wait cfg hw sSleep st) = true /\
       EMU_Enter cfg hw (wake_cause env) (sleep_before_wait cfg hw sSleep st)
         = Some st2 /\
       sleeping st2 = true /\
       RTC_sleep_wakeup st2
         = (match wake_cause env with
            | CompareMatch => true
            | ExternalWake _ => RTC_sleep_wakeup st
            end) /\
       st' = CMU_ClockEnable cmuClock_RTC false (set_sleeping false st2) /\
       sleeping st' = false /\
       RTC_sleep_wakeup st' = RTC_sleep_wakeup st2) /\
  (forall st sSleep env,
     reachable cfg hw st ->
     0 < sSleep -> sleep_fits cfg sSleep = true ->
     wake_cause env = CompareMatch ->
     sleeping (sleep_before_wait cfg hw sSleep st) = true /\
     exists st',
       sleep cfg hw sSleep env st = Some st' /\
       sleeping st' = false /\
       RTC_sleep_wakeup st' = true) /\
  (forall st sSleep env st',
     sleep cfg hw sSleep env st = Some st' ->
     RTC_sleep_wakeup st'
     = (match wake_cause env with
        | CompareMatch =>
            (0 <? sSleep) && sleep_fits cfg sSleep || RTC_sleep_wakeup st
        | ExternalWake _ => RTC_sleep_wakeup st
        end)) /\
  (forall st msDelay env st',
     SYSTICKDELAY cfg = false ->
     0 < msDelay -> delay_fits cfg msDelay = true ->
     delay cfg hw msDelay env st = Some st' ->
     exists st2,
       sleeping (delay_before_wait cfg hw msDelay st) = sleeping st /\
       EMU_Enter cfg hw (wake_cause env) (delay_before_wait cfg hw msDelay st)
         = Some st2 /\
       sleeping st2 = sleeping st /\
       st' = CMU_ClockEnable cmuClock_RTC false st2 /\
       sleeping st' = sleeping st) /\
  (forall st msDelay env st',
     reachable cfg hw st ->
     delay cfg hw msDelay env st = Some st' ->
     sleeping st' = false /\
     RTC_sleep_wakeup st' = RTC_sleep_wakeup st).
Proof.
  split; [| split; [| split; [| split; [| split]]]].
  - intros st.
    destruct (RTC_IRQHandler_vars st) as (_ & H2 & H3 & H4 & _).
    rewrite H2, H3, H4. destruct (sleeping st); auto.
  - intros st sSleep env st' Hd Hfit Hrun.
    rewrite (sleep_accepted sSleep env st Hd Hfit) in Hrun. unfold bind in Hrun.
    destruct (EMU_Enter cfg hw (wake_cause env)
                (sleep_before_wait cfg hw sSleep st)) as [st2 |] eqn:Hwait;
      [| discriminate].
    injection Hrun as <-. exists st2.
    destruct (sleep_before_wait_vars sSleep st) as (Hset & Hflag & _).
    destruct (EMU_Enter_vars _ _ _ Hwait) as (Hs & Hw & _).
    rewrite Hset in Hs, Hw. rewrite Hflag in Hw.
    repeat split; try assumption.
  - intros st sSleep env Hreach Hd Hfit Hw.
    destruct (sleep_before_wait_vars sSleep st) as (Hset & _).
    split; [exact Hset |].
    destruct (sleep_returns sSleep env st (reachable_irq_ready st Hreach))
      as (st' & Hrun).
    exists st'. split; [exact Hrun |].
    apply sleep_vars in Hrun. destruct Hrun as (H1 & H2).
    apply Z.ltb_lt in Hd. rewrite Hd, Hfit in H1, H2. rewrite Hw in H2.
    split; assumption.
  - intros st sSleep env st' Hrun. apply (sleep_vars sSleep env st st' Hrun).
  - intros st msDelay env st' Hb Hd Hfit Hrun.
    unfold delay in Hrun. rewrite Hb in Hrun.
    rewrite (delay_RTC_accepted msDelay env st Hd Hfit) in Hrun.
    unfold bind in Hrun.
    destruct (EMU_Enter cfg hw (wake_cause env)
                (delay_before_wait cfg hw msDelay st)) as [st2 |] eqn:Hwait;
      [| discriminate].
    injection Hrun as <-. exists st2.
    destruct (delay_before_wait_vars msDelay st) as (Hkeep & _).
    destruct (EMU_Enter_vars _ _ _ Hwait) as (Hs & _).
    rewrite Hkeep in Hs.
    repeat split; assumption.
  - intros st msDelay env st' Hreach Hrun.
    exact (delay_vars msDelay env st st' (reachable_not_sleeping st Hreach) Hrun).
Qed.

(** C6. [RTC_checkWakeup] returns the wake flag and changes nothing;
    [RTC_clearWakeup] sets the flag to false whatever it was; the flag is
    false at reset; no other step (call or interrupt) turns a true flag
    false; hence a check right after a clear answers false. *)
Theorem wake_flag_cleared_only_by_clearWakeup :
  (forall st, RTC_checkWakeup st = (RTC_sleep_wakeup st, st)) /\
  (forall st, RTC_sleep_wakeup (RTC_clearWakeup st) = false) /\
  RTC_sleep_wakeup init_state = false /\
  (forall c st st',
     c <> Call_RTC_clearWakeup ->
     run_call cfg hw c st = Some st' ->
     RTC_sleep_wakeup st = true -> RTC_sleep_wakeup st' = true) /\
  (forall st, fst (RTC_checkWakeup (RTC_clearWakeup st)) = false).
Proof.
  repeat split.
  exact run_call_keeps_wake.
Qed.

(** C9. From any state the program can be in, [delay] of any duration
    returns with [sleeping] and the wake flag as they were: [sleeping] is
    false before, during (as the wait is entered) and after the call, so a
    compare interrupt taken during the delay leaves the wake flag alone.
    On the real-time counter the call does return. *)
Theorem delay_keeps_sleeping_and_wake_flag :
  forall st msDelay env,
    reachable cfg hw st ->
    sleeping st = false /\
    sleeping (delay_before_wait cfg hw msDelay st) = false /\
    (forall st',
       delay cfg hw msDelay env st = Some st' ->
       sleeping st' = sleeping st /\
       RTC_sleep_wakeup st' = RTC_sleep_wakeup st) /\
    (SYSTICKDELAY cfg = false ->
     exists st', delay cfg hw msDelay env st = Some st').
Proof.
  intros st msDelay env Hreach.
  pose proof (reachable_not_sleeping st Hreach) as Hs.
  split; [exact Hs |]. split; [| split].
  - destruct (delay_before_wait_vars msDelay st) as (H & _). congruence.
  - intros st' Hrun.
    destruct (delay_vars msDelay env st st' Hs Hrun) as (H1 & H2).
    split; congruence.
  - intros Hb. unfold delay. rewrite Hb.
    apply delay_RTC_returns. exact (reachable_irq_ready st Hreach).
Qed.

(** [sleep] sets [sleeping] only past its range check: a duration the
    check rejects makes [sleep] return with [sleeping], the wake flag and
    the compare register as before the call, no write of the compare
    register in the trace, and [sleeping] false in every state the program
    can be in. *)
Theorem rejected_sleep_keeps_shared_state :
  forall st sSleep env,
    0 <= sSleep -> sleep_fits cfg sSleep = false ->
    exists st',
      sleep cfg hw sSleep env st = Some st' /\
      sleeping st' = sleeping st /\
      RTC_sleep_wakeup st' = RTC_sleep_wakeup st /\
      RTC_COMP0 st' = RTC_COMP0 st /\
      grown_by no_wait (trace st) (trace st') /\
      (reachable cfg hw st -> sleeping st' = false).
Proof.
  intros st sSleep env Hn Hfit.
  pose proof (sleep_rejected_positive sSleep Hn Hfit) as Hd.
  destruct (sleep_rejected_effects sSleep env st Hd Hfit)
    as (st' & Hrun & H1 & H2 & H3 & _ & H5).
  exists st'. repeat split; try assumption.
  intros Hreach. rewrite H1. exact (reachable_not_sleeping st Hreach).
Qed.

(** ** Calls with the duration zero *)

Lemma delay_SysTick_zero env st :
  delay_SysTick cfg hw 0 env st = ensure_SysTick cfg hw 0 st.
Proof.
  unfold delay_SysTick, bind.
  destruct (ensure_SysTick cfg hw 0 st); reflexivity.
Qed.

Lemma ensure_RTC_zero_initialized st :
  RTC_initialized (ensure_RTC cfg hw 0 st) = true.
Proof.
  destruct (RTC_initialized st) eqn:Hinit.
  - rewrite ensure_RTC_again by (lia || exact Hinit). exact Hinit.
  - rewrite ensure_RTC_first by exact Hinit. apply initRTC_regs.
Qed.

(** A call with the duration zero starts no wait and leaves the compare
    register alone. *)
Lemma zero_call_quiet c st st' :
  zero_call c = true ->
  run_call cfg hw c st = Some st' ->
  grown_by no_wait (trace st) (trace st') /\ RTC_COMP0 st' = RTC_COMP0 st.
Proof.
  destruct c as [msDelay env | sSleep env | | | | |]; cbn [zero_call run_call];
    try discriminate; intros Hz Hrun; apply Z.eqb_eq in Hz; subst.
  - unfold delay in Hrun. destruct (SYSTICKDELAY cfg).
    + rewrite delay_SysTick_zero in Hrun.
      destruct (ensure_SysTick_frame _ _ _ Hrun) as (_ & H2 & _ & H4 & _).
      apply rtc_side_eq in H2. split; [exact H4 | apply H2].
    + rewrite delay_RTC_zero in Hrun by lia. injection Hrun as <-.
      split; [apply ensure_RTC_trace | apply ensure_RTC_vars].
  - rewrite sleep_zero in Hrun by lia. injection Hrun as <-.
    split; [apply ensure_RTC_trace | apply ensure_RTC_vars].
Qed.

Lemma zero_calls_quiet cs st st' :
  forallb zero_call cs = true ->
  run cfg hw cs st = Some st' ->
  grown_by no_wait (trace st) (trace st') /\ RTC_COMP0 st' = RTC_COMP0 st.
Proof.
  revert st. induction cs as [| c cs IH]; intros st Hz Hrun.
  - injection Hrun as <-. split; [constructor | reflexivity].
  - cbn [forallb] in Hz. apply andb_true_iff in Hz. destruct Hz as [Hc Hcs].
    cbn [run] in Hrun. unfold bind in Hrun.
    destruct (run_call cfg hw c st) as [st1 |] eqn:Hstep; [| discriminate].
    destruct (zero_call_quiet c st st1 Hc Hstep) as (T1 & C1).
    destruct (IH st1 Hcs Hrun) as (T2 & C2).
    split; [exact (grown_by_trans _ _ _ _ T1 T2) | congruence].
Qed.

(** [delay(0)] and [sleep(0)] are their first statement alone. On the
    real-time counter that is [initRTC] when the flag is false, nothing
    when it is true, and the flag is true afterwards, so every later such
    call is a no-op. On SysTick [delay(0)] is a no-op once the flag is true
    and sets it on first use. Whatever the state they start in, no sequence
    of such calls writes the compare register, starts the real-time counter
    or enters a low-power state. *)
Theorem zero_duration_only_initialises :
  forall st env,
    sleep cfg hw 0 env st = Some (ensure_RTC cfg hw 0 st) /\
    (SYSTICKDELAY cfg = false ->
     delay cfg hw 0 env st = Some (ensure_RTC cfg hw 0 st)) /\
    (RTC_initialized st = false -> ensure_RTC cfg hw 0 st = initRTC cfg hw st) /\
    (RTC_initialized st = true -> ensure_RTC cfg hw 0 st = st) /\
    RTC_initialized (ensure_RTC cfg hw 0 st) = true /\
    ensure_RTC cfg hw 0 (ensure_RTC cfg hw 0 st) = ensure_RTC cfg hw 0 st /\
    (SYSTICKDELAY cfg = true ->
     (SysTick_initialized st = true -> delay cfg hw 0 env st = Some st) /\
     (SysTick_initialized st = false -> SysTick_reload_fits hw = true ->
      exists st', delay cfg hw 0 env st = Some st') /\
     (forall st',
        delay cfg hw 0 env st = Some st' ->
        SysTick_initialized st' = true /\
        delay cfg hw 0 env st' = Some st')) /\
    (forall cs st',
       forallb zero_call cs = true ->
       run cfg hw cs st = Some st' ->
       grown_by no_wait (trace st) (trace st') /\
       RTC_COMP0 st' = RTC_COMP0 st).
Proof.
  intros st env.
  split; [apply sleep_zero; lia |].
  split; [intros Hb; unfold delay; rewrite Hb; apply delay_RTC_zero; lia |].
  split; [apply ensure_RTC_first |].
  split; [apply ensure_RTC_again; lia |].
  split; [apply ensure_RTC_zero_initialized |].
  split; [apply ensure_RTC_again; [lia | apply ensure_RTC_zero_initialized] |].
  split; [| intros cs st'; apply zero_calls_quiet].
  intros Hb. unfold delay. rewrite Hb. split; [| split].
  - intros Hinit. rewrite delay_SysTick_zero.
    apply ensure_SysTick_again; [exact Hinit | lia].
  - intros Hinit Hfit. rewrite delay_SysTick_zero.
    destruct (ensure_SysTick_first 0 st Hinit Hfit) as (st' & H & _). eauto.
  - intros st' Hrun. rewrite delay_SysTick_zero in Hrun.
    destruct (ensure_SysTick_frame _ _ _ Hrun) as (H1 & _).
    split; [exact H1 |]. rewrite delay_SysTick_zero.
    apply ensure_SysTick_again; [exact H1 | lia].
Qed.

(** ** The wait on SysTick *)

(** C7. On SysTick, [delay] of a duration [0 < msDelay < 2^32] that
    returns has enabled the tick interrupt and the counter, recorded
    [msTicks], polled until the distance of [msTicks] to the recorded value,
    taken modulo [2^32], reached [msDelay], by when at least [msDelay] tick
    interrupts were taken, and has then disabled the tick interrupt and the
    counter. Polled once per tick it does return, after exactly [msDelay]
    ticks. *)
Theorem delay_SysTick_waits_for_ticks :
  forall st msDelay env,
    SYSTICKDELAY cfg = true ->
    0 < msDelay < 2 ^ 32 ->
    (forall st',
       delay cfg hw msDelay env st = Some st' ->
       exists st1 st2 evs,
         ensure_SysTick cfg hw msDelay st = Some st1 /\
         SysTick_running st1 = true /\
         busy_wait (tick_bursts env) (msTicks st1) msDelay st1 = Some st2 /\
         msDelay <= uint32 (msTicks st2 - msTicks st1) /\
         trace st2 = evs ++ trace st1 /\
         msDelay <= tick_count evs /\
         st' = disable_SysTick st2 /\
         SysTick_running st' = false) /\
    (SysTick_initialized st = true \/ SysTick_reload_fits hw = true ->
     tick_bursts env = repeat 1%nat (Z.to_nat msDelay) ->
     exists st',
       delay cfg hw msDelay env st = Some st' /\
       uint32 (msTicks st' - msTicks st) = msDelay /\
       SysTick_running st' = false).
Proof.
  intros st msDelay env Hb [Hd Hmax].
  assert (Hpos : (0 <? msDelay) = true) by (apply Z.ltb_lt; exact Hd).
  unfold delay. rewrite Hb. unfold delay_SysTick, bind. rewrite Hpos.
  split.
  - intros st'.
    destruct (ensure_SysTick cfg hw msDelay st) as [st1 |] eqn:E1;
      [| discriminate].
    destruct (busy_wait (tick_bursts env) (msTicks st1) msDelay st1)
      as [st2 |] eqn:E2; [| discriminate].
    intros H. injection H as <-.
    destruct (ensure_SysTick_frame _ _ _ E1) as (_ & _ & _ & _ & Hrun).
    destruct (busy_wait_elapsed _ _ _ _ _ E2) as (Hreach & evs & Ht & _ & Hcount).
    exists st1, st2, evs.
    rewrite Z.sub_diag in Hcount. change (uint32 0) with 0 in Hcount.
    repeat split; auto; try lia.
    apply disable_SysTick_frame.
  - intros Hinit Hbursts.
    assert (Hfirst : exists st1,
               ensure_SysTick cfg hw msDelay st = Some st1 /\
               SysTick_running st1 = true /\ msTicks st1 = msTicks st).
    { destruct (SysTick_initialized st) eqn:Hflag.
      - destruct (ensure_SysTick_enable msDelay st Hflag Hd)
          as (st1 & E & _ & R & _ & M & _). eauto.
      - destruct Hinit as [Hinit | Hfit]; [discriminate |].
        destruct (ensure_SysTick_first msDelay st Hflag Hfit)
          as (st1 & E & _ & R & _ & M & _). eauto. }
    destruct Hfirst as (st1 & E1 & Hrun & Hticks). rewrite E1, Hbursts.
    destruct (busy_wait_returns (Z.to_nat msDelay) (msTicks st1) msDelay st1)
      as (st2 & E2 & Hdist).
    + exact Hrun.
    + exact Hmax.
    + rewrite Z.sub_diag. change (uint32 0) with 0. lia.
    + rewrite Z.sub_diag. change (uint32 0) with 0. lia.
    + rewrite E2. eexists. split; [reflexivity |].
      destruct (disable_SysTick_frame st2) as (D1 & _ & _ & _ & D5 & _).
      rewrite D5, <- Hticks. split; assumption.
Qed.

(** ** The range check of [sleep] against the product of the integers *)

(** As long as the product stays below [2^32] the check is exact. *)
Lemma sleep_fits_below_wrap sSleep :
  0 <= sSleep ->
  (if ULFRCO cfg then ULFRCOFREQ else LFXOFREQ) * sSleep < 2 ^ 32 ->
  sleep_ticks cfg sSleep = (if ULFRCO cfg then ULFRCOFREQ else LFXOFREQ) * sSleep /\
  sleep_fits cfg sSleep
    = ((if ULFRCO cfg then ULFRCOFREQ else LFXOFREQ) * sSleep <=? RTC_COMP_MAX).
Proof.
  intros Hn Hlt. unfold sleep_fits, sleep_ticks.
  rewrite uint32_small; [split; reflexivity |].
  split; [| exact Hlt].
  destruct (ULFRCO cfg); unfold ULFRCOFREQ, LFXOFREQ; lia.
Qed.

(** ** The clock gate *)

(** A first call with the duration zero returns with the RTC clock on. *)
Lemma first_zero_call_leaves_clock_on st :
  RTC_initialized st = false ->
  clk_RTC (ensure_RTC cfg hw 0 st) = true /\
  RTC_EN (ensure_RTC cfg hw 0 st) = false.
Proof.
  intros Hinit. rewrite ensure_RTC_first by exact Hinit.
  destruct (initRTC_regs st) as (_ & H2 & _ & _ & H5). auto.
Qed.

(** A call that asks for a wait returns with the RTC clock off. *)
Lemma delay_RTC_clock_off msDelay env st st' :
  0 < msDelay ->
  delay_RTC cfg hw msDelay env st = Some st' -> clk_RTC st' = false.
Proof.
  intros Hd. destruct (delay_fits cfg msDelay) eqn:Hfit.
  - rewrite (delay_RTC_accepted msDelay env st Hd Hfit). unfold bind.
    destruct (EMU_Enter cfg hw (wake_cause env)
                (delay_before_wait cfg hw msDelay st)); [| discriminate].
    intros H. injection H as <-. reflexivity.
  - rewrite (delay_RTC_rejected msDelay env st Hd Hfit).
    intros H. injection H as <-. apply too_long_vars.
Qed.

Lemma sleep_clock_off sSleep env st st' :
  0 < sSleep ->
  sleep cfg hw sSleep env st = Some st' -> clk_RTC st' = false.
Proof.
  intros Hd. destruct (sleep_fits cfg sSleep) eqn:Hfit.
  - rewrite (sleep_accepted sSleep env st Hd Hfit). unfold bind.
    destruct (EMU_Enter cfg hw (wake_cause env)
                (sleep_before_wait cfg hw sSleep st)); [| discriminate].
    intros H. injection H as <-. reflexivity.
  - rewrite (sleep_rejected sSleep env st Hd Hfit).
    intros H. injection H as <-. apply too_long_vars.
Qed.

(** Hence the counter does not advance after such a call, whatever ended
    the wait. *)
Lemma wait_leaves_counter_still duration env st st' :
  0 < duration ->
  delay_RTC cfg hw duration env st = Some st' \/
  sleep cfg hw duration env st = Some st' ->
  counter_counts st' = false.
Proof.
  intros Hd [H | H]; unfold counter_counts.
  - rewrite (delay_RTC_clock_off duration env st st' Hd H). reflexivity.
  - rewrite (sleep_clock_off duration env st st' Hd H). reflexivity.
Qed.

(** ** The time slept *)

(** [RTC_getPassedSleeptime] reads the counter, stops it, and returns the
    count in whole seconds of the oscillator in use. *)
Lemma RTC_getPassedSleeptime_reads st :
  fst (RTC_getPassedSleeptime cfg hw st)
    = uint32 (RTC_CNT st) / (if ULFRCO cfg then ULFRCOFREQ else LFXOFREQ) /\
  RTC_EN (snd (RTC_getPassedSleeptime cfg hw st)) = false /\
  trace (snd (RTC_getPassedSleeptime cfg hw st))
    = Ev_RTC_Enable false :: Ev_RTC_CounterGet :: trace st.
Proof. repeat split. Qed.

(** A second call right after returns the same on a counter that keeps its
    count when stopped, and zero on one that loses it. *)
Lemma RTC_getPassedSleeptime_twice st :
  fst (RTC_getPassedSleeptime cfg hw (snd (RTC_getPassedSleeptime cfg hw st)))
  = (if cnt_cleared_when_stopped hw then 0
     else fst (RTC_getPassedSleeptime cfg hw st)).
Proof.
  unfold RTC_getPassedSleeptime, RTC_CounterGet, RTC_Enable, rtc_enable_bit.
  cbn [fst snd RTC_CNT log set_trace set_RTC_CNT set_RTC_EN].
  destruct (cnt_cleared_when_stopped hw); [| reflexivity].
  destruct (ULFRCO cfg); reflexivity.
Qed.

Lemma compare_irq_armed_log e st :
  compare_irq_armed (log e st) = compare_irq_armed st.
Proof. reflexivity. Qed.

Lemma RTC_irq_cnt st :
  compare_irq_armed st = true ->
  RTC_CNT (RTC_irq hw st)
  = (if cnt_cleared_when_stopped hw then 0 else RTC_COMP0 st).
Proof.
  intros Harmed. unfold RTC_irq, RTC_IRQHandler. rewrite Harmed.
  cbn. destruct (sleeping st); reflexivity.
Qed.

(** After a wait ended by the compare match the counter reads the compare
    value, or zero if stopping clears it. *)
Lemma EMU_Enter_completed_cnt st st' :
  compare_irq_armed st = true ->
  EMU_Enter cfg hw CompareMatch st = Some st' ->
  RTC_CNT st' = (if cnt_cleared_when_stopped hw then 0 else RTC_COMP0 st).
Proof.
  intros Harmed.
  unfold EMU_Enter, EMU_EnterEM3, EMU_EnterEM2, low_power_wait.
  destruct (ULFRCO cfg); rewrite compare_irq_armed_log, Harmed;
    intros H; injection H as <-;
    rewrite RTC_irq_cnt by (rewrite compare_irq_armed_log; exact Harmed);
    reflexivity.
Qed.

Lemma sleep_completed_cnt sSleep env st st' :
  irq_ready st = true ->
  0 < sSleep -> sleep_fits cfg sSleep = true ->
  wake_cause env = CompareMatch ->
  sleep cfg hw sSleep env st = Some st' ->
  RTC_CNT st'
  = (if cnt_cleared_when_stopped hw then 0 else sleep_ticks cfg sSleep).
Proof.
  intros Hready Hd Hfit Hw.
  rewrite (sleep_accepted sSleep env st Hd Hfit), Hw.
  destruct (sleep_before_wait_armed sSleep st Hready Hd) as (Harmed & _).
  destruct (sleep_before_wait_vars sSleep st) as (_ & _ & Hcomp).
  unfold bind.
  destruct (EMU_Enter cfg hw CompareMatch (sleep_before_wait cfg hw sSleep st))
    as [st1 |] eqn:Hwait; [| discriminate].
  intros H. injection H as <-.
  pose proof (EMU_Enter_completed_cnt _ _ Harmed Hwait) as Hcnt.
  rewrite Hcomp in Hcnt. rewrite <- Hcnt. reflexivity.
Qed.

(** So for a duration whose product with the frequency fits the compare
    register, the time slept is the duration asked for when the stopped
    counter keeps its count, and zero when it loses it. *)
Lemma sleep_completed_seconds sSleep env st st' :
  irq_ready st = true ->
  0 < sSleep ->
  (if ULFRCO cfg then ULFRCOFREQ else LFXOFREQ) * sSleep <= RTC_COMP_MAX ->
  wake_cause env = CompareMatch ->
  sleep cfg hw sSleep env st = Some st' ->
  fst (RTC_getPassedSleeptime cfg hw st')
  = (if cnt_cleared_when_stopped hw then 0 else sSleep).
Proof.
  intros Hready Hd Hmax Hw Hrun.
  assert (Hlt : (if ULFRCO cfg then ULFRCOFREQ else LFXOFREQ) * sSleep < 2 ^ 32)
    by (unfold RTC_COMP_MAX in Hmax; lia).
  destruct (sleep_fits_below_wrap sSleep (Z.lt_le_incl _ _ Hd) Hlt)
    as (Hticks & Hfit).
  assert (Hfit' : sleep_fits cfg sSleep = true)
    by (rewrite Hfit; apply Z.leb_le; exact Hmax).
  destruct (RTC_getPassedSleeptime_reads st') as (-> & _).
  rewrite (sleep_completed_cnt sSleep env st st' Hready Hd Hfit' Hw Hrun).
  destruct (cnt_cleared_when_stopped hw).
  - destruct (ULFRCO cfg); reflexivity.
  - rewrite Hticks, uint32_small, Z.mul_comm.
    + apply Z.div_mul. destruct (ULFRCO cfg); discriminate.
    + split; [| exact Hlt].
      destruct (ULFRCO cfg); unfold ULFRCOFREQ, LFXOFREQ; lia.
Qed.

End Properties.

(** * Concrete runs *)

(** ** The constants *)

(** [LFXOFREQ_MS] is within half a unit in the last place of 32.768. *)
Lemma LFXOFREQ_MS_nearest :
  2 * Z.abs (4611686018427388 * 1000 - 32768 * 2 ^ 47) <= 1000.
Proof. vm_compute. discriminate. Qed.

(** The range check of [delay] at its boundaries: 16777215 ms on the ULFRCO,
    511999 ms on the LFXO. *)
Lemma delay_fits_boundaries :
  delay_fits build_ULFRCO 16777215 = true /\
  Double.to_uint32 (delay_ticks build_ULFRCO 16777215) = 16777215 /\
  delay_fits build_ULFRCO 16777216 = false /\
  delay_fits build_ULFRCO 4294967295 = false /\
  delay_fits build_LFXO 511999 = true /\
  Double.to_uint32 (delay_ticks build_LFXO 511999) = 16777183 /\
  delay_fits build_LFXO 512000 = false /\
  delay_fits build_LFXO 4294967295 = false.
Proof. vm_compute. repeat split. Qed.

(** ** Durations whose product wraps *)

(** C2. A duration whose tick count exceeds the field is not always
    rejected: 4294968 s on the ULFRCO are 4294968000 ticks, the 32-bit
    product is 704, and [sleep] writes the compare register, starts the
    counter and enters EM3. *)
Theorem sleep_accepts_wrapped_duration :
  RTC_COMP_MAX < ULFRCOFREQ * 4294968 /\
  exists st',
    sleep build_ULFRCO board_keep 4294968 to_completion init_state = Some st' /\
    RTC_COMP0 st' = 704 /\
    sleeping st' = false /\
    RTC_sleep_wakeup st' = true /\
    trace st'
    = [Ev_CMU_ClockEnable cmuClock_RTC false; Ev_RTC_IntClear;
       Ev_RTC_Enable false; Ev_IRQ_RTC; Ev_EMU_EnterEM3; Ev_RTC_Enable true;
       Ev_RTC_CompareSet 704; Ev_RTC_Init; Ev_NVIC_EnableIRQ;
       Ev_NVIC_ClearPendingIRQ; Ev_RTC_IntClear; Ev_RTC_IntEnable;
       Ev_CMU_ClockEnable cmuClock_RTC true;
       Ev_CMU_ClockSelectSet_LFA cmuSelect_ULFRCO;
       Ev_CMU_ClockEnable cmuClock_HFLE true].
Proof.
  split; [reflexivity |].
  eexists. split; [vm_compute; reflexivity |]. repeat split.
Qed.

(** C4. The conversion and the check of [sleep] at the values of the
    scenarios, and at two durations whose product exceeds 16777215 and is
    accepted all the same because it wraps modulo [2^32]. *)
Theorem sleep_range_check_wraps :
  (sleep_ticks build_LFXO 5 = 163840 /\ sleep_fits build_LFXO 5 = true) /\
  (sleep_ticks build_ULFRCO 16777 = 16777000 /\
   sleep_fits build_ULFRCO 16777 = true) /\
  (sleep_ticks build_ULFRCO 16778 = 16778000 /\
   sleep_fits build_ULFRCO 16778 = false) /\
  (RTC_COMP_MAX < ULFRCOFREQ * 4294968 /\
   sleep_ticks build_ULFRCO 4294968 = 704 /\
   sleep_fits build_ULFRCO 4294968 = true) /\
  (RTC_COMP_MAX < LFXOFREQ * 131072 /\
   sleep_ticks build_LFXO 131072 = 0 /\
   sleep_fits build_LFXO 131072 = true).
Proof. vm_compute. repeat split. Qed.

(** The scenarios of the crystal and of the ULFRCO, run from reset. *)
Lemma sleep_scenarios :
  (exists st',
     sleep build_LFXO board_keep 5 to_completion init_state = Some st' /\
     RTC_COMP0 st' = 163840 /\ RTC_sleep_wakeup st' = true /\
     fst (RTC_getPassedSleeptime build_LFXO board_keep st') = 5) /\
  (exists st',
     sleep build_ULFRCO board_keep 16777 to_completion init_state = Some st' /\
     RTC_COMP0 st' = 16777000) /\
  (exists st',
     sleep build_ULFRCO board_keep 16778 to_completion init_state = Some st' /\
     RTC_COMP0 st' = 0 /\ forallb no_wait (trace st') = true).
Proof.
  repeat split; eexists; (split; [vm_compute; reflexivity |]); repeat split.
Qed.

(** C5. After [sleep(4294968)] on the ULFRCO, ended by the compare match at
    704 ticks, [RTC_getPassedSleeptime] returns 0, whether the stopped
    counter keeps its count or not. *)
Theorem elapsed_seconds_after_wrapped_sleep :
  (exists st',
     sleep build_ULFRCO board_keep 4294968 to_completion init_state = Some st' /\
     RTC_CNT st' = 704 /\
     fst (RTC_getPassedSleeptime build_ULFRCO board_keep st') = 0) /\
  (exists st',
     sleep build_ULFRCO board_clear 4294968 to_completion init_state = Some st' /\
     RTC_CNT st' = 0 /\
     fst (RTC_getPassedSleeptime build_ULFRCO board_clear st') = 0).
Proof.
  split; eexists; (split; [vm_compute; reflexivity |]); repeat split.
Qed.

(** C10. A duration out of range does not always leave the shared state
    alone: 4294968 s on the ULFRCO are 4294968000 ticks, more than the field
    holds, yet the 32-bit product 704 passes the check and [sleep] writes it
    to the compare register, sets [sleeping], enters the wait with
    [sleeping] true, and returns with the compare register and the wake flag
    changed. On the LFXO 131072 s wrap to 0, and [sleep] goes the same
    way. *)
Theorem wrapped_sleep_changes_shared_state :
  (RTC_COMP_MAX < ULFRCOFREQ * 4294968 /\
   exists st2 st',
     EMU_Enter build_ULFRCO board_keep CompareMatch
       (sleep_before_wait build_ULFRCO board_keep 4294968 init_state)
       = Some st2 /\
     sleeping (sleep_before_wait build_ULFRCO board_keep 4294968 init_state)
       = true /\
     sleeping st2 = true /\
     sleep build_ULFRCO board_keep 4294968 to_completion init_state = Some st' /\
     st' = CMU_ClockEnable cmuClock_RTC false (set_sleeping false st2) /\
     In (Ev_RTC_CompareSet 704) (trace st') /\
     RTC_COMP0 init_state = 0 /\ RTC_COMP0 st' = 704 /\
     RTC_sleep_wakeup init_state = false /\ RTC_sleep_wakeup st' = true) /\
  (RTC_COMP_MAX < LFXOFREQ * 131072 /\
   exists st2 st',
     EMU_Enter build_LFXO board_keep CompareMatch
       (sleep_before_wait build_LFXO board_keep 131072 init_state)
       = Some st2 /\
     sleeping (sleep_before_wait build_LFXO board_keep 131072 init_state)
       = true /\
     sleeping st2 = true /\
     sleep build_LFXO board_keep 131072 to_completion init_state = Some st' /\
     st' = CMU_ClockEnable cmuClock_RTC false (set_sleeping false st2) /\
     In (Ev_RTC_CompareSet 0) (trace st') /\
     RTC_sleep_wakeup init_state = false /\ RTC_sleep_wakeup st' = true).
Proof.
  split; (split; [reflexivity |]); eexists; eexists;
    (split; [vm_compute; reflexivity |]);
    (split; [reflexivity |]); (split; [reflexivity |]);
    (split; [vm_compute; reflexivity |]);
    (split; [reflexivity |]);
    (split; [cbn; tauto |]); repeat split.
Qed.

(** ** The clock gate after an initialisation *)

(** C8. [delay(0)] and [sleep(0)] as the first call after reset return
    with the RTC clock switched on, the counter stopped. *)
Theorem init_only_call_leaves_RTC_clock_on :
  (exists st',
     delay build_ULFRCO board_keep 0 to_completion init_state = Some st' /\
     clk_RTC st' = true /\ RTC_EN st' = false /\ counter_counts st' = false /\
     trace st'
     = [Ev_RTC_Init; Ev_NVIC_EnableIRQ; Ev_NVIC_ClearPendingIRQ;
        Ev_RTC_IntClear; Ev_RTC_IntEnable;
        Ev_CMU_ClockEnable cmuClock_RTC true;
        Ev_CMU_ClockSelectSet_LFA cmuSelect_ULFRCO;
        Ev_CMU_ClockEnable cmuClock_HFLE true]) /\
  (exists st',
     sleep build_LFXO board_keep 0 to_completion init_state = Some st' /\
     clk_RTC st' = true /\ RTC_EN st' = false).
Proof.
  split; eexists; (split; [vm_compute; reflexivity |]); repeat split.
Qed.

(** ** The general statements at concrete inputs *)

(** From reset on the ULFRCO: [sleep(5)] ended by the compare match is its
    wait entered with [sleeping] set, and sets the wake flag; [delay(7)]
    after reset is its wait entered with [sleeping] false, and leaves the
    flag false. *)
Lemma wake_flag_set_by_sleep_not_delay_witness :
  (exists st2 st',
     sleep build_ULFRCO board_keep 5 to_completion init_state = Some st' /\
     sleeping (sleep_before_wait build_ULFRCO board_keep 5 init_state) = true /\
     EMU_Enter build_ULFRCO board_keep CompareMatch
       (sleep_before_wait build_ULFRCO board_keep 5 init_state) = Some st2 /\
     sleeping st2 = true /\
     RTC_sleep_wakeup st2 = true /\
     st' = CMU_ClockEnable cmuClock_RTC false (set_sleeping false st2) /\
     sleeping st' = false /\
     RTC_sleep_wakeup st' = RTC_sleep_wakeup st2) /\
  (sleeping (sleep_before_wait build_ULFRCO board_keep 5 init_state) = true /\
   exists st',
     sleep build_ULFRCO board_keep 5 to_completion init_state = Some st' /\
     sleeping st' = false /\ RTC_sleep_wakeup st' = true) /\
  (exists st2 st',
     delay build_ULFRCO board_keep 7 to_completion init_state = Some st' /\
     sleeping (delay_before_wait build_ULFRCO board_keep 7 init_state)
       = sleeping init_state /\
     EMU_Enter build_ULFRCO board_keep CompareMatch
       (delay_before_wait build_ULFRCO board_keep 7 init_state) = Some st2 /\
     sleeping st2 = sleeping init_state /\
     st' = CMU_ClockEnable cmuClock_RTC false st2 /\
     sleeping st' = sleeping init_state) /\
  (exists st',
     delay build_ULFRCO board_keep 7 to_completion init_state = Some st' /\
     sleeping st' = false /\
     RTC_sleep_wakeup st' = RTC_sleep_wakeup init_state).
Proof.
  destruct (wake_flag_set_by_sleep_not_delay build_ULFRCO board_keep)
    as (_ & Hwait & Hsleep & _ & Hdwait & Hdelay).
  split; [| split; [| split]].
  - destruct (sleep build_ULFRCO board_keep 5 to_completion init_state)
      as [st' |] eqn:Hrun; [| vm_compute in Hrun; discriminate].
    destruct (Hwait init_state 5 to_completion st') as (st2 & H).
    + reflexivity.
    + reflexivity.
    + exact Hrun.
    + exists st2, st'. split; [reflexivity | exact H].
  - apply Hsleep.
    + apply reachable_init.
    + reflexivity.
    + reflexivity.
    + reflexivity.
  - destruct (delay build_ULFRCO board_keep 7 to_completion init_state)
      as [st' |] eqn:Hrun; [| vm_compute in Hrun; discriminate].
    destruct (Hdwait init_state 7 to_completion st') as (st2 & H).
    + reflexivity.
    + reflexivity.
    + vm_compute. reflexivity.
    + exact Hrun.
    + exists st2, st'. split; [reflexivity | exact H].
  - eexists. split; [vm_compute; reflexivity |].
    apply (Hdelay init_state 7 to_completion).
    + apply reachable_init.
    + vm_compute. reflexivity.
Defined.

(** A wake flag that is set survives [RTC_getPassedSleeptime]. *)
Lemma wake_flag_cleared_only_by_clearWakeup_witness :
  RTC_sleep_wakeup
    (snd (RTC_getPassedSleeptime build_LFXO board_keep
            (set_RTC_sleep_wakeup true init_state))) = true.
Proof.
  destruct (wake_flag_cleared_only_by_clearWakeup build_LFXO board_keep)
    as (_ & _ & _ & Hkeep & _).
  apply (Hkeep Call_RTC_getPassedSleeptime
           (set_RTC_sleep_wakeup true init_state)).
  - discriminate.
  - reflexivity.
  - reflexivity.
Defined.

(** [delay(7)] from reset on the LFXO. *)
Lemma delay_keeps_sleeping_and_wake_flag_witness :
  sleeping init_state = false /\
  sleeping (delay_before_wait build_LFXO board_keep 7 init_state) = false /\
  exists st',
    delay build_LFXO board_keep 7 to_completion init_state = Some st' /\
    sleeping st' = sleeping init_state /\
    RTC_sleep_wakeup st' = RTC_sleep_wakeup init_state.
Proof.
  destruct (delay_keeps_sleeping_and_wake_flag build_LFXO board_keep
              init_state 7 to_completion (reachable_init _ _))
    as (H1 & H2 & H3 & H4).
  split; [exact H1 |]. split; [exact H2 |].
  destruct (H4 eq_refl) as (st' & Hrun).
  exists st'. split; [exact Hrun |]. apply H3. exact Hrun.
Defined.

(** [sleep(16778)] from reset on the ULFRCO is rejected. *)
Lemma rejected_sleep_keeps_shared_state_witness :
  exists st',
    sleep build_ULFRCO board_keep 16778 to_completion init_state = Some st' /\
    sleeping st' = sleeping init_state /\
    RTC_sleep_wakeup st' = RTC_sleep_wakeup init_state /\
    RTC_COMP0 st' = RTC_COMP0 init_state /\
    grown_by no_wait (trace init_state) (trace st') /\
    (reachable build_ULFRCO board_keep init_state -> sleeping st' = false).
Proof.
  apply (rejected_sleep_keeps_shared_state build_ULFRCO board_keep).
  - discriminate.
  - reflexivity.
Defined.

(** [delay(0)] and [sleep(0)] from reset: on the LFXO both initialise the
    counter; on SysTick [delay(0)] sets the flag and is a no-op afterwards. *)
Lemma zero_duration_only_initialises_witness :
  delay build_LFXO board_keep 0 to_completion init_state
    = Some (initRTC build_LFXO board_keep init_state) /\
  (exists st',
     delay build_SysTick board_keep 0 to_completion init_state = Some st' /\
     SysTick_initialized st' = true /\
     delay build_SysTick board_keep 0 to_completion st' = Some st') /\
  (exists st',
     run build_LFXO board_keep
       [Call_sleep 0 to_completion; Call_delay 0 to_completion] init_state
       = Some st' /\
     grown_by no_wait (trace init_state) (trace st') /\
     RTC_COMP0 st' = RTC_COMP0 init_state).
Proof.
  split; [| split].
  - destruct (zero_duration_only_initialises build_LFXO board_keep
                init_state to_completion) as (_ & Hdelay & Hfirst & _).
    rewrite (Hdelay eq_refl). rewrite (Hfirst eq_refl). reflexivity.
  - destruct (zero_duration_only_initialises build_SysTick board_keep
                init_state to_completion)
      as (_ & _ & _ & _ & _ & _ & Htick & _).
    destruct (Htick eq_refl) as (_ & Hsome & Hafter).
    destruct (Hsome eq_refl eq_refl) as (st' & Hrun).
    exists st'. split; [exact Hrun |]. apply Hafter. exact Hrun.
  - destruct (zero_duration_only_initialises build_LFXO board_keep
                init_state to_completion)
      as (_ & _ & _ & _ & _ & _ & _ & Hseq).
    eexists. split; [vm_compute; reflexivity |].
    apply (Hseq [Call_sleep 0 to_completion; Call_delay 0 to_completion]).
    + reflexivity.
    + vm_compute. reflexivity.
Defined.

(** [delay(3)] from reset on SysTick, polled once per tick. *)
Lemma delay_SysTick_waits_for_ticks_witness :
  exists st',
    delay build_SysTick board_keep 3 (one_tick_per_poll 3) init_state = Some st' /\
    uint32 (msTicks st' - msTicks init_state) = 3 /\
    SysTick_running st' = false /\
    exists st1 st2 evs,
      ensure_SysTick build_SysTick board_keep 3 init_state = Some st1 /\
      SysTick_running st1 = true /\
      busy_wait (tick_bursts (one_tick_per_poll 3)) (msTicks st1) 3 st1
        = Some st2 /\
      3 <= uint32 (msTicks st2 - msTicks st1) /\
      trace st2 = evs ++ trace st1 /\
      3 <= tick_count evs /\
      st' = disable_SysTick st2 /\
      SysTick_running st' = false.
Proof.
  destruct (delay_SysTick_waits_for_ticks build_SysTick board_keep
              init_state 3 (one_tick_per_poll 3) eq_refl)
    as (Hsafe & Hlive).
  - split; reflexivity.
  - destruct Hlive as (st' & Hrun & Hticks & Hoff).
    + right. reflexivity.
    + reflexivity.
    + exists st'. split; [exact Hrun |]. split; [exact Hticks |].
      split; [exact Hoff |]. apply Hsafe. exact Hrun.
Defined.

(** ** A sleep ended early *)

(** [sleep(5)] from reset on the ULFRCO, ended by an external signal at 1234
    ticks: the wake flag stays false, the clock gate is closed, the enable
    bit of the counter stays set until [RTC_getPassedSleeptime] reads one
    second and stops the counter. *)
Lemma sleep_woken_early :
  exists st',
    sleep build_ULFRCO board_keep 5 woken_early init_state = Some st' /\
    sleeping st' = false /\
    RTC_sleep_wakeup st' = false /\
    clk_RTC st' = false /\
    RTC_EN st' = true /\
    counter_counts st' = false /\
    fst (RTC_getPassedSleeptime build_ULFRCO board_keep st') = 1 /\
    RTC_EN (snd (RTC_getPassedSleeptime build_ULFRCO board_keep st')) = false.
Proof.
  eexists. split; [vm_compute; reflexivity |]. repeat split.
Qed.

(** ** The first call on SysTick *)

(** C3. A call with the duration zero can start a counter: [delay(0)] as
    the first call on SysTick asks for the core clock, initialises and
    starts SysTick, and returns with the tick interrupt and the counter
    enabled. The tick interrupt goes on counting [msTicks] between the
    calls, a second [delay(0)] changes nothing, and SysTick is off again
    only after a [delay] of a positive duration. *)
Theorem first_zero_delay_leaves_SysTick_running :
  exists st',
    delay build_SysTick board_keep 0 to_completion init_state = Some st' /\
    SysTick_initialized st' = true /\
    SysTick_running init_state = false /\
    SysTick_running st' = true /\
    SysTick_CTRL st' = 7 /\
    trace st'
    = [Ev_dbprint Info "SysTick initialized"; Ev_SysTick_Config 14000;
       Ev_CMU_ClockFreqGet cmuClock_CORE] /\
    msTicks (SysTick_irq st') = 1 /\
    delay build_SysTick board_keep 0 to_completion st' = Some st' /\
    exists st'',
      delay build_SysTick board_keep 1 (one_tick_per_poll 1) st' = Some st'' /\
      SysTick_running st'' = false.
Proof.
  eexists. split; [vm_compute; reflexivity |].
  do 7 (split; [reflexivity |]).
  eexists. split; [vm_compute; reflexivity | reflexivity].
Qed.

(** * Further properties of delay.c *)

Lemma count_events_app p evs evs' :
  count_events p (evs ++ evs') = (count_events p evs + count_events p evs')%nat.
Proof.
  unfold count_events. rewrite filter_app, List.length_app. reflexivity.
Qed.

Lemma count_events_none p q evs :
  (forall e, q e = true -> p e = false) ->
  forallb q evs = true -> count_events p evs = 0%nat.
Proof.
  intros Hpq. induction evs as [| e evs IH]; [reflexivity |].
  cbn [forallb]. intros H. apply andb_true_iff in H. destruct H as [He Hr].
  unfold count_events in *. cbn [filter]. rewrite (Hpq e He). apply IH, Hr.
Qed.

Lemma grown_by_weaken (P Q : event -> bool) old new :
  (forall e, P e = true -> Q e = true) ->
  grown_by P old new -> grown_by Q old new.
Proof.
  intros HPQ H. induction H as [| e new He _ IH]; constructor; auto.
Qed.

Section Further.

Variable cfg : config.
Variable hw : board.

Ltac grown := repeat first [apply grown_none | apply grown_cons; [reflexivity |]].

(** ** The library calls of each function, in order *)

Lemma initRTC_calls st :
  trace (initRTC cfg hw st) = initRTC_events cfg ++ trace st.
Proof.
  unfold initRTC, initRTC_events, dbinfo, dbprint.
  destruct (ULFRCO cfg); destruct (DEBUG_DBPRINT cfg); reflexivity.
Qed.

Lemma ensure_RTC_calls duration st :
  trace (ensure_RTC cfg hw duration st)
  = ensure_RTC_events cfg duration st ++ trace st.
Proof.
  unfold ensure_RTC, ensure_RTC_events.
  destruct (RTC_initialized st); simpl negb; cbv iota.
  - destruct (0 <? duration); reflexivity.
  - apply initRTC_calls.
Qed.

Lemma announce_sleep_calls sSleep st :
  trace (announce_sleep cfg sSleep st) = announce_events cfg sSleep ++ trace st.
Proof.
  unfold announce_sleep, announce_events.
  destruct (DEBUG_DBPRINT cfg && ANNOUNCE_SLEEPING cfg); reflexivity.
Qed.

Lemma too_long_calls st :
  trace (too_long cfg st) = too_long_events cfg ++ trace st.
Proof.
  unfold too_long, too_long_events, dbcrit, dbprint.
  destruct (DEBUG_DBPRINT cfg); reflexivity.
Qed.

Lemma RTC_irq_calls st :
  trace (RTC_irq hw st)
  = (if compare_irq_armed st then wake_events CompareMatch else [])
    ++ trace st.
Proof.
  unfold RTC_irq, RTC_IRQHandler. destruct (compare_irq_armed st).
  - cbn. destruct (sleeping st); reflexivity.
  - reflexivity.
Qed.

Lemma EMU_Enter_calls w st st' :
  EMU_Enter cfg hw w st = Some st' ->
  trace st' = wake_events w ++ enter_event cfg :: trace st.
Proof.
  unfold EMU_Enter, EMU_EnterEM3, EMU_EnterEM2, low_power_wait, enter_event.
  destruct (ULFRCO cfg); destruct w as [| cnt];
    rewrite ?compare_irq_armed_log;
    try (destruct (compare_irq_armed st) eqn:Harmed; [| discriminate]);
    intros H; injection H as <-.
  - rewrite RTC_irq_calls, compare_irq_armed_log, Harmed. reflexivity.
  - cbn [clk_RTC RTC_EN log set_trace]. destruct (clk_RTC st && RTC_EN st);
      reflexivity.
  - rewrite RTC_irq_calls, compare_irq_armed_log, Harmed. reflexivity.
  - cbn [clk_RTC RTC_EN log set_trace]. destruct (clk_RTC st && RTC_EN st);
      reflexivity.
Qed.

Lemma started_wait_calls v st :
  trace (RTC_Enable hw true (RTC_CompareSet 0 v st))
  = Ev_RTC_Enable true :: Ev_RTC_CompareSet v :: trace st /\
  trace (RTC_Enable hw true (set_sleeping true (RTC_CompareSet 0 v st)))
  = Ev_RTC_Enable true :: Ev_RTC_CompareSet v :: trace st.
Proof. split; reflexivity. Qed.

Lemma closed_gate_calls st :
  trace (CMU_ClockEnable cmuClock_RTC false st)
  = Ev_CMU_ClockEnable cmuClock_RTC false :: trace st /\
  trace (CMU_ClockEnable cmuClock_RTC false (set_sleeping false st))
  = Ev_CMU_ClockEnable cmuClock_RTC false :: trace st.
Proof. split; reflexivity. Qed.

Lemma sleep_calls sSleep env st st' :
  sleep cfg hw sSleep env st = Some st' ->
  trace st' = sleep_events cfg sSleep env st ++ trace st.
Proof.
  unfold sleep_events.
  destruct (Z_lt_le_dec 0 sSleep) as [Hd | Hd].
  - assert (Hpos : (0 <? sSleep) = true) by (apply Z.ltb_lt; exact Hd).
    rewrite Hpos. destruct (sleep_fits cfg sSleep) eqn:Hfit.
    + rewrite (sleep_accepted cfg hw sSleep env st Hd Hfit). unfold bind.
      destruct (EMU_Enter cfg hw (wake_cause env)
                  (sleep_before_wait cfg hw sSleep st)) as [st1 |] eqn:Hwait;
        [| discriminate].
      intros H. injection H as <-.
      apply EMU_Enter_calls in Hwait.
      destruct (closed_gate_calls st1) as (_ & ->). rewrite Hwait.
      unfold sleep_before_wait.
      destruct (started_wait_calls (sleep_ticks cfg sSleep)
                  (announce_sleep cfg sSleep (ensure_RTC cfg hw sSleep st)))
        as (_ & ->).
      rewrite announce_sleep_calls, ensure_RTC_calls.
      unfold wait_events. cbn [app]. rewrite <- !app_assoc. reflexivity.
    + rewrite (sleep_rejected cfg hw sSleep env st Hd Hfit).
      intros H. injection H as <-.
      rewrite too_long_calls, announce_sleep_calls, ensure_RTC_calls.
      rewrite <- !app_assoc. reflexivity.
  - assert (Hpos : (0 <? sSleep) = false) by (apply Z.ltb_ge; exact Hd).
    rewrite Hpos, (sleep_zero cfg hw sSleep env st Hd).
    intros H. injection H as <-. apply ensure_RTC_calls.
Qed.

Lemma delay_RTC_calls msDelay env st st' :
  delay_RTC cfg hw msDelay env st = Some st' ->
  trace st' = delay_RTC_events cfg msDelay env st ++ trace st.
Proof.
  unfold delay_RTC_events.
  destruct (Z_lt_le_dec 0 msDelay) as [Hd | Hd].
  - assert (Hpos : (0 <? msDelay) = true) by (apply Z.ltb_lt; exact Hd).
    rewrite Hpos. destruct (delay_fits cfg msDelay) eqn:Hfit.
    + rewrite (delay_RTC_accepted cfg hw msDelay env st Hd Hfit). unfold bind.
      destruct (EMU_Enter cfg hw (wake_cause env)
                  (delay_before_wait cfg hw msDelay st)) as [st1 |] eqn:Hwait;
        [| discriminate].
      intros H. injection H as <-.
      apply EMU_Enter_calls in Hwait.
      destruct (closed_gate_calls st1) as (-> & _). rewrite Hwait.
      unfold delay_before_wait.
      destruct (started_wait_calls (Double.to_uint32 (delay_ticks cfg msDelay))
                  (ensure_RTC cfg hw msDelay st)) as (-> & _).
      rewrite ensure_RTC_calls.
      unfold wait_events. cbn [app]. rewrite <- !app_assoc. reflexivity.
    + rewrite (delay_RTC_rejected cfg hw msDelay env st Hd Hfit).
      intros H. injection H as <-.
      rewrite too_long_calls, ensure_RTC_calls, app_assoc. reflexivity.
  - assert (Hpos : (0 <? msDelay) = false) by (apply Z.ltb_ge; exact Hd).
    rewrite Hpos, (delay_RTC_zero cfg hw msDelay env st Hd).
    intros H. injection H as <-. apply ensure_RTC_calls.
Qed.

(** On SysTick, [delay] logs the query of the core clock frequency, events
    of SysTick and the diagnostics only. *)
Lemma ensure_SysTick_calls msDelay st st1 :
  ensure_SysTick cfg hw msDelay st = Some st1 ->
  grown_by systick_event (trace st) (trace st1).
Proof.
  unfold ensure_SysTick, CMU_ClockFreqGet, SysTick_Config, dbinfo, dbprint,
    write_SysTick_CTRL.
  destruct (SysTick_initialized st); simpl negb; cbv iota.
  - destruct (0 <? msDelay); intros H; injection H as <-; simpl; grown.
  - destruct (SysTick_LOAD_RELOAD_Msk <? uint32 (uint32 (core_clock hw) / 1000 - 1));
      simpl Z.eqb; cbv iota; [discriminate |].
    destruct (DEBUG_DBPRINT cfg); intros H; injection H as <-; simpl; grown.
Qed.

Lemma delay_SysTick_calls msDelay env st st' :
  delay_SysTick cfg hw msDelay env st = Some st' ->
  grown_by systick_event (trace st) (trace st').
Proof.
  unfold delay_SysTick, bind.
  destruct (ensure_SysTick cfg hw msDelay st) as [st1 |] eqn:E1; [| discriminate].
  pose proof (ensure_SysTick_calls _ _ _ E1) as T1.
  destruct (0 <? msDelay).
  - destruct (busy_wait (tick_bursts env) (msTicks st1) msDelay st1)
      as [st2 |] eqn:E2; [| discriminate].
    intros H. injection H as <-.
    destruct (busy_wait_elapsed _ _ _ _ _ E2) as (_ & evs & Ht & Hall & _).
    destruct (disable_SysTick_frame st2) as (_ & _ & _ & _ & _ & _ & ->).
    constructor; [reflexivity |]. rewrite Ht.
    eapply grown_by_trans; [exact T1 |].
    apply grown_by_app.
    clear - Hall. induction evs as [| e evs IH]; [reflexivity |].
    cbn [forallb] in *. apply andb_true_iff in Hall. destruct Hall as [He Hr].
    rewrite (IH Hr). destruct e; try discriminate. reflexivity.
  - intros H. injection H as <-. exact T1.
Qed.

(** ** The two timers do not touch each other *)

Lemma tick_side_eq st st' :
  tick_side st' = tick_side st ->
  msTicks st' = msTicks st /\
  SysTick_initialized st' = SysTick_initialized st /\
  SysTick_CTRL st' = SysTick_CTRL st.
Proof. unfold tick_side. intros H. injection H as -> -> ->. repeat split. Qed.

Lemma ensure_RTC_tick_side duration st :
  tick_side (ensure_RTC cfg hw duration st) = tick_side st.
Proof.
  destruct (ensure_RTC_vars cfg hw duration st) as (_ & _ & H3 & H4 & H5 & _).
  unfold tick_side. rewrite H3, H4, H5. reflexivity.
Qed.

Lemma announce_sleep_tick_side sSleep st :
  tick_side (announce_sleep cfg sSleep st) = tick_side st.
Proof.
  unfold announce_sleep.
  destruct (DEBUG_DBPRINT cfg && ANNOUNCE_SLEEPING cfg); reflexivity.
Qed.

Lemma too_long_tick_side st : tick_side (too_long cfg st) = tick_side st.
Proof.
  unfold too_long, dbcrit, dbprint. destruct (DEBUG_DBPRINT cfg); reflexivity.
Qed.

Lemma RTC_irq_tick_side st : tick_side (RTC_irq hw st) = tick_side st.
Proof.
  unfold RTC_irq, RTC_IRQHandler. destruct (compare_irq_armed st); [| reflexivity].
  cbn. destruct (sleeping st); reflexivity.
Qed.

Lemma EMU_Enter_tick_side w st st' :
  EMU_Enter cfg hw w st = Some st' -> tick_side st' = tick_side st.
Proof.
  unfold EMU_Enter, EMU_EnterEM3, EMU_EnterEM2, low_power_wait.
  destruct (ULFRCO cfg); destruct w as [| cnt];
    rewrite ?compare_irq_armed_log;
    try (destruct (compare_irq_armed st); [| discriminate]);
    intros H; injection H as <-;
    rewrite ?RTC_irq_tick_side; try reflexivity;
    cbn [clk_RTC RTC_EN log set_trace];
    destruct (clk_RTC st && RTC_EN st); reflexivity.
Qed.

Lemma sleep_tick_side sSleep env st st' :
  sleep cfg hw sSleep env st = Some st' -> tick_side st' = tick_side st.
Proof.
  pose proof (ensure_RTC_tick_side sSleep st) as E.
  pose proof (announce_sleep_tick_side sSleep (ensure_RTC cfg hw sSleep st)) as N.
  destruct (Z_lt_le_dec 0 sSleep) as [Hd | Hd].
  - destruct (sleep_fits cfg sSleep) eqn:Hfit.
    + rewrite (sleep_accepted cfg hw sSleep env st Hd Hfit). unfold bind.
      destruct (EMU_Enter cfg hw (wake_cause env)
                  (sleep_before_wait cfg hw sSleep st)) as [st1 |] eqn:Hwait;
        [| discriminate].
      intros H. injection H as <-.
      apply EMU_Enter_tick_side in Hwait.
      change (tick_side (CMU_ClockEnable cmuClock_RTC false
                           (set_sleeping false st1)))
        with (tick_side st1).
      rewrite Hwait. unfold sleep_before_wait.
      change (tick_side (RTC_Enable hw true (set_sleeping true
                (RTC_CompareSet 0 (sleep_ticks cfg sSleep)
                   (announce_sleep cfg sSleep (ensure_RTC cfg hw sSleep st))))))
        with (tick_side (announce_sleep cfg sSleep (ensure_RTC cfg hw sSleep st))).
      congruence.
    + rewrite (sleep_rejected cfg hw sSleep env st Hd Hfit).
      intros H. injection H as <-. rewrite too_long_tick_side. congruence.
  - rewrite (sleep_zero cfg hw sSleep env st Hd).
    intros H. injection H as <-. exact E.
Qed.

Lemma delay_RTC_tick_side msDelay env st st' :
  delay_RTC cfg hw msDelay env st = Some st' -> tick_side st' = tick_side st.
Proof.
  pose proof (ensure_RTC_tick_side msDelay st) as E.
  destruct (Z_lt_le_dec 0 msDelay) as [Hd | Hd].
  - destruct (delay_fits cfg msDelay) eqn:Hfit.
    + rewrite (delay_RTC_accepted cfg hw msDelay env st Hd Hfit). unfold bind.
      destruct (EMU_Enter cfg hw (wake_cause env)
                  (delay_before_wait cfg hw msDelay st)) as [st1 |] eqn:Hwait;
        [| discriminate].
      intros H. injection H as <-.
      apply EMU_Enter_tick_side in Hwait.
      change (tick_side (CMU_ClockEnable cmuClock_RTC false st1))
        with (tick_side st1).
      rewrite Hwait. unfold delay_before_wait.
      change (tick_side (RTC_Enable hw true
                (RTC_CompareSet 0 (Double.to_uint32 (delay_ticks cfg msDelay))
                   (ensure_RTC cfg hw msDelay st))))
        with (tick_side (ensure_RTC cfg hw msDelay st)).
      exact E.
    + rewrite (delay_RTC_rejected cfg hw msDelay env st Hd Hfit).
      intros H. injection H as <-. rewrite too_long_tick_side. exact E.
  - rewrite (delay_RTC_zero cfg hw msDelay env st Hd).
    intros H. injection H as <-. exact E.
Qed.

(** ** Accounts of the trace *)

Lemma is_tick_not_init e : is_tick e = true -> is_RTC_Init e = false.
Proof. destruct e; simpl; congruence. Qed.

Lemma is_tick_not_config e : is_tick e = true -> is_SysTick_Config e = false.
Proof. destruct e; simpl; congruence. Qed.

Lemma is_tick_not_irq e : is_tick e = true -> is_IRQ_RTC e = false.
Proof. destruct e; simpl; congruence. Qed.

Lemma tick_count_app_cons e evs old :
  is_tick e = false ->
  tick_count (e :: evs ++ old) = tick_count (evs ++ old).
Proof. destruct e; simpl; congruence. Qed.

Lemma ticks_accounted_same st st' evs :
  msTicks st' = msTicks st ->
  trace st' = evs ++ trace st ->
  tick_count evs = 0 ->
  ticks_accounted st -> ticks_accounted st'.
Proof.
  unfold ticks_accounted. intros Hm Ht Hc H.
  rewrite Hm, Ht, tick_count_app, Hc, H. reflexivity.
Qed.

Lemma SysTick_irq_summary st :
  exists evs,
    trace (SysTick_irq st) = evs ++ trace st /\
    forallb is_tick evs = true /\
    (ticks_accounted st -> ticks_accounted (SysTick_irq st)).
Proof.
  unfold SysTick_irq. destruct (SysTick_running st).
  - exists [Ev_IRQ_SysTick]. repeat split.
    unfold ticks_accounted.
    cbn [SysTick_Handler log set_msTicks set_trace msTicks trace tick_count app].
    intros ->. unfold uint32. rewrite Zplus_mod_idemp_l. f_equal. ring.
  - exists []. repeat split. auto.
Qed.

Lemma burst_summary k st :
  exists evs,
    trace (Nat.iter k SysTick_irq st) = evs ++ trace st /\
    forallb is_tick evs = true /\
    (ticks_accounted st -> ticks_accounted (Nat.iter k SysTick_irq st)).
Proof.
  induction k as [| k (evs & Ht & Hall & Hacc)].
  - exists []. repeat split. auto.
  - rewrite Nat.iter_succ.
    destruct (SysTick_irq_summary (Nat.iter k SysTick_irq st))
      as (evs' & Ht' & Hall' & Hacc').
    exists (evs' ++ evs). repeat split.
    + rewrite Ht', Ht, app_assoc. reflexivity.
    + rewrite forallb_app, Hall', Hall. reflexivity.
    + auto.
Qed.

Lemma busy_wait_summary bursts curTicks msDelay st st' :
  busy_wait bursts curTicks msDelay st = Some st' ->
  exists evs,
    trace st' = evs ++ trace st /\
    forallb is_tick evs = true /\
    (ticks_accounted st -> ticks_accounted st').
Proof.
  revert st. induction bursts as [| k rest IH]; intros st; cbn [busy_wait];
    destruct (uint32 (msTicks st - curTicks) <? msDelay);
    try discriminate;
    try (intros H; injection H as <-; exists []; repeat split; auto).
  intros H. apply IH in H. destruct H as (evs & Ht & Hall & Hacc).
  destruct (burst_summary k st) as (evs' & Ht' & Hall' & Hacc').
  exists (evs ++ evs'). repeat split.
  - rewrite Ht, Ht', app_assoc. reflexivity.
  - rewrite forallb_app, Hall, Hall'. reflexivity.
  - auto.
Qed.

(** The first statement of [delay] on SysTick calls [SysTick_Config] when
    the flag is false and never otherwise, and takes no tick. *)
Lemma ensure_SysTick_summary msDelay st st1 :
  ensure_SysTick cfg hw msDelay st = Some st1 ->
  exists evs,
    trace st1 = evs ++ trace st /\
    count_events is_SysTick_Config evs
      = (if SysTick_initialized st then 0 else 1)%nat /\
    count_events is_RTC_Init evs = 0%nat /\
    count_events is_IRQ_RTC evs = 0%nat /\
    tick_count evs = 0.
Proof.
  unfold ensure_SysTick, CMU_ClockFreqGet, SysTick_Config, dbinfo, dbprint,
    write_SysTick_CTRL.
  destruct (SysTick_initialized st); simpl negb; cbv iota.
  - destruct (0 <? msDelay); intros H; injection H as <-.
    + eexists [_]. repeat split.
    + exists []. repeat split.
  - destruct (SysTick_LOAD_RELOAD_Msk <? uint32 (uint32 (core_clock hw) / 1000 - 1));
      simpl Z.eqb; cbv iota; [discriminate |].
    destruct (DEBUG_DBPRINT cfg); intros H; injection H as <-.
    + eexists [_; _; _]. repeat split.
    + eexists [_; _]. repeat split.
Qed.

Lemma delay_SysTick_summary msDelay env st st' :
  delay_SysTick cfg hw msDelay env st = Some st' ->
  exists evs,
    trace st' = evs ++ trace st /\
    count_events is_SysTick_Config evs
      = (if SysTick_initialized st then 0 else 1)%nat /\
    count_events is_RTC_Init evs = 0%nat /\
    count_events is_IRQ_RTC evs = 0%nat /\
    (ticks_accounted st -> ticks_accounted st').
Proof.
  unfold delay_SysTick, bind.
  destruct (ensure_SysTick cfg hw msDelay st) as [st1 |] eqn:E1; [| discriminate].
  destruct (ensure_SysTick_summary _ _ _ E1) as (evs1 & T1 & C1 & I1 & Q1 & K1).
  destruct (ensure_SysTick_frame _ _ _ _ _ E1) as (_ & _ & M1 & _).
  assert (A1 : ticks_accounted st -> ticks_accounted st1)
    by (apply (ticks_accounted_same st st1 evs1); assumption).
  destruct (0 <? msDelay).
  - destruct (busy_wait (tick_bursts env) (msTicks st1) msDelay st1)
      as [st2 |] eqn:E2; [| discriminate].
    intros H. injection H as <-.
    destruct (busy_wait_summary _ _ _ _ _ E2) as (evs2 & T2 & Hall & A2).
    destruct (disable_SysTick_frame st2) as (_ & _ & _ & _ & D5 & _ & D7).
    exists (Ev_SysTick_CTRL (SysTick_CTRL (disable_SysTick st2)) :: evs2 ++ evs1).
    split; [rewrite D7, T2, T1, app_assoc; reflexivity |].
    change (?e :: evs2 ++ evs1) with ([e] ++ evs2 ++ evs1).
    rewrite !count_events_app, C1, I1, Q1.
    rewrite (count_events_none is_SysTick_Config is_tick evs2 is_tick_not_config Hall).
    rewrite (count_events_none is_RTC_Init is_tick evs2 is_tick_not_init Hall).
    rewrite (count_events_none is_IRQ_RTC is_tick evs2 is_tick_not_irq Hall).
    repeat split.
    intros Hacc. unfold ticks_accounted. rewrite D5, D7.
    cbn [tick_count]. apply A2, A1, Hacc.
  - intros H. injection H as <-. exists evs1. repeat split; assumption.
Qed.

(** Case analysis on everything the list of library calls of a [delay] or
    [sleep] depends on. *)
Ltac events_cases :=
  unfold sleep_events, delay_RTC_events, wait_events, too_long_events,
    announce_events, ensure_RTC_events, initRTC_events, wake_events,
    enter_event;
  repeat match goal with
         | |- context [if ?b then _ else _] => destruct b
         | |- context [match ?w with CompareMatch => _ | ExternalWake _ => _ end] =>
             destruct w
         end;
  repeat split.

Lemma sleep_events_account sSleep env st :
  count_events is_RTC_Init (sleep_events cfg sSleep env st)
    = (if RTC_initialized st then 0 else 1)%nat /\
  count_events is_SysTick_Config (sleep_events cfg sSleep env st) = 0%nat /\
  tick_count (sleep_events cfg sSleep env st) = 0 /\
  forallb rtc_event (sleep_events cfg sSleep env st) = true.
Proof. events_cases. Qed.

Lemma delay_RTC_events_account msDelay env st :
  count_events is_RTC_Init (delay_RTC_events cfg msDelay env st)
    = (if RTC_initialized st then 0 else 1)%nat /\
  count_events is_SysTick_Config (delay_RTC_events cfg msDelay env st) = 0%nat /\
  tick_count (delay_RTC_events cfg msDelay env st) = 0 /\
  forallb rtc_event (delay_RTC_events cfg msDelay env st) = true.
Proof. events_cases. Qed.

(** The compare interrupt is in the calls of a [sleep] that sets the wake
    flag. *)
Lemma sleep_events_irq sSleep env st :
  (0 <? sSleep) && sleep_fits cfg sSleep = true ->
  wake_cause env = CompareMatch ->
  In Ev_IRQ_RTC (sleep_events cfg sSleep env st).
Proof.
  intros Hacc Hw. apply andb_true_iff in Hacc. destruct Hacc as [Hpos Hfit].
  unfold sleep_events, wait_events. rewrite Hpos, Hfit, Hw.
  cbn. right. right. right. left. reflexivity.
Qed.

(** What one step of a run adds to the trace. *)
Lemma run_call_summary c st st' :
  idle st = true ->
  run_call cfg hw c st = Some st' ->
  exists evs,
    trace st' = evs ++ trace st /\
    (count_events is_RTC_Init evs + (if RTC_initialized st then 1 else 0)
     = if RTC_initialized st' then 1 else 0)%nat /\
    (count_events is_SysTick_Config evs
     + (if SysTick_initialized st then 1 else 0)
     = if SysTick_initialized st' then 1 else 0)%nat /\
    (ticks_accounted st -> ticks_accounted st') /\
    (RTC_sleep_wakeup st' = true ->
     RTC_sleep_wakeup st = true \/ In Ev_IRQ_RTC evs).
Proof.
  intros Hidle. pose proof Hidle as Hparts.
  apply idle_parts in Hparts. destruct Hparts as (Hs & Hready).
  destruct c as [msDelay env | sSleep env | | | | |]; cbn [run_call]; intros H.
  - pose proof (delay_vars cfg hw msDelay env st st' Hs H) as (_ & Hwake).
    unfold delay in H. destruct (SYSTICKDELAY cfg).
    + destruct (delay_SysTick_summary _ _ _ _ H) as (evs & T & C & I & _ & A).
      destruct (delay_SysTick_frame cfg hw _ _ _ _ H) as (R & F).
      apply rtc_side_eq in R. destruct R as (_ & _ & R3 & _).
      exists evs. rewrite I, C, R3, F.
      repeat split; auto.
      * destruct (SysTick_initialized st); reflexivity.
      * intros W. left. congruence.
    + destruct (delay_RTC_events_account msDelay env st) as (I & C & K & _).
      destruct (delay_RTC_ready cfg hw msDelay env st st' Hready H) as (F & _).
      pose proof (delay_RTC_tick_side _ _ _ _ H) as S.
      apply tick_side_eq in S. destruct S as (S1 & S2 & _).
      apply delay_RTC_calls in H.
      exists (delay_RTC_events cfg msDelay env st). rewrite I, C, F, S2.
      repeat split; auto.
      * destruct (RTC_initialized st); reflexivity.
      * apply (ticks_accounted_same st st' _ S1 H K).
      * intros W. left. congruence.
  - destruct (sleep_events_account sSleep env st) as (I & C & K & _).
    destruct (sleep_ready cfg hw sSleep env st st' Hready H) as (F & _).
    pose proof (sleep_tick_side _ _ _ _ H) as S.
    apply tick_side_eq in S. destruct S as (S1 & S2 & _).
    destruct (sleep_vars cfg hw sSleep env st st' H) as (_ & Hwake).
    apply sleep_calls in H.
    exists (sleep_events cfg sSleep env st). rewrite I, C, F, S2.
    repeat split; auto.
    + destruct (RTC_initialized st); reflexivity.
    + apply (ticks_accounted_same st st' _ S1 H K).
    + intros W. rewrite W in Hwake.
      destruct (wake_cause env) eqn:Hw; [| left; congruence].
      symmetry in Hwake. apply orb_true_iff in Hwake.
      destruct Hwake as [Hacc | Hold]; [right | left; exact Hold].
      apply sleep_events_irq; assumption.
  - injection H as <-. exists []. repeat split; auto.
  - injection H as <-. exists []. repeat split; auto.
    intros W. discriminate W.
  - injection H as <-. exists [Ev_RTC_Enable false; Ev_RTC_CounterGet].
    repeat split; auto.
  - injection H as <-.
    destruct (SysTick_irq_summary st) as (evs & T & Hall & A).
    destruct (SysTick_irq_frame st) as (R & _ & F).
    apply rtc_side_eq in R. destruct R as (R1 & _ & R3 & _).
    exists evs. rewrite R3, F.
    rewrite (count_events_none is_SysTick_Config is_tick evs is_tick_not_config Hall).
    rewrite (count_events_none is_RTC_Init is_tick evs is_tick_not_init Hall).
    repeat split; auto. intros W. left. congruence.
  - injection H as <-.
    destruct (RTC_irq_vars hw st) as (_ & W & _ & _ & R5 & _).
    pose proof (RTC_irq_tick_side st) as S.
    apply tick_side_eq in S. destruct S as (S1 & S2 & _).
    pose proof (RTC_irq_calls st) as T.
    exists (if compare_irq_armed st then wake_events CompareMatch else []).
    rewrite R5, S2. split; [exact T |].
    repeat split.
    + destruct (compare_irq_armed st); reflexivity.
    + destruct (compare_irq_armed st); reflexivity.
    + apply (ticks_accounted_same st (RTC_irq hw st) _ S1 T).
      destruct (compare_irq_armed st); reflexivity.
    + intros W'. left. rewrite W, Hs, andb_false_r in W'. exact W'.
Qed.

(** ** Properties of every run *)



(** X2. Each timer is initialised exactly once: in every state the program
    can be in, the trace holds one [RTC_Init] if [RTC_initialized] is true
    and none if it is false, and likewise one [SysTick_Config] per
    [SysTick_initialized]; and no step takes a flag back to false. *)
Theorem initialised_exactly_once :
  forall st,
    reachable cfg hw st ->
    count_events is_RTC_Init (trace st)
      = (if RTC_initialized st then 1 else 0)%nat /\
    count_events is_SysTick_Config (trace st)
      = (if SysTick_initialized st then 1 else 0)%nat /\
    (forall c st',
       run_call cfg hw c st = Some st' ->
       (RTC_initialized st = true -> RTC_initialized st' = true) /\
       (SysTick_initialized st = true -> SysTick_initialized st' = true)).
Proof.
  intros st Hreach.
  assert (Hcount :
            count_events is_RTC_Init (trace st)
              = (if RTC_initialized st then 1 else 0)%nat /\
            count_events is_SysTick_Config (trace st)
              = (if SysTick_initialized st then 1 else 0)%nat).
  { induction Hreach as [| c st st' Hreach (IH1 & IH2) Hstep].
    - split; reflexivity.
    - destruct (run_call_summary c st st' (reachable_idle cfg hw st Hreach) Hstep)
        as (evs & T & I & C & _).
      rewrite T, !count_events_app, IH1, IH2. split; assumption. }
  destruct Hcount as (H1 & H2). split; [exact H1 |]. split; [exact H2 |].
  intros c st' Hstep.
  destruct (run_call_summary c st st' (reachable_idle cfg hw st Hreach) Hstep)
    as (evs & _ & I & C & _).
  split; intros Hflag; rewrite Hflag in *.
  - destruct (RTC_initialized st'); [reflexivity | lia].
  - destruct (SysTick_initialized st'); [reflexivity | lia].
Qed.

(** X3. [msTicks] counts the tick interrupts: in every state the program
    can be in it is the number of tick interrupts taken since reset, modulo
    [2^32]. *)
Theorem msTicks_counts_tick_interrupts :
  forall st,
    reachable cfg hw st -> msTicks st = uint32 (tick_count (trace st)).
Proof.
  intros st Hreach. change (ticks_accounted st).
  induction Hreach as [| c st st' Hreach IH Hstep].
  - reflexivity.
  - destruct (run_call_summary c st st' (reachable_idle cfg hw st Hreach) Hstep)
      as (_ & _ & _ & _ & A & _).
    exact (A IH).
Qed.

(** X4. A wake flag that is true means the compare interrupt was taken: in
    every state the program can be in, [RTC_sleep_wakeup] is true only if
    the trace holds a compare interrupt. *)
Theorem wake_flag_means_compare_interrupt :
  forall st,
    reachable cfg hw st ->
    RTC_sleep_wakeup st = true -> In Ev_IRQ_RTC (trace st).
Proof.
  intros st Hreach.
  induction Hreach as [| c st st' Hreach IH Hstep].
  - discriminate.
  - destruct (run_call_summary c st st' (reachable_idle cfg hw st Hreach) Hstep)
      as (evs & T & _ & _ & _ & W).
    intros Hw. rewrite T. apply in_or_app.
    destruct (W Hw) as [Hold | Hnew]; [right; exact (IH Hold) | left; exact Hnew].
Qed.

Lemma run_call_counter_still c st st' :
  counter_counts st = false ->
  run_call cfg hw c st = Some st' -> counter_counts st' = false.
Proof.
  intros Hstill.
  destruct c as [msDelay env | sSleep env | | | | |]; cbn [run_call]; intros H.
  - unfold delay in H. destruct (SYSTICKDELAY cfg).
    + apply delay_SysTick_frame in H. destruct H as (H & _).
      apply rtc_side_eq in H. destruct H as (_ & _ & _ & H4 & H5 & _).
      unfold counter_counts in *. congruence.
    + destruct (Z_lt_le_dec 0 msDelay) as [Hd | Hd].
      * apply (wait_leaves_counter_still cfg hw msDelay env st st' Hd).
        left. exact H.
      * rewrite (delay_RTC_zero cfg hw msDelay env st Hd) in H.
        injection H as <-. unfold ensure_RTC.
        destruct (RTC_initialized st); simpl negb; cbv iota.
        -- destruct (0 <? msDelay) eqn:E; [apply Z.ltb_lt in E; lia | exact Hstill].
        -- unfold counter_counts.
           destruct (initRTC_regs cfg hw st) as (_ & -> & _).
           apply andb_false_r.
  - destruct (Z_lt_le_dec 0 sSleep) as [Hd | Hd].
    + apply (wait_leaves_counter_still cfg hw sSleep env st st' Hd).
      right. exact H.
    + rewrite (sleep_zero cfg hw sSleep env st Hd) in H.
      injection H as <-. unfold ensure_RTC.
      destruct (RTC_initialized st); simpl negb; cbv iota.
      * destruct (0 <? sSleep) eqn:E; [apply Z.ltb_lt in E; lia | exact Hstill].
      * unfold counter_counts.
        destruct (initRTC_regs cfg hw st) as (_ & -> & _).
        apply andb_false_r.
  - injection H as <-. exact Hstill.
  - injection H as <-. exact Hstill.
  - injection H as <-. unfold counter_counts. apply andb_false_r.
  - injection H as <-.
    destruct (SysTick_irq_frame st) as (H & _).
    apply rtc_side_eq in H. destruct H as (_ & _ & _ & H4 & H5 & _).
    unfold counter_counts in *. congruence.
  - injection H as <-. unfold RTC_irq, compare_irq_armed.
    unfold counter_counts in Hstill. rewrite Hstill. exact Hstill.
Qed.

(** X5. Between two calls the real-time counter never advances: in every
    state the program can be in, the counter is not both enabled and
    clocked, so the compare interrupt cannot be taken there and an
    interrupt step changes nothing. *)
Theorem counter_still_between_calls :
  forall st,
    reachable cfg hw st ->
    counter_counts st = false /\
    compare_irq_armed st = false /\
    RTC_irq hw st = st.
Proof.
  intros st Hreach.
  assert (Hstill : counter_counts st = false).
  { induction Hreach as [| c st st' _ IH Hstep].
    - reflexivity.
    - exact (run_call_counter_still c st st' IH Hstep). }
  assert (Harmed : compare_irq_armed st = false).
  { unfold compare_irq_armed. unfold counter_counts in Hstill.
    rewrite Hstill. reflexivity. }
  split; [exact Hstill |]. split; [exact Harmed |].
  unfold RTC_irq. rewrite Harmed. reflexivity.
Qed.

(** X6. Between two calls [sleeping] is false, and once the counter is
    initialised its compare interrupt stays enabled in the counter and in
    the interrupt controller. *)
Theorem interrupt_ready_between_calls :
  forall st,
    reachable cfg hw st ->
    sleeping st = false /\
    (RTC_initialized st = true ->
     RTC_IEN_COMP0 st = true /\ NVIC_RTC st = true).
Proof.
  intros st Hreach. apply reachable_idle, idle_parts in Hreach.
  destruct Hreach as (Hs & Hready). split; [exact Hs |].
  intros Hinit. unfold irq_ready in Hready. rewrite Hinit in Hready.
  apply andb_true_iff in Hready. exact Hready.
Qed.

(** ** The two builds of [delay] *)

(** X7. On the SysTick build [delay] leaves the real-time counter alone:
    the wake flag, [sleeping], [RTC_initialized], the RTC clock gate and
    every register of the counter are as before, and the call logs only
    the query of the core clock frequency, events of SysTick and the
    diagnostics: no clock gate, clock selection or oscillator call, no call
    of the real-time counter and no low-power entry. *)
Theorem delay_on_SysTick_leaves_RTC_alone :
  forall msDelay env st st',
    SYSTICKDELAY cfg = true ->
    delay cfg hw msDelay env st = Some st' ->
    rtc_side st' = rtc_side st /\
    grown_by systick_event (trace st) (trace st').
Proof.
  intros msDelay env st st' Hb. unfold delay. rewrite Hb. intros H. split.
  - apply (delay_SysTick_frame cfg hw msDelay env st st' H).
  - apply (delay_SysTick_calls msDelay env st st' H).
Qed.


(** ** The order of the library calls *)



(** ** A wait that is carried out *)

Lemma EMU_Enter_completed_regs st st' :
  compare_irq_armed st = true ->
  EMU_Enter cfg hw CompareMatch st = Some st' ->
  RTC_EN st' = false /\ RTC_IF_COMP0 st' = false.
Proof.
  intros Harmed.
  unfold EMU_Enter, EMU_EnterEM3, EMU_EnterEM2, low_power_wait.
  destruct (ULFRCO cfg); rewrite compare_irq_armed_log, Harmed;
    intros H; injection H as <-;
    apply RTC_irq_stops; rewrite compare_irq_armed_log; exact Harmed.
Qed.


(** X10. A [sleep] of a positive duration whose tick count fits the compare
    register, ended by the compare match, returns from every state the
    program can be in with the compare register at duration times
    frequency, the wake flag set, [sleeping] false, the counter stopped, its
    interrupt flag cleared and the RTC clock gate closed. *)
Theorem sleep_carried_out :
  forall sSleep env st,
    reachable cfg hw st ->
    0 < sSleep ->
    (if ULFRCO cfg then ULFRCOFREQ else LFXOFREQ) * sSleep <= RTC_COMP_MAX ->
    wake_cause env = CompareMatch ->
    exists st',
      sleep cfg hw sSleep env st = Some st' /\
      RTC_COMP0 st' = (if ULFRCO cfg then ULFRCOFREQ else LFXOFREQ) * sSleep /\
      RTC_sleep_wakeup st' = true /\
      sleeping st' = false /\
      RTC_EN st' = false /\
      RTC_IF_COMP0 st' = false /\
      clk_RTC st' = false.
Proof.
  intros sSleep env st Hreach Hd Hmax Hw.
  pose proof (reachable_irq_ready cfg hw st Hreach) as Hready.
  assert (Hlt : (if ULFRCO cfg then ULFRCOFREQ else LFXOFREQ) * sSleep < 2 ^ 32)
    by (unfold RTC_COMP_MAX in Hmax; lia).
  destruct (sleep_fits_below_wrap cfg sSleep (Z.lt_le_incl _ _ Hd) Hlt)
    as (Hticks & Hfit).
  assert (Hfit' : sleep_fits cfg sSleep = true)
    by (rewrite Hfit; apply Z.leb_le; exact Hmax).
  destruct (sleep_returns cfg hw sSleep env st Hready) as (st' & Hrun).
  exists st'. split; [exact Hrun |].
  destruct (sleep_vars cfg hw sSleep env st st' Hrun) as (Hs & Hwake).
  pose proof (sleep_clock_off cfg hw sSleep env st st' Hd Hrun) as Hclk.
  apply Z.ltb_lt in Hd. rewrite Hd, Hfit' in Hs, Hwake. rewrite Hw in Hwake.
  apply Z.ltb_lt in Hd.
  rewrite (sleep_accepted cfg hw sSleep env st Hd Hfit'), Hw in Hrun.
  unfold bind in Hrun.
  destruct (EMU_Enter cfg hw CompareMatch (sleep_before_wait cfg hw sSleep st))
    as [st1 |] eqn:Hwait; [| discriminate].
  injection Hrun as <-.
  destruct (sleep_before_wait_armed cfg hw sSleep st Hready Hd) as (Harmed & _).
  destruct (sleep_before_wait_vars cfg hw sSleep st) as (_ & _ & Hcomp).
  destruct (EMU_Enter_completed_regs _ _ Harmed Hwait) as (Hen & Hif).
  destruct (EMU_Enter_vars cfg hw _ _ _ Hwait) as (_ & _ & Hc & _).
  repeat split; try assumption.
  change (RTC_COMP0 st1 = (if ULFRCO cfg then ULFRCOFREQ else LFXOFREQ) * sSleep).
  congruence.
Qed.

(** X11. A [delay] on the real-time counter of a positive duration that
    passes the range check, ended by the compare match, returns from every
    state the program can be in with the compare register at the product
    cut to an integer, the wake flag as before, [sleeping] false, the
    counter stopped, its interrupt flag cleared and the RTC clock gate
    closed. *)
Theorem delay_carried_out :
  forall msDelay env st,
    reachable cfg hw st ->
    SYSTICKDELAY cfg = false ->
    0 < msDelay -> delay_fits cfg msDelay = true ->
    wake_cause env = CompareMatch ->
    exists st',
      delay cfg hw msDelay env st = Some st' /\
      RTC_COMP0 st' = Double.to_uint32 (delay_ticks cfg msDelay) /\
      RTC_sleep_wakeup st' = RTC_sleep_wakeup st /\
      sleeping st' = false /\
      RTC_EN st' = false /\
      RTC_IF_COMP0 st' = false /\
      clk_RTC st' = false.
Proof.
  intros msDelay env st Hreach Hb Hd Hfit Hw.
  pose proof (reachable_irq_ready cfg hw st Hreach) as Hready.
  pose proof (reachable_not_sleeping cfg hw st Hreach) as Hs.
  unfold delay. rewrite Hb.
  destruct (delay_RTC_returns cfg hw msDelay env st Hready) as (st' & Hrun).
  exists st'. split; [exact Hrun |].
  assert (Hvars : sleeping st' = false /\
                  RTC_sleep_wakeup st' = RTC_sleep_wakeup st).
  { apply (delay_vars cfg hw msDelay env st st' Hs).
    unfold delay. rewrite Hb. exact Hrun. }
  destruct Hvars as (Hs' & Hwake).
  pose proof (delay_RTC_clock_off cfg hw msDelay env st st' Hd Hrun) as Hclk.
  rewrite (delay_RTC_accepted cfg hw msDelay env st Hd Hfit), Hw in Hrun.
  unfold bind in Hrun.
  destruct (EMU_Enter cfg hw CompareMatch (delay_before_wait cfg hw msDelay st))
    as [st1 |] eqn:Hwait; [| discriminate].
  injection Hrun as <-.
  destruct (delay_before_wait_armed cfg hw msDelay st Hready Hd) as (Harmed & _).
  destruct (delay_before_wait_vars cfg hw msDelay st) as (_ & _ & Hcomp).
  destruct (EMU_Enter_completed_regs _ _ Harmed Hwait) as (Hen & Hif).
  destruct (EMU_Enter_vars cfg hw _ _ _ Hwait) as (_ & _ & Hc & _).
  repeat split; try assumption.
Qed.


(** ** The longest sleep *)

(** X13. For a duration whose product with the frequency stays below
    [2^32], [sleep] passes its range check exactly up to 16777 s on the
    ULFRCO and up to 511 s on the LFXO. *)
Theorem sleep_accepted_up_to :
  forall sSleep,
    0 <= sSleep ->
    (if ULFRCO cfg then ULFRCOFREQ else LFXOFREQ) * sSleep < 2 ^ 32 ->
    sleep_fits cfg sSleep = (sSleep <=? (if ULFRCO cfg then 16777 else 511)).
Proof.
  intros sSleep Hn Hlt.
  destruct (sleep_fits_below_wrap cfg sSleep Hn Hlt) as (_ & ->).
  unfold RTC_COMP_MAX, ULFRCOFREQ, LFXOFREQ.
  destruct (ULFRCO cfg).
  - destruct (Z.leb_spec (1000 * sSleep) 16777215);
      destruct (Z.leb_spec sSleep 16777); try reflexivity; lia.
  - destruct (Z.leb_spec (32768 * sSleep) 16777215);
      destruct (Z.leb_spec sSleep 511); try reflexivity; lia.
Qed.

(** ** A SysTick that cannot be configured *)

Lemma SysTick_reload_fits_iff :
  0 <= core_clock hw < 2 ^ 32 ->
  SysTick_reload_fits hw = (1000 <=? core_clock hw).
Proof.
  intros Hc. unfold SysTick_reload_fits, SysTick_LOAD_RELOAD_Msk.
  rewrite (uint32_small (core_clock hw) Hc).
  destruct (Z.leb_spec 1000 (core_clock hw)) as [Hge | Hlt].
  - assert (Hq1 : 1 <= core_clock hw / 1000)
      by (apply Z.div_le_lower_bound; lia).
    assert (Hq2 : core_clock hw / 1000 < 4294968)
      by (apply Z.div_lt_upper_bound; lia).
    rewrite uint32_small by lia. apply Z.leb_le. lia.
  - rewrite Z.div_small by lia. reflexivity.
Qed.

(** X14. The first [delay] on the SysTick build never returns when
    [SysTick_Config] fails, whatever the duration: with a core clock below
    1 kHz the reload value does not fit and the program stays in
    [while (1)]; from 1 kHz on the first [delay(0)] returns. *)
Theorem first_delay_hangs_on_slow_core :
  forall st,
    SYSTICKDELAY cfg = true ->
    SysTick_initialized st = false ->
    0 <= core_clock hw < 2 ^ 32 ->
    (core_clock hw < 1000 ->
     forall msDelay env, delay cfg hw msDelay env st = None) /\
    (1000 <= core_clock hw ->
     forall env, exists st', delay cfg hw 0 env st = Some st').
Proof.
  intros st Hb Hinit Hc. pose proof (SysTick_reload_fits_iff Hc) as Hfit.
  unfold delay. rewrite Hb. split.
  - intros Hslow msDelay env.
    assert (Hno : SysTick_reload_fits hw = false)
      by (rewrite Hfit; apply Z.leb_gt; exact Hslow).
    unfold delay_SysTick.
    rewrite (ensure_SysTick_fails cfg hw msDelay st Hinit Hno). reflexivity.
  - intros Hfast env.
    assert (Hyes : SysTick_reload_fits hw = true)
      by (rewrite Hfit; apply Z.leb_le; exact Hfast).
    rewrite delay_SysTick_zero.
    destruct (ensure_SysTick_first cfg hw 0 st Hinit Hyes) as (st' & H & _).
    eauto.
Qed.

(** ** The diagnostics change nothing *)

(** From two states with the same variables and registers to their
    components, for a goal on states built from them. *)
Ltac same_core_cases H st st2 :=
  unfold same_core, untraced in *;
  destruct st, st2; cbn in H; injection H as; subst; cbn;
  repeat match goal with
         | |- context [if ?b then _ else _] => destruct b; cbn
         end;
  try reflexivity.

Lemma same_core_refl st : same_core st st.
Proof. reflexivity. Qed.

Lemma same_core_trans a b c : same_core a b -> same_core b c -> same_core a c.
Proof. unfold same_core. congruence. Qed.

Lemma same_core_fields st st2 :
  same_core st st2 ->
  rtc_side st = rtc_side st2 /\ tick_side st = tick_side st2.
Proof.
  intros H. unfold rtc_side, tick_side. same_core_cases H st st2. split; reflexivity.
Qed.

Lemma same_core_log e st st2 :
  same_core st st2 -> same_core (log e st) st2.
Proof. intros H. same_core_cases H st st2. Qed.

Section TwoBuilds.

Variable cfg' : config.
Hypothesis same_timer : SYSTICKDELAY cfg' = SYSTICKDELAY cfg.
Hypothesis same_oscillator : ULFRCO cfg' = ULFRCO cfg.

Lemma same_core_initRTC st st2 :
  same_core st st2 -> same_core (initRTC cfg hw st) (initRTC cfg' hw st2).
Proof.
  intros H.
  unfold initRTC, dbinfo, dbprint. rewrite same_oscillator.
  unfold same_core, untraced in *.
  destruct st, st2; cbn in H; injection H as; subst.
  destruct (ULFRCO cfg), (DEBUG_DBPRINT cfg), (DEBUG_DBPRINT cfg');
    cbv; reflexivity.
Qed.

Lemma same_core_ensure_RTC duration st st2 :
  same_core st st2 ->
  same_core (ensure_RTC cfg hw duration st) (ensure_RTC cfg' hw duration st2).
Proof.
  intros H. unfold ensure_RTC.
  destruct (same_core_fields st st2 H) as (R & _).
  apply rtc_side_eq in R. destruct R as (_ & _ & -> & _).
  destruct (RTC_initialized st2); simpl negb; cbv iota.
  - destruct (0 <? duration); [| exact H].
    unfold CMU_ClockEnable, log. same_core_cases H st st2.
  - apply same_core_initRTC. exact H.
Qed.

Lemma same_core_announce sSleep st st2 :
  same_core st st2 ->
  same_core (announce_sleep cfg sSleep st) (announce_sleep cfg' sSleep st2).
Proof.
  intros H. unfold announce_sleep, log. same_core_cases H st st2.
Qed.

Lemma same_core_too_long st st2 :
  same_core st st2 -> same_core (too_long cfg st) (too_long cfg' st2).
Proof.
  intros H. unfold too_long, dbcrit, dbprint, CMU_ClockEnable, log.
  same_core_cases H st st2.
Qed.

Lemma same_core_started v st st2 :
  same_core st st2 ->
  same_core (RTC_Enable hw true (RTC_CompareSet 0 v st))
            (RTC_Enable hw true (RTC_CompareSet 0 v st2)) /\
  same_core (RTC_Enable hw true (set_sleeping true (RTC_CompareSet 0 v st)))
            (RTC_Enable hw true (set_sleeping true (RTC_CompareSet 0 v st2))).
Proof.
  intros H. unfold RTC_Enable, RTC_CompareSet, rtc_enable_bit, log.
  split; same_core_cases H st st2.
Qed.

Lemma same_core_closed st st2 :
  same_core st st2 ->
  same_core (CMU_ClockEnable cmuClock_RTC false st)
            (CMU_ClockEnable cmuClock_RTC false st2) /\
  same_core (CMU_ClockEnable cmuClock_RTC false (set_sleeping false st))
            (CMU_ClockEnable cmuClock_RTC false (set_sleeping false st2)).
Proof.
  intros H. unfold CMU_ClockEnable, log. split; same_core_cases H st st2.
Qed.

Lemma same_core_RTC_irq st st2 :
  same_core st st2 -> same_core (RTC_irq hw st) (RTC_irq hw st2).
Proof.
  intros H.
  unfold RTC_irq, RTC_IRQHandler, compare_irq_armed, RTC_Enable, RTC_IntClear,
    rtc_enable_bit, log.
  same_core_cases H st st2.
Qed.

Lemma same_outcome_low_power_wait w st st2 :
  same_core st st2 ->
  same_outcome (low_power_wait hw w st) (low_power_wait hw w st2).
Proof.
  intros H. unfold low_power_wait.
  destruct (same_core_fields st st2 H) as (R & _).
  assert (Harmed : compare_irq_armed st = compare_irq_armed st2).
  { apply rtc_side_eq in R. destruct R as (_ & _ & _ & R4 & R5 & _ & R7 & R8).
    unfold compare_irq_armed. congruence. }
  destruct w as [| cnt].
  - rewrite Harmed. destruct (compare_irq_armed st2); [| exact I].
    apply same_core_RTC_irq. exact H.
  - cbn [same_outcome]. same_core_cases H st st2.
Qed.

Lemma same_outcome_EMU_Enter w st st2 :
  same_core st st2 ->
  same_outcome (EMU_Enter cfg hw w st) (EMU_Enter cfg' hw w st2).
Proof.
  intros H. unfold EMU_Enter, EMU_EnterEM3, EMU_EnterEM2.
  destruct (ULFRCO cfg), (ULFRCO cfg');
    apply same_outcome_low_power_wait;
    apply same_core_log; unfold same_core in *; symmetry;
    apply same_core_log; unfold same_core in *; symmetry; exact H.
Qed.

Lemma same_ticks duration :
  sleep_ticks cfg' duration = sleep_ticks cfg duration /\
  delay_ticks cfg' duration = delay_ticks cfg duration.
Proof. unfold sleep_ticks, delay_ticks. rewrite same_oscillator. split; reflexivity. Qed.

Lemma same_outcome_sleep sSleep env st st2 :
  same_core st st2 ->
  same_outcome (sleep cfg hw sSleep env st) (sleep cfg' hw sSleep env st2).
Proof.
  intros H. unfold sleep.
  destruct (same_ticks sSleep) as (-> & _).
  pose proof (same_core_announce sSleep _ _ (same_core_ensure_RTC sSleep st st2 H))
    as Hann.
  destruct (0 <? sSleep); [| exact (same_core_ensure_RTC sSleep st st2 H)].
  destruct (sleep_ticks cfg sSleep <=? RTC_COMP_MAX).
  - destruct (same_core_started (sleep_ticks cfg sSleep) _ _ Hann) as (_ & Hstart).
    pose proof (same_outcome_EMU_Enter (wake_cause env) _ _ Hstart) as Hwait.
    unfold bind.
    destruct (EMU_Enter cfg hw (wake_cause env) _) as [a |];
      destruct (EMU_Enter cfg' hw (wake_cause env) _) as [b |];
      try exact Hwait.
    apply same_core_closed. exact Hwait.
  - exact (same_core_too_long _ _ Hann).
Qed.

Lemma same_outcome_delay_RTC msDelay env st st2 :
  same_core st st2 ->
  same_outcome (delay_RTC cfg hw msDelay env st)
               (delay_RTC cfg' hw msDelay env st2).
Proof.
  intros H. unfold delay_RTC.
  destruct (same_ticks msDelay) as (_ & ->).
  pose proof (same_core_ensure_RTC msDelay st st2 H) as Hens.
  destruct (0 <? msDelay); [| exact Hens].
  destruct (Double.leb (delay_ticks cfg msDelay) (Double.of_Z RTC_COMP_MAX)).
  - destruct (same_core_started (Double.to_uint32 (delay_ticks cfg msDelay))
                _ _ Hens) as (Hstart & _).
    pose proof (same_outcome_EMU_Enter (wake_cause env) _ _ Hstart) as Hwait.
    unfold bind.
    destruct (EMU_Enter cfg hw (wake_cause env) _) as [a |];
      destruct (EMU_Enter cfg' hw (wake_cause env) _) as [b |];
      try exact Hwait.
    apply same_core_closed. exact Hwait.
  - exact (same_core_too_long _ _ Hens).
Qed.

Lemma same_core_SysTick_irq st st2 :
  same_core st st2 -> same_core (SysTick_irq st) (SysTick_irq st2).
Proof.
  intros H. unfold SysTick_irq, SysTick_running, SysTick_Handler, log.
  same_core_cases H st st2.
Qed.

Lemma same_core_burst k st st2 :
  same_core st st2 ->
  same_core (Nat.iter k SysTick_irq st) (Nat.iter k SysTick_irq st2).
Proof.
  intros H. induction k as [| k IH]; [exact H |].
  rewrite !Nat.iter_succ. apply same_core_SysTick_irq. exact IH.
Qed.

Lemma same_outcome_busy_wait bursts curTicks msDelay st st2 :
  same_core st st2 ->
  same_outcome (busy_wait bursts curTicks msDelay st)
               (busy_wait bursts curTicks msDelay st2).
Proof.
  revert st st2. induction bursts as [| k rest IH]; intros st st2 H;
    cbn [busy_wait];
    destruct (same_core_fields st st2 H) as (_ & T);
    apply tick_side_eq in T; destruct T as (-> & _);
    destruct (uint32 (msTicks st2 - curTicks) <? msDelay);
    try exact H; try exact I.
  apply IH. apply same_core_burst. exact H.
Qed.

Lemma same_outcome_ensure_SysTick msDelay st st2 :
  same_core st st2 ->
  same_outcome (ensure_SysTick cfg hw msDelay st)
               (ensure_SysTick cfg' hw msDelay st2).
Proof.
  intros H.
  unfold ensure_SysTick, CMU_ClockFreqGet, SysTick_Config, dbinfo, dbprint,
    write_SysTick_CTRL, log.
  destruct (SysTick_LOAD_RELOAD_Msk <? uint32 (uint32 (core_clock hw) / 1000 - 1));
    destruct (0 <? msDelay);
    same_core_cases H st st2.
Qed.

Lemma same_core_disable_SysTick st st2 :
  same_core st st2 -> same_core (disable_SysTick st) (disable_SysTick st2).
Proof.
  intros H. unfold disable_SysTick, write_SysTick_CTRL, log.
  same_core_cases H st st2.
Qed.

Lemma same_outcome_delay_SysTick msDelay env st st2 :
  same_core st st2 ->
  same_outcome (delay_SysTick cfg hw msDelay env st)
               (delay_SysTick cfg' hw msDelay env st2).
Proof.
  intros H. unfold delay_SysTick, bind. cbv zeta.
  pose proof (same_outcome_ensure_SysTick msDelay st st2 H) as Hens.
  destruct (ensure_SysTick cfg hw msDelay st) as [a |];
    destruct (ensure_SysTick cfg' hw msDelay st2) as [b |];
    try exact Hens; try (exfalso; exact Hens).
  destruct (0 <? msDelay); [| exact Hens].
  destruct (same_core_fields a b Hens) as (_ & T).
  apply tick_side_eq in T. destruct T as (-> & _).
  pose proof (same_outcome_busy_wait (tick_bursts env) (msTicks b) msDelay a b Hens)
    as Hwait.
  destruct (busy_wait (tick_bursts env) (msTicks b) msDelay a) as [a2 |];
    destruct (busy_wait (tick_bursts env) (msTicks b) msDelay b) as [b2 |];
    try exact Hwait.
  apply same_core_disable_SysTick. exact Hwait.
Qed.

Lemma same_outcome_run_call c st st2 :
  same_core st st2 ->
  same_outcome (run_call cfg hw c st) (run_call cfg' hw c st2).
Proof.
  intros H.
  destruct c as [msDelay env | sSleep env | | | | |]; cbn [run_call].
  - unfold delay. rewrite same_timer. destruct (SYSTICKDELAY cfg).
    + apply same_outcome_delay_SysTick. exact H.
    + apply same_outcome_delay_RTC. exact H.
  - apply same_outcome_sleep. exact H.
  - exact H.
  - cbn [same_outcome]. unfold RTC_clearWakeup. same_core_cases H st st2.
  - cbn [same_outcome].
    unfold RTC_getPassedSleeptime, RTC_CounterGet, RTC_Enable, rtc_enable_bit, log.
    same_core_cases H st st2.
  - apply same_core_SysTick_irq. exact H.
  - apply same_core_RTC_irq. exact H.
Qed.

(** X15. The diagnostics and the trace change nothing else: two builds
    that differ only in [DEBUG_DBPRINT] and [ANNOUNCE_SLEEPING], run over
    the same calls and interrupts from states with the same variables and
    registers, both hang or both return, with the same variables and
    registers; and [RTC_getPassedSleeptime] returns the same number. *)
Theorem diagnostics_change_nothing :
  forall cs st st2,
    same_core st st2 ->
    same_outcome (run cfg hw cs st) (run cfg' hw cs st2) /\
    fst (RTC_getPassedSleeptime cfg hw st)
      = fst (RTC_getPassedSleeptime cfg' hw st2).
Proof.
  intros cs st st2 H. split.
  - revert st st2 H. induction cs as [| c cs IH]; intros st st2 H; cbn [run].
    + exact H.
    + pose proof (same_outcome_run_call c st st2 H) as Hstep. unfold bind.
      destruct (run_call cfg hw c st) as [a |];
        destruct (run_call cfg' hw c st2) as [b |];
        try exact Hstep; try (exfalso; exact Hstep).
      apply IH. exact Hstep.
  - unfold RTC_getPassedSleeptime, RTC_CounterGet. cbn [fst].
    rewrite same_oscillator.
    assert (Hcnt : RTC_CNT st = RTC_CNT st2)
      by (unfold same_core, untraced in H; destruct st, st2; cbn in H;
          injection H as; subst; reflexivity).
    rewrite Hcnt. reflexivity.
Qed.

End TwoBuilds.

End Further.

(** ** Concrete runs of the further properties *)

(** The end of a run from a state the program can be in is such a state. *)
Lemma reachable_run cfg hw cs :
  forall st st',
    reachable cfg hw st -> run cfg hw cs st = Some st' -> reachable cfg hw st'.
Proof.
  induction cs as [| c cs IH]; intros st st' Hreach Hrun; cbn [run] in Hrun.
  - injection Hrun as <-. exact Hreach.
  - unfold bind in Hrun.
    destruct (run_call cfg hw c st) as [st1 |] eqn:Hstep; [| discriminate].
    apply (IH st1 st'); [| exact Hrun].
    exact (@reachable_step cfg hw c st st1 Hreach Hstep).
Qed.

(** A state is reached by the run that evaluates to it. *)
Ltac reached_by cfg hw cs :=
  apply (reachable_run cfg hw cs init_state);
  [apply reachable_init | vm_compute; reflexivity].


Lemma initialised_exactly_once_witness :
  exists st,
    run build_ULFRCO board_keep
      [Call_sleep 5 to_completion; Call_delay 7 to_completion;
       Call_sleep 0 to_completion] init_state = Some st /\
    count_events is_RTC_Init (trace st) = 1%nat /\
    count_events is_SysTick_Config (trace st) = 0%nat /\
    (forall c st',
       run_call build_ULFRCO board_keep c st = Some st' ->
       (RTC_initialized st = true -> RTC_initialized st' = true) /\
       (SysTick_initialized st = true -> SysTick_initialized st' = true)).
Proof.
  eexists. split; [vm_compute; reflexivity |].
  apply (initialised_exactly_once build_ULFRCO board_keep).
  reached_by build_ULFRCO board_keep
    [Call_sleep 5 to_completion; Call_delay 7 to_completion;
     Call_sleep 0 to_completion].
Defined.

Lemma msTicks_counts_tick_interrupts_witness :
  exists st,
    run build_SysTick board_keep
      [Call_delay 3 (one_tick_per_poll 5); Irq_SysTick;
       Call_delay 2 (one_tick_per_poll 4)] init_state = Some st /\
    msTicks st = uint32 (tick_count (trace st)).
Proof.
  eexists. split; [vm_compute; reflexivity |].
  apply (msTicks_counts_tick_interrupts build_SysTick board_keep).
  reached_by build_SysTick board_keep
    [Call_delay 3 (one_tick_per_poll 5); Irq_SysTick;
     Call_delay 2 (one_tick_per_poll 4)].
Defined.

Lemma wake_flag_means_compare_interrupt_witness :
  exists st,
    run build_ULFRCO board_keep
      [Call_delay 7 to_completion; Call_sleep 5 to_completion] init_state
      = Some st /\
    In Ev_IRQ_RTC (trace st).
Proof.
  eexists. split; [vm_compute; reflexivity |].
  apply (wake_flag_means_compare_interrupt build_ULFRCO board_keep).
  - reached_by build_ULFRCO board_keep
      [Call_delay 7 to_completion; Call_sleep 5 to_completion].
  - reflexivity.
Defined.

Lemma counter_still_between_calls_witness :
  exists st,
    run build_LFXO board_keep [Call_sleep 5 woken_early] init_state = Some st /\
    counter_counts st = false /\
    compare_irq_armed st = false /\
    RTC_irq board_keep st = st.
Proof.
  eexists. split; [vm_compute; reflexivity |].
  apply (counter_still_between_calls build_LFXO board_keep).
  reached_by build_LFXO board_keep [Call_sleep 5 woken_early].
Defined.

Lemma interrupt_ready_between_calls_witness :
  exists st,
    run build_LFXO board_clear
      [Call_delay 7 to_completion; Call_sleep 5 woken_early] init_state
      = Some st /\
    sleeping st = false /\ RTC_IEN_COMP0 st = true /\ NVIC_RTC st = true.
Proof.
  eexists. split; [vm_compute; reflexivity |].
  match goal with
  | |- sleeping ?st = false /\ _ =>
      destruct (interrupt_ready_between_calls build_LFXO board_clear st)
        as (Hs & Hirq)
  end.
  - reached_by build_LFXO board_clear
      [Call_delay 7 to_completion; Call_sleep 5 woken_early].
  - split; [exact Hs |]. apply Hirq. reflexivity.
Defined.

Lemma delay_on_SysTick_leaves_RTC_alone_witness :
  exists st',
    delay build_SysTick board_keep 3 (one_tick_per_poll 5) init_state
      = Some st' /\
    rtc_side st' = rtc_side init_state /\
    grown_by systick_event (trace init_state) (trace st').
Proof.
  eexists. split; [vm_compute; reflexivity |].
  apply (delay_on_SysTick_leaves_RTC_alone build_SysTick board_keep
           3 (one_tick_per_poll 5) init_state).
  - reflexivity.
  - vm_compute. reflexivity.
Defined.



Lemma sleep_carried_out_witness :
  exists st',
    sleep build_ULFRCO board_keep 16777 to_completion init_state = Some st' /\
    RTC_COMP0 st' = 16777000 /\
    RTC_sleep_wakeup st' = true /\
    sleeping st' = false /\
    RTC_EN st' = false /\
    RTC_IF_COMP0 st' = false /\
    clk_RTC st' = false.
Proof.
  apply (sleep_carried_out build_ULFRCO board_keep 16777 to_completion init_state).
  - apply reachable_init.
  - reflexivity.
  - vm_compute. discriminate.
  - reflexivity.
Defined.

Lemma delay_carried_out_witness :
  exists st',
    delay build_LFXO board_keep 1000 to_completion init_state = Some st' /\
    RTC_COMP0 st' = 32768 /\
    RTC_sleep_wakeup st' = RTC_sleep_wakeup init_state /\
    sleeping st' = false /\
    RTC_EN st' = false /\
    RTC_IF_COMP0 st' = false /\
    clk_RTC st' = false.
Proof.
  apply (delay_carried_out build_LFXO board_keep 1000 to_completion init_state).
  - apply reachable_init.
  - reflexivity.
  - reflexivity.
  - vm_compute. reflexivity.
  - reflexivity.
Defined.


Lemma sleep_accepted_up_to_witness :
  sleep_fits build_ULFRCO 16777 = true /\
  sleep_fits build_ULFRCO 16778 = false /\
  sleep_fits build_LFXO 511 = true /\
  sleep_fits build_LFXO 512 = false.
Proof.
  split; [| split; [| split]].
  - apply (sleep_accepted_up_to build_ULFRCO 16777); [discriminate | reflexivity].
  - apply (sleep_accepted_up_to build_ULFRCO 16778); [discriminate | reflexivity].
  - apply (sleep_accepted_up_to build_LFXO 511); [discriminate | reflexivity].
  - apply (sleep_accepted_up_to build_LFXO 512); [discriminate | reflexivity].
Defined.

Lemma first_delay_hangs_on_slow_core_witness :
  delay build_SysTick board_slow 5 (one_tick_per_poll 9) init_state = None /\
  exists st', delay build_SysTick board_keep 0 to_completion init_state = Some st'.
Proof.
  split.
  - apply (first_delay_hangs_on_slow_core build_SysTick board_slow init_state).
    + reflexivity.
    + reflexivity.
    + vm_compute. split; [discriminate | reflexivity].
    + reflexivity.
  - apply (first_delay_hangs_on_slow_core build_SysTick board_keep init_state).
    + reflexivity.
    + reflexivity.
    + vm_compute. split; [discriminate | reflexivity].
    + vm_compute. discriminate.
Defined.

Lemma diagnostics_change_nothing_witness :
  same_outcome
    (run build_SysTick board_keep
       [Call_delay 3 (one_tick_per_poll 5); Call_sleep 5 woken_early;
        Call_RTC_getPassedSleeptime] init_state)
    (run (silent build_SysTick) board_keep
       [Call_delay 3 (one_tick_per_poll 5); Call_sleep 5 woken_early;
        Call_RTC_getPassedSleeptime] init_state) /\
  fst (RTC_getPassedSleeptime build_SysTick board_keep init_state)
    = fst (RTC_getPassedSleeptime (silent build_SysTick) board_keep init_state).
Proof.
  apply (diagnostics_change_nothing build_SysTick board_keep
           (silent build_SysTick)).
  - reflexivity.
  - reflexivity.
  - reflexivity.
Defined.
